(** * Marketplace listing extraction: a shallow embedding of the scraper

    The development follows [Facebook_Marketplace_Scraper.py]:
    [build_search_url], the structured traversal [search_listings] of
    [_process_json_data], the markup fallback of [scrape_listings] and
    [_get_sample_data].

    Python text is modelled by [string]; every character is read as the
    code point of the same number (U+0000 to U+00FF).  [int] refuses a
    text of more than 4300 digits, the default of the interpreter. *)

From Stdlib Require Import ZArith List String Ascii Lia Bool.
From Stdlib Require Import Floats.SpecFloat Numbers.DecimalString.
From stdpp Require Import base option list gmap strings.

Open Scope string_scope.
Open Scope list_scope.
Open Scope Z_scope.

(** ** Characters and text *)

Module Text.

Abbreviation chars := (list ascii).

Definition code (c : ascii) : N := N_of_ascii c.

Definition between (lo hi : N) (c : ascii) : bool :=
  ((lo <=? code c) && (code c <=? hi))%N.

(** [\d] of [re], and the digits [int] accepts. *)
Definition is_decimal (c : ascii) : bool := between 48 57 c.

(** One character of [str.isdigit]: the decimal digits and the
    superscripts two, three and one. *)
Definition is_digit (c : ascii) : bool :=
  is_decimal c || (code c =? 178)%N || (code c =? 179)%N || (code c =? 185)%N.

(** [str.isspace] on one character; also [\s] of [re] and the separators
    of [str.split()] and [str.strip()]. *)
Definition is_space (c : ascii) : bool :=
  between 9 13 c || between 28 32 c || (code c =? 133)%N || (code c =? 160)%N.

Definition digit_value (c : ascii) : Z := Z.of_N (code c - 48).

Definition lower_char (c : ascii) : ascii :=
  if between 65 90 c then ascii_of_N (code c + 32)
  else if between 192 222 c && negb (code c =? 215)%N
       then ascii_of_N (code c + 32)
  else c.

Definition lower (s : chars) : chars := map lower_char s.

Fixpoint starts_with (p s : chars) : bool :=
  match p, s with
  | [], _ => true
  | a :: p', b :: s' => Ascii.eqb a b && starts_with p' s'
  | _ :: _, [] => false
  end.

(** [needle in hay] on two strings. *)
Fixpoint contains (needle hay : chars) : bool :=
  starts_with needle hay ||
  match hay with
  | [] => false
  | _ :: t => contains needle t
  end.

(** [str.split()]: [cur] is the token being read, in reverse. *)
Fixpoint split_from (cur : chars) (s : chars) : list chars :=
  match s with
  | [] => match cur with [] => [] | _ => [rev cur] end
  | c :: t =>
      if is_space c
      then match cur with
           | [] => split_from [] t
           | _ => rev cur :: split_from [] t
           end
      else split_from (c :: cur) t
  end.

Definition split (s : chars) : list chars := split_from [] s.

Fixpoint lstrip (s : chars) : chars :=
  match s with
  | c :: t => if is_space c then lstrip t else s
  | [] => []
  end.

Definition strip (s : chars) : chars := rev (lstrip (rev (lstrip s))).

(** [str.isdigit()]. *)
Definition isdigit (s : chars) : bool :=
  match s with
  | [] => false
  | _ => forallb is_digit s
  end.

(** The digits of [int(s)] after the sign: decimal digits, single
    underscores between them. *)
Fixpoint int_digits (acc : Z) (after_digit : bool) (s : chars) : option Z :=
  match s with
  | [] => if after_digit then Some acc else None
  | c :: t =>
      if is_decimal c then int_digits (10 * acc + digit_value c) true t
      else if Ascii.eqb c "_"
           then (if after_digit then int_digits acc false t else None)
      else None
  end.

(** The integer a text without white space denotes: a sign, then the
    digits. *)
Definition int_literal (s : chars) : option Z :=
  match s with
  | c :: t =>
      if Ascii.eqb c "+" then int_digits 0 false t
      else if Ascii.eqb c "-" then Z.opp <$> int_digits 0 false t
      else int_digits 0 false s
  | [] => None
  end.

(** [sys.get_int_max_str_digits()] as the interpreter sets it (CPython
    3.11 and later): [int] refuses a text with more digits; the sign and
    the underscores do not count. *)
Definition int_max_str_digits : Z := 4300.

Definition digit_count (s : chars) : Z :=
  Z.of_nat (length (List.filter is_decimal s)).

(** [int(s)] for a text [s] without white space, as every caller passes
    (a token of [split()], a group of digits, a filtered text); [None]
    is [ValueError]. *)
Definition py_int (s : chars) : option Z :=
  if int_max_str_digits <? digit_count s then None else int_literal s.

(** [str(n)] of an integer. *)
Definition str_of_Z (n : Z) : string := NilZero.string_of_int (Z.to_int n).

End Text.

Import Text.

Notation "'chr' s" := (list_ascii_of_string s) (at level 9, only parsing).

(** ** Regular expressions

    The two patterns of the source use literal characters, the classes
    [\d] and [\s], sequencing, the greedy [*] and [+], and one capturing
    group that opens the pattern. *)

Module Regex.

Inductive regex : Type :=
| RChr (c : ascii)
| RSet (p : ascii -> bool)
| RSeq (r1 r2 : regex)
| RStar (r : regex)
| RPlus (r : regex).

(** The language of a pattern. *)
Inductive matches : regex -> chars -> Prop :=
| M_chr c : matches (RChr c) [c]
| M_set p c : p c = true -> matches (RSet p) [c]
| M_seq r1 r2 u v :
    matches r1 u -> matches r2 v -> matches (RSeq r1 r2) (u ++ v)
| M_star_nil r : matches (RStar r) []
| M_star_cons r u v :
    u <> [] -> matches r u -> matches (RStar r) v ->
    matches (RStar r) (u ++ v)
| M_plus r u v :
    matches r u -> matches (RStar r) v -> matches (RPlus r) (u ++ v).

Section Matcher.
Context {R : Type}.

(** A matcher takes the text left to read and the continuation that
    tries the rest of the pattern; [None] asks for backtracking. *)
Definition matcher := chars -> (chars -> option R) -> option R.

(** Greedy repetition: one more round of [m] first, the rest of the
    pattern only when that fails. A round that reads nothing ends the
    repetition. *)
Fixpoint star (m : matcher) (fuel : nat) (s : chars)
    (k : chars -> option R) : option R :=
  match fuel with
  | O => k s
  | S fuel' =>
      match m s (fun s' => if (length s' <? length s)%nat
                           then star m fuel' s' k else None) with
      | Some x => Some x
      | None => k s
      end
  end.

Fixpoint rmatch (r : regex) : matcher :=
  fun s k =>
  match r with
  | RChr c =>
      match s with
      | a :: t => if Ascii.eqb a c then k t else None
      | [] => None
      end
  | RSet p =>
      match s with
      | a :: t => if p a then k t else None
      | [] => None
      end
  | RSeq r1 r2 => rmatch r1 s (fun s' => rmatch r2 s' k)
  | RStar r1 => star (rmatch r1) (length s) s k
  | RPlus r1 =>
      rmatch r1 s (fun s' => star (rmatch r1) (length s') s' k)
  end.
End Matcher.

(** A pattern [(grp)rest]: group 1 followed by the rest. *)
Record pattern : Type := Pattern { grp : regex; rest : regex }.

(** A match that starts at the head of [s]; the result is group 1. *)
Definition match_here (p : pattern) (s : chars) : option chars :=
  rmatch (grp p) s (fun s1 =>
    rmatch (rest p) s1 (fun _ => Some (take (length s - length s1) s))).

(** [re.search(p, s)]: the leftmost match; the result is [group(1)]. *)
Fixpoint search (p : pattern) (s : chars) : option chars :=
  match match_here p s with
  | Some g => Some g
  | None =>
      match s with
      | [] => None
      | _ :: t => search p t
      end
  end.

Definition digits1 : regex := RPlus (RSet is_decimal).
Definition spaces0 : regex := RStar (RSet is_space).
Definition km : regex := RSeq (RChr "k") (RChr "m").

(** The first pattern, [(\d+)K\s*km]. *)
Definition pat_thousands : pattern :=
  Pattern digits1 (RSeq (RChr "K") (RSeq spaces0 km)).

(** The second pattern: group 1 is [\d+] followed by any number of
    [(?:,\d+)]; then [\s*km]. *)
Definition pat_plain : pattern :=
  Pattern (RSeq digits1 (RStar (RSeq (RChr ",") digits1))) (RSeq spaces0 km).

(** [re.sub(r'[^\d.]', '', s)] *)
Definition keep_digits_and_dots (s : chars) : chars :=
  filter (fun c => is_decimal c || Ascii.eqb c ".") s.

(** [s.replace(',', '')] *)
Definition drop_commas (s : chars) : chars :=
  filter (fun c => negb (Ascii.eqb c ",")) s.

End Regex.

Import Regex.

(** ** Python values, exceptions and the primitives the scraper uses *)

#[local] Set Warnings "-register-all".

(** A decoded JSON document; the same type holds the values stored in a
    listing dictionary. A [VDict] lists the items of a Python [dict] in
    insertion order. *)
Inductive value : Type :=
| VNone
| VBool (b : bool)
| VInt (n : Z)
| VFloat (x : spec_float)
| VStr (s : string)
| VList (items : list value)
| VDict (items : list (string * value)).

Inductive exn : Type :=
| ValueError | TypeError | AttributeError | KeyError | IndexError
| OverflowError.

Inductive result (A : Type) : Type :=
| Ok (a : A)
| Raise (e : exn).
Arguments Ok {A} a.
Arguments Raise {A} e.

#[global] Instance result_ret : MRet result := fun A a => Ok a.
#[global] Instance result_bind : MBind result := fun A B f m =>
  match m with
  | Ok a => f a
  | Raise e => Raise e
  end.

(** What the interpreter and the [json] module contribute: decoding a
    text ([None] when [json.loads] raises), reading a float from a text
    ([None] is [ValueError]), and the [repr] of floats, lists and
    dictionaries. *)
Class Runtime : Type := {
  json_loads : string -> option value;
  float_of_str : string -> option spec_float;
  repr : value -> string
}.

Module Py.

Definition str (s : chars) : string := string_of_list_ascii s.

Definition one : spec_float := Eval vm_compute in binary_normalize 53 1024 1 0 false.

Fixpoint dict_get (key : string) (items : list (string * value)) : option value :=
  match items with
  | [] => None
  | (k, v) :: t => if String.eqb k key then Some v else dict_get key t
  end.

(** [key in d] for a dictionary [d]. *)
Definition has_key (key : string) (items : list (string * value)) : bool :=
  match dict_get key items with Some _ => true | None => false end.

(** [d.get(key, default)] *)
Definition get_default (key : string) (default : value)
    (items : list (string * value)) : value :=
  match dict_get key items with Some v => v | None => default end.

Definition truthy (v : value) : bool :=
  match v with
  | VNone => false
  | VBool b => b
  | VInt n => negb (n =? 0)
  | VFloat (S754_zero _) => false
  | VFloat _ => true
  | VStr s => negb (String.eqb s "")
  | VList l => match l with [] => false | _ => true end
  | VDict l => match l with [] => false | _ => true end
  end.

(** [a or b] *)
Definition py_or (a b : value) : value := if truthy a then a else b.

Definition is_str (key : string) (v : value) : bool :=
  match v with VStr s => String.eqb s key | _ => false end.

(** [key in x] for a text [key]. *)
Definition py_in (key : string) (x : value) : result bool :=
  match x with
  | VDict items => Ok (has_key key items)
  | VList items => Ok (existsb (is_str key) items)
  | VStr s => Ok (contains (chr key) (chr s))
  | _ => Raise TypeError
  end.

(** [x[key]] for a text [key]. *)
Definition getitem (x : value) (key : string) : result value :=
  match x with
  | VDict items =>
      match dict_get key items with
      | Some v => Ok v
      | None => Raise KeyError
      end
  | _ => Raise TypeError
  end.

(** [x[0]]; the keys of a decoded dictionary are texts, never [0]. *)
Definition getitem0 (x : value) : result value :=
  match x with
  | VList (v :: _) => Ok v
  | VList [] => Raise IndexError
  | VStr (String c _) => Ok (VStr (String c ""))
  | VStr "" => Raise IndexError
  | VDict _ => Raise KeyError
  | _ => Raise TypeError
  end.

Definition len (x : value) : result nat :=
  match x with
  | VList items => Ok (length items)
  | VDict items => Ok (length items)
  | VStr s => Ok (String.length s)
  | _ => Raise TypeError
  end.

(** The elements [for e in x] visits. *)
Definition iter (x : value) : result (list value) :=
  match x with
  | VList items => Ok items
  | VDict items => Ok (map (fun kv => VStr (fst kv)) items)
  | VStr s => Ok (map (fun c => VStr (String c "")) (chr s))
  | _ => Raise TypeError
  end.

(** [x.split()] *)
Definition split (x : value) : result (list chars) :=
  match x with
  | VStr s => Ok (Text.split (chr s))
  | _ => Raise AttributeError
  end.

(** [x.lower()] *)
Definition lower (x : value) : result chars :=
  match x with
  | VStr s => Ok (Text.lower (chr s))
  | _ => Raise AttributeError
  end.

(** [int(s)] *)
Definition int (s : chars) : result Z :=
  match py_int s with
  | Some n => Ok n
  | None => Raise ValueError
  end.

(** [float(x)] *)
Definition float `{Runtime} (x : value) : result spec_float :=
  match x with
  | VFloat f => Ok f
  | VInt n =>
      match binary_normalize 53 1024 n 0 false with
      | S754_infinity _ => Raise OverflowError
      | f => Ok f
      end
  | VBool b => Ok (if b then one else S754_zero false)
  | VStr s =>
      match float_of_str s with
      | Some f => Ok f
      | None => Raise ValueError
      end
  | _ => Raise TypeError
  end.

(** [x] inside an f-string. *)
Definition format `{Runtime} (x : value) : string :=
  match x with
  | VStr s => s
  | VInt n => str_of_Z n
  | VNone => "None"
  | VBool true => "True"
  | VBool false => "False"
  | _ => repr x
  end.

End Py.

(** ** Listing dictionaries *)

(** [cars_dict]: a Python dictionary with text keys. *)
Abbreviation cars_dict := (gmap string value).

Definition placeholder_image : string :=
  "https://static.xx.fbcdn.net/rsrc.php/v3/yQ/r/8SkRZ1o0i0K.png".

Definition item_url_prefix : string := "https://www.facebook.com/marketplace/item/".

Definition site_origin : string := "https://www.facebook.com".

(** ** The structured traversal: [_process_json_data] *)

Section Structured.
Context `{Runtime}.

#[local] Abbreviation dict := (list (string * value)).

(** The test that opens the candidate branch of [search_listings]. *)
Definition is_listing (obj : dict) : bool :=
  (Py.has_key "marketplace_listing_title" obj || Py.has_key "custom_title" obj)
  && Py.has_key "listing_price" obj.

(** The price lines: [Price] is set only when the price object has an
    amount; [ValueError] from [float] gives 0, any other exception
    leaves the block. *)
Definition set_price (obj : dict) (cars : cars_dict) : result cars_dict :=
  if Py.has_key "listing_price" obj then
    lp ← Py.getitem (VDict obj) "listing_price";
    b ← Py.py_in "amount" lp;
    if b : bool then
      amount ← Py.getitem lp "amount";
      match Py.float amount with
      | Ok f => Ok (<["Price" := VFloat f]> cars)
      | Raise ValueError => Ok (<["Price" := VInt 0]> cars)
      | Raise e => Raise e
      end
    else Ok cars
  else Ok cars.

(** One round of the loop over the subtitles; [mileage] is the value
    the variable holds before the round. *)
Definition subtitle_step (mileage : Z) (subtitle : value) : result Z :=
  b ← Py.py_in "subtitle" subtitle;
  if b : bool then
    text ← Py.getitem subtitle "subtitle";
    low ← Py.lower text;
    if contains (chr "km") low then
      match text with
      | VStr mileage_text =>
          match search pat_thousands (chr mileage_text) with
          | Some g => n ← Py.int g; Ok (n * 1000)
          | None =>
              match search pat_plain (chr mileage_text) with
              | Some g => Py.int (drop_commas g)
              | None => Ok mileage
              end
          end
      | _ => Raise TypeError
      end
    else Ok mileage
  else Ok mileage.

Fixpoint subtitle_loop (mileage : Z) (subtitles : list value) : result Z :=
  match subtitles with
  | [] => Ok mileage
  | st :: rest => m ← subtitle_step mileage st; subtitle_loop m rest
  end.

Definition get_mileage (obj : dict) : result Z :=
  if Py.has_key "custom_sub_titles_with_rendering_flags" obj then
    sts ← Py.getitem (VDict obj) "custom_sub_titles_with_rendering_flags";
    l ← Py.iter sts;
    subtitle_loop 0 l
  else Ok 0.

(** The image lines, in the order of the source: the primary photo, the
    first of the listing photos, the placeholder. *)
Definition set_primary_image (obj : dict) (cars : cars_dict) : result cars_dict :=
  if Py.has_key "primary_listing_photo" obj then
    photo ← Py.getitem (VDict obj) "primary_listing_photo";
    b ← Py.py_in "image" photo;
    if b : bool then
      image ← Py.getitem photo "image";
      b' ← Py.py_in "uri" image;
      if b' : bool then
        uri ← Py.getitem image "uri";
        Ok (<["ImageURL" := uri]> cars)
      else Ok cars
    else Ok cars
  else Ok cars.

Definition set_fallback_image (obj : dict) (cars : cars_dict) : result cars_dict :=
  if negb (bool_decide (is_Some (cars !! "ImageURL")))
     && Py.has_key "listing_photos" obj then
    photos ← Py.getitem (VDict obj) "listing_photos";
    n ← Py.len photos;
    if (0 <? n)%nat then
      first ← Py.getitem0 photos;
      b ← Py.py_in "image" first;
      if b : bool then
        image ← Py.getitem first "image";
        b' ← Py.py_in "uri" image;
        if b' : bool then
          uri ← Py.getitem image "uri";
          Ok (<["ImageURL" := uri]> cars)
        else Ok cars
      else Ok cars
    else Ok cars
  else Ok cars.

Definition set_default_image (cars : cars_dict) : cars_dict :=
  if bool_decide (is_Some (cars !! "ImageURL")) then cars
  else <["ImageURL" := VStr placeholder_image]> cars.

(** [obj.get('marketplace_listing_title', '') or obj.get('custom_title', '')] *)
Definition listing_title (obj : dict) : value :=
  Py.py_or (Py.get_default "marketplace_listing_title" (VStr "") obj)
           (Py.get_default "custom_title" (VStr "") obj).

(** The body of the [try] block of a candidate node. [Ok None] is the
    [return] of a rejected title, [Ok (Some cars)] reaches the [append],
    [Raise e] is caught by the [except] of the block. *)
Definition candidate (obj : dict) : result (option cars_dict) :=
  let title := listing_title obj in
  title_split ← Py.split title;
  if (length title_split <? 3)%nat then Ok None
  else
    match py_int (nth 0 title_split []) with
    | None => Ok None
    | Some year =>
        let cars : cars_dict := <["Year" := VInt year]> ∅ in
        let cars := <["Make" := VStr (Py.str (nth 1 title_split []))]> cars in
        let cars := <["Model" := VStr (Py.str (nth 2 title_split []))]> cars in
        cars ← set_price obj cars;
        mileage ← get_mileage obj;
        let cars := <["Mileage" := VInt mileage]> cars in
        let cars := <["URL" := VStr (item_url_prefix +:+
                        Py.format (Py.get_default "id" (VStr "") obj))]> cars in
        cars ← set_primary_image obj cars;
        cars ← set_fallback_image obj cars;
        Ok (Some (set_default_image cars))
    end.

(** [search_listings(obj)]; [vehicles] is [vehicles_list] before the
    call and the result is the list after it. The recursion is that of
    the source, one call for each nesting level. This is the traversal
    when every call fits in the frames the interpreter allows;
    [search_listings_within] below is the traversal under the recursion
    limit, and agrees with this one within it. *)
Fixpoint search_listings (obj : value) (vehicles : list cars_dict)
    : list cars_dict :=
  match obj with
  | VDict items =>
      let values :=
        fix values (l : dict) (acc : list cars_dict) : list cars_dict :=
          match l with
          | [] => acc
          | (_, val) :: rest => values rest (search_listings val acc)
          end in
      if is_listing items then
        match candidate items with
        | Ok None => vehicles
        | Ok (Some cars) => values items (vehicles ++ [cars])
        | Raise _ => values items vehicles
        end
      else values items vehicles
  | VList items =>
      (fix elements (l : list value) (acc : list cars_dict) : list cars_dict :=
         match l with
         | [] => acc
         | item :: rest => elements rest (search_listings item acc)
         end) items vehicles
  | _ => vehicles
  end.

Definition process_json_data (data : value) (vehicles_list : list cars_dict)
    : list cars_dict :=
  search_listings data vehicles_list.

End Structured.

(** ** The parsed page *)

(** The tree [BeautifulSoup(html, 'html.parser')] builds: strings and
    elements with their attributes; the root is the document itself.
    The parser gives every string a class, by the element it is read
    in. [Text] is a string of the plain classes ([NavigableString],
    [CData]); [Special] is a string of any other class: what is read
    inside a [script], [style] or [template] element ([Script],
    [Stylesheet], [TemplateString]) or inside [rt] and [rp], a comment, a
    declaration. The markup [<span>$5<script>1</script></span>] is
    [Elem "span" [] [Text "$5"; Elem "script" [] [Special "1"]]]. *)
Inductive node : Type :=
| Text (s : string)
| Special (s : string)
| Elem (tag : string) (attrs : list (string * string)) (children : list node).

Module Soup.

Fixpoint attr (key : string) (attrs : list (string * string)) : option string :=
match attrs with
| [] => None
| (k, v) :: t => if String.eqb k key then Some v else attr key t
end.

(** Everything below a node, in document order. *)
Fixpoint descendants (n : node) : list node :=
match n with
| Text _ | Special _ => []
| Elem _ _ children =>
    (fix below (l : list node) : list node :=
       match l with
       | [] => []
       | c :: rest => c :: descendants c ++ below rest
       end) children
end.

(** [n.text] for an element that is no [script], [style], [template],
    [rt] or [rp] (the program reads it on [span] elements): the strings
    of the plain classes below [n], concatenated. [get_text] filters the
    strings by their class, so what the parser read inside a [script],
    [style] or [template] element is left out. *)
Fixpoint text (n : node) : string :=
match n with
| Text s => s
| Special _ => ""
| Elem _ _ children =>
    (fix join (l : list node) : string :=
       match l with
       | [] => ""
       | c :: rest => text c +:+ join rest
       end) children
end.

(** [n.string]: the string of a node with exactly one child, followed
  down through single children; a string of any class counts. *)
Fixpoint string_of (n : node) : option string :=
match n with
| Text s => Some s
| Special s => Some s
| Elem _ _ [c] => string_of c
| Elem _ _ _ => None
end.

Definition is_tag (name : string) (p : list (string * string) -> bool)
  (n : node) : bool :=
match n with
| Elem tag attrs _ => String.eqb tag name && p attrs
| Text _ | Special _ => false
end.

(** [n.find_all(name, ...)] with a test on the attributes. *)
Definition find_all (name : string) (p : list (string * string) -> bool)
  (n : node) : list node :=
List.filter (is_tag name p) (descendants n).

Definition attr_is (key val : string) (attrs : list (string * string)) : bool :=
match attr key attrs with
| Some v => String.eqb v val
| None => false
end.

(** [class_=lambda c: c and fragment in c]; the test runs on each class
  of the element. *)
Definition class_has (fragment : string) (attrs : list (string * string)) : bool :=
match attr "class" attrs with
| Some v => existsb (contains (chr fragment)) (Text.split (chr v))
| None => false
end.

Definition has_attr (key : string) (attrs : list (string * string)) : bool :=
match attr key attrs with Some _ => true | None => false end.

Definition get (key : string) (n : node) : option string :=
match n with
| Elem _ attrs _ => attr key attrs
| Text _ | Special _ => None
end.

End Soup.

(** ** The markup fallback and the pipeline: [scrape_listings] *)

Definition nonempty (s : string) : bool := negb (String.eqb s "").

(** The test of the title loop on one [span]. *)
Definition is_title (span : node) : bool :=
  let t := Soup.text span in
  nonempty t && (3 <=? length (Text.split (chr t)))%nat
  && isdigit (nth 0 (Text.split (chr t)) []).

(** The test of the price loop on one [span]. *)
Definition is_price (span : node) : bool :=
  let t := Soup.text span in
  nonempty t && contains (chr "$") (chr t).

(** The test of the mileage loop on one [span]. *)
Definition is_mileage (span : node) : bool :=
  let t := Soup.text span in
  nonempty t && contains (chr "km") (lower (chr t)).

Definition spans (container : node) : list node :=
  Soup.find_all "span" (fun _ => true) container.

(** The price lines of the markup path. *)
Definition markup_price (price_text : chars) : Z :=
  match Py.int (keep_digits_and_dots price_text) with
  | Ok n => n
  | Raise _ => 0
  end.

(** The mileage lines of the markup path. *)
Definition markup_mileage (mileage_text : chars) : result Z :=
  match search pat_thousands mileage_text with
  | Some g => n ← Py.int g; Ok (n * 1000)
  | None =>
      match search pat_plain mileage_text with
      | Some g => Py.int (drop_commas g)
      | None => Ok 0
      end
  end.

(** [url_text if url_text.startswith('http') else origin + url_text] *)
Definition absolute_url (url_text : string) : string :=
  if starts_with (chr "http") (chr url_text) then url_text
  else site_origin +:+ url_text.

(** The mileage loop: the text of the first [span] that mentions km, or
    the default. *)
Definition find_mileage_text (container : node) : chars :=
  match List.find is_mileage (spans container) with
  | Some span => strip (chr (Soup.text span))
  | None => chr "0 km"
  end.

(** The body of the [try] block of one container. [Ok None] is a
    [continue], [Raise e] is caught by the [except] of the block. *)
Definition container_record (container : node) : result (option cars_dict) :=
  match List.find is_title (spans container) with
  | None => Ok None
  | Some title_elem =>
      match List.find is_price (spans container) with
      | None => Ok None
      | Some price_elem =>
          match Soup.find_all "a" (Soup.has_attr "href") container with
          | [] => Ok None
          | url_elem :: _ =>
              let title_text := strip (chr (Soup.text title_elem)) in
              let price_text := strip (chr (Soup.text price_elem)) in
              let url_text := default "" (Soup.get "href" url_elem) in
              let mileage_text := find_mileage_text container in
              let title_split := Text.split title_text in
              if (length title_split <? 3)%nat then Ok None
              else
                match py_int (nth 0 title_split []) with
                | None => Ok None
                | Some year =>
                    let cars : cars_dict := <["Year" := VInt year]> ∅ in
                    let cars := <["Make" := VStr (Py.str (nth 1 title_split []))]> cars in
                    let cars := <["Model" := VStr (Py.str (nth 2 title_split []))]> cars in
                    let cars := <["Price" := VInt (markup_price price_text)]> cars in
                    mileage ← markup_mileage mileage_text;
                    let cars := <["Mileage" := VInt mileage]> cars in
                    let cars := <["URL" := VStr (absolute_url url_text)]> cars in
                    Ok (Some cars)
                end
          end
      end
  end.

(** One round of the loop over the containers. *)
Definition container_step (vehicles : list cars_dict) (container : node)
    : list cars_dict :=
  match container_record container with
  | Ok (Some cars) => vehicles ++ [cars]
  | _ => vehicles
  end.

Definition listing_containers (soup : node) : list node :=
  match Soup.find_all "div" (Soup.attr_is "role" "article") soup with
  | [] => Soup.find_all "div" (Soup.class_has "x1qjc9v5") soup
  | l => l
  end.

Definition script_tags (soup : node) : list node :=
  Soup.find_all "script" (Soup.attr_is "type" "application/json") soup.

Definition mentions_title (text : string) : bool :=
  contains (chr "marketplace_listing_title") (chr text)
  || contains (chr "custom_title") (chr text).

Section Pipeline.
Context `{Runtime}.

(** One round of the loop over the script tags; the state is
  [(json_data_found, vehicles_list)]. *)
Definition script_step (st : bool * list cars_dict) (script : node)
  : bool * list cars_dict :=
match Soup.string_of script with
| None => st
| Some text =>
    if nonempty text && mentions_title text then
      match json_loads text with
      | Some data => (true, process_json_data data (snd st))
      | None => (true, snd st)
      end
    else st
end.

Definition script_loop (soup : node) : bool * list cars_dict :=
fold_left script_step (script_tags soup) (false, []).

(** [scrape_listings] from the parsed page to its [return]. *)
Definition extract (soup : node) : list cars_dict :=
let '(json_data_found, vehicles_list) := script_loop soup in
if json_data_found then vehicles_list
else fold_left container_step (listing_containers soup) vehicles_list.

End Pipeline.

(** [_get_sample_data] *)
Definition sample_car (year : Z) (make model : string) (price mileage : Z)
    (url image : string) : cars_dict :=
  <["ImageURL" := VStr image]> (<["URL" := VStr url]> (<["Mileage" := VInt mileage]>
  (<["Price" := VInt price]> (<["Model" := VStr model]> (<["Make" := VStr make]>
  (<["Year" := VInt year]> ∅)))))).

Definition get_sample_data : list cars_dict :=
  [ sample_car 2018 "Honda" "Civic" 15995 78500
      "https://www.facebook.com/marketplace/item/sample1"
      "https://upload.wikimedia.org/wikipedia/commons/thumb/5/57/2018_Honda_Civic_SE_1.4_Front.jpg/1200px-2018_Honda_Civic_SE_1.4_Front.jpg";
    sample_car 2017 "Toyota" "Corolla" 14500 65000
      "https://www.facebook.com/marketplace/item/sample2"
      "https://upload.wikimedia.org/wikipedia/commons/thumb/f/f6/2017_Toyota_Corolla_%28ZRE172R%29_Ascent_sedan_%282018-11-02%29_01.jpg/1200px-2017_Toyota_Corolla_%28ZRE172R%29_Ascent_sedan_%282018-11-02%29_01.jpg";
    sample_car 2019 "Mazda" "3" 17995 45000
      "https://www.facebook.com/marketplace/item/sample3"
      "https://upload.wikimedia.org/wikipedia/commons/thumb/8/8c/2019_Mazda3_Sport_2.5L_AWD_%28North_America%29_front_NYIAS_2019.jpg/1200px-2019_Mazda3_Sport_2.5L_AWD_%28North_America%29_front_NYIAS_2019.jpg";
    sample_car 2016 "Hyundai" "Elantra" 12500 89000
      "https://www.facebook.com/marketplace/item/sample4"
      "https://upload.wikimedia.org/wikipedia/commons/thumb/c/c5/2016_Hyundai_Elantra_%28AD%29_Elite_sedan_%282018-11-02%29_01.jpg/1200px-2016_Hyundai_Elantra_%28AD%29_Elite_sedan_%282018-11-02%29_01.jpg";
    sample_car 2020 "Nissan" "Sentra" 18995 32000
      "https://www.facebook.com/marketplace/item/sample5"
      "https://upload.wikimedia.org/wikipedia/commons/thumb/f/fd/2020_Nissan_Sentra_SR%2C_front_12.21.19.jpg/1200px-2020_Nissan_Sentra_SR%2C_front_12.21.19.jpg" ].

(** How the browser session of [scrape_listings] ends before the page is
    searched: no browser can be had (the two early returns), a step up to
    the parse raises (the outer [except]), or the page is parsed. *)
Inductive session : Type :=
| NoBrowser
| Raised
| Parsed (soup : node).

Definition scrape_listings `{Runtime} (s : session) : list cars_dict :=
  match s with
  | NoBrowser => get_sample_data
  | Raised => get_sample_data
  | Parsed soup => extract soup
  end.

(** ** The query builder: [build_search_url] *)

Record FilterOptions : Type := {
  location : string;
  min_price : option Z;
  max_price : option Z;
  days_listed : option Z;
  min_mileage : option Z;
  max_mileage : option Z;
  min_year : option Z;
  max_year : option Z;
  transmission : option string;
  make : option string;
  model : option string
}.

(** [sep.join(l)] *)
Fixpoint join (sep : string) (l : list string) : string :=
  match l with
  | [] => ""
  | [x] => x
  | x :: rest => x +:+ sep +:+ join sep rest
  end.

(** [params.append(...)] when the option is given. *)
Definition append_if {A : Type} (o : option A) (render : A -> string)
    (params : list string) : list string :=
  match o with
  | Some x => params ++ [render x]
  | None => params
  end.

Definition search_params (o : FilterOptions) : list string :=
  let params := [] in
  let params := append_if (min_price o) (fun v => "minPrice=" +:+ str_of_Z v) params in
  let params := append_if (max_price o) (fun v => "maxPrice=" +:+ str_of_Z v) params in
  let params := append_if (days_listed o) (fun v => "daysSinceListed=" +:+ str_of_Z v) params in
  let params := append_if (min_mileage o) (fun v => "minMileage=" +:+ str_of_Z v) params in
  let params := append_if (max_mileage o) (fun v => "maxMileage=" +:+ str_of_Z v) params in
  let params := append_if (min_year o) (fun v => "minYear=" +:+ str_of_Z v) params in
  let params := append_if (max_year o) (fun v => "maxYear=" +:+ str_of_Z v) params in
  let params := append_if (transmission o) (fun v => "transmissionType=" +:+ v) params in
  let params :=
    match make o, model o with
    | Some mk, Some md => params ++ ["query=" +:+ mk +:+ md]
    | Some mk, None => params ++ ["query=" +:+ mk]
    | None, Some md => params ++ ["query=" +:+ md]
    | None, None => params
    end in
  params ++ ["exact=false"].

Definition build_search_url (o : FilterOptions) : string :=
  let base_url := "https://www.facebook.com/marketplace/" +:+ location o +:+ "/search?" in
  base_url +:+ join "&" (search_params o).

(** ** The two mileage forms, as the specification words them *)

(** [occurs p s g]: the pattern matches somewhere in [s] with [g] as
    group 1. *)
Definition occurs (p : pattern) (s g : chars) : Prop :=
  exists pre m post,
    s = pre ++ g ++ m ++ post /\ matches (grp p) g /\ matches (rest p) m.

(** A non-empty run of decimal digits. *)
Definition digits (d : chars) : Prop :=
  d <> [] /\ Forall (fun c => is_decimal c = true) d.

Definition spaces (w : chars) : Prop := Forall (fun c => is_space c = true) w.

(** Any number of groups, each a comma and digits. *)
Inductive separated : chars -> Prop :=
| separated_nil : separated []
| separated_cons d t :
    digits d -> separated t -> separated ("," :: d ++ t)%char.

(** An integer with optional thousands separators. *)
Definition grouped (g : chars) : Prop :=
  exists d t, g = d ++ t /\ digits d /\ separated t.

(** [<integer>K km] somewhere in [s], with an upper-case K. *)
Definition thousands_form (s d : chars) : Prop :=
  exists pre w post,
    s = pre ++ d ++ ("K" :: w)%char ++ chr "km" ++ post /\ digits d /\ spaces w.

(** [<integer with optional separators> km] somewhere in [s]. *)
Definition plain_form (s g : chars) : Prop :=
  exists pre w post,
    s = pre ++ g ++ w ++ chr "km" ++ post /\ grouped g /\ spaces w.

(** The two forms at the head of a text. *)
Definition thousands_at (s d : chars) : Prop :=
  exists w post,
    s = d ++ ("K" :: w)%char ++ chr "km" ++ post /\ digits d /\ spaces w.

Definition plain_at (s g : chars) : Prop :=
  exists w post, s = g ++ w ++ chr "km" ++ post /\ grouped g /\ spaces w.

(** [leftmost form s g]: the form starts somewhere in [s], with [g], and
    at no place before. *)
Definition leftmost (form : chars -> chars -> Prop) (s g : chars) : Prop :=
  exists pre rest,
    s = pre ++ rest /\ form rest g
    /\ forall p1 p2 g', pre = p1 ++ p2 -> p2 <> [] -> ~ form (p2 ++ rest) g'.

(** The number a run of digits denotes. *)
Definition decimal_value (d : chars) : Z :=
  fold_left (fun acc c => 10 * acc + digit_value c) d 0.

(** What [int] gives on a run of digits: its number, or [ValueError]
    when the run has more than 4300 digits. *)
Definition int_of_digits (d : chars) : result Z :=
  if int_max_str_digits <? Z.of_nat (length d) then Raise ValueError
  else Ok (decimal_value d).

(** ** The image chain, as the specification words it *)

(** The value reached from [v] through dictionaries along [keys]. *)
Fixpoint path (keys : list string) (v : value) : option value :=
  match keys with
  | [] => Some v
  | k :: rest =>
      match v with
      | VDict items =>
          match Py.dict_get k items with
          | Some v' => path rest v'
          | None => None
          end
      | _ => None
      end
  end.

Definition primary_uri (obj : list (string * value)) : option value :=
  path ["primary_listing_photo"; "image"; "uri"] (VDict obj).

Definition first_photo_uri (obj : list (string * value)) : option value :=
  match Py.dict_get "listing_photos" obj with
  | Some (VList (photo :: _)) => path ["image"; "uri"] photo
  | _ => None
  end.

(** Primary photo, else first listing photo, else the placeholder. *)
Definition resolved_image (obj : list (string * value)) : value :=
  match primary_uri obj with
  | Some uri => uri
  | None =>
      match first_photo_uri obj with
      | Some uri => uri
      | None => VStr placeholder_image
      end
  end.

(** The amount under the price object. *)
Definition listed_amount (obj : list (string * value)) : option value :=
  path ["listing_price"; "amount"] (VDict obj).

(** ** Nodes of a decoded document *)

(** [inside v data]: [v] is [data] or lies below it. *)
Inductive inside (v : value) : value -> Prop :=
| inside_here : inside v v
| inside_list item items :
    In item items -> inside v item -> inside v (VList items)
| inside_dict key val items :
    In (key, val) items -> inside v val -> inside v (VDict items).


(** The dictionary after the year, make and model lines. *)
Definition base_cars (tokens : list chars) (year : Z) : cars_dict :=
  <["Model" := VStr (Py.str (nth 2 tokens []))]>
    (<["Make" := VStr (Py.str (nth 1 tokens []))]> (<["Year" := VInt year]> ∅)).

(** [depth_wrap n v]: [v] under [n] nested lists. *)
Fixpoint list_wrap (n : nat) (v : value) : value :=
  match n with
  | O => v
  | S n' => VList [list_wrap n' v]
  end.

(** [dict_wrap n v]: [v] under [n] nested dictionaries. *)
Fixpoint dict_wrap (n : nat) (v : value) : value :=
  match n with
  | O => v
  | S n' => VDict [("node", dict_wrap n' v)]
  end.

(** The dictionary a container yields. *)
Definition markup_cars (tokens : list chars) (year price mileage : Z)
    (url : string) : cars_dict :=
  <["URL" := VStr url]> (<["Mileage" := VInt mileage]>
    (<["Price" := VInt price]> (base_cars tokens year))).

(** [title_tokens t]: the tokens of a title. *)
Definition title_tokens (t : string) : list chars := Text.split (chr t).

(** ** The query parameters, as the specification words them *)

Definition parameter_names : list string :=
  ["minPrice"; "maxPrice"; "daysSinceListed"; "minMileage"; "maxMileage";
   "minYear"; "maxYear"; "transmissionType"; "query"; "exact"].

(** Make and model concatenated, else whichever is given, else nothing. *)
Definition query_value (o : FilterOptions) : option string :=
  match make o, model o with
  | Some mk, Some md => Some (mk +:+ md)
  | Some mk, None => Some mk
  | None, Some md => Some md
  | None, None => None
  end.

(** Every parameter in its place, with its value when it has one. *)
Definition parameter_table (o : FilterOptions) : list (string * option string) :=
  [("minPrice", str_of_Z <$> min_price o);
   ("maxPrice", str_of_Z <$> max_price o);
   ("daysSinceListed", str_of_Z <$> days_listed o);
   ("minMileage", str_of_Z <$> min_mileage o);
   ("maxMileage", str_of_Z <$> max_mileage o);
   ("minYear", str_of_Z <$> min_year o);
   ("maxYear", str_of_Z <$> max_year o);
   ("transmissionType", transmission o);
   ("query", query_value o);
   ("exact", Some "false")].

Definition render (p : string * option string) : option string :=
  (fun v => fst p +:+ "=" +:+ v) <$> snd p.

(** The parameters that have a value, in the order of the table. *)
Definition expected_params (o : FilterOptions) : list string :=
  omap render (parameter_table o).

(** ** The loops of the pipeline, named *)

Section Loops.
Context `{Runtime}.

(** The loops of [search_listings] over the values of a dictionary and
    over the elements of a list. *)
Definition search_values (items : list (string * value)) (acc : list cars_dict)
    : list cars_dict :=
  fold_left (fun acc kv => search_listings (snd kv) acc) items acc.

Definition search_elements (items : list value) (acc : list cars_dict)
    : list cars_dict :=
  fold_left (fun acc item => search_listings item acc) items acc.

(** The [if] of the script loop on one script tag. *)
Definition script_mentions (script : node) : bool :=
  match Soup.string_of script with
  | Some text => nonempty text && mentions_title text
  | None => false
  end.

(** The flag [json_data_found] when the script loop ends. *)
Definition json_data_found (soup : node) : bool := fst (script_loop soup).

(** What structured extraction yields over every JSON block of the page. *)
Definition structured_records (soup : node) : list cars_dict :=
  snd (script_loop soup).

(** Where a record of the script loop comes from. *)
Definition from_script (scripts : list node) (cars : cars_dict) : Prop :=
  exists script text data obj,
    In script scripts /\ Soup.string_of script = Some text
    /\ json_loads text = Some data /\ inside (VDict obj) data
    /\ is_listing obj = true /\ candidate obj = Ok (Some cars).

(** [visited v data]: [v] is [data], or lies below it under no node whose
    title is rejected. *)
Inductive visited (v : value) : value -> Prop :=
| visited_here : visited v v
| visited_list item items :
    In item items -> visited v item -> visited v (VList items)
| visited_dict key val items :
    In (key, val) items ->
    ~ (is_listing items = true /\ candidate items = Ok None) ->
    visited v val -> visited v (VDict items).

End Loops.

(** ** The traversal under the recursion limit *)


Section RecursionLimit.
Context `{Runtime}.

(** [body_fits room obj]: the [try] block of the candidate [obj] runs
    without [RecursionError] when [room] frames remain above the frame
    of its call; the block calls [re.search]. A [RecursionError] inside
    the block is caught by its [except], like any exception. *)
Variable body_fits : nat -> list (string * value) -> bool.




End RecursionLimit.

(** What markup extraction yields over the page. *)
Definition markup_records (soup : node) : list cars_dict :=
  fold_left container_step (listing_containers soup) [].

(** The guard of [display_listings] in [car_finder_app.py]:
    ["ImageURL" in car and car["ImageURL"]]. *)
Definition shows_image (car : cars_dict) : bool :=
  match car !! "ImageURL" with
  | Some v => Py.truthy v
  | None => false
  end.

(** Every field of a listing record holds a value of its type. *)
Definition populated (car : cars_dict) : Prop :=
  (exists n, car !! "Year" = Some (VInt n))
  /\ (exists s, car !! "Make" = Some (VStr s) /\ s <> "")
  /\ (exists s, car !! "Model" = Some (VStr s) /\ s <> "")
  /\ (exists n, car !! "Price" = Some (VInt n) /\ 0 <= n)
  /\ (exists n, car !! "Mileage" = Some (VInt n) /\ 0 <= n)
  /\ (exists s, car !! "URL" = Some (VStr s) /\ s <> "")
  /\ (exists s, car !! "ImageURL" = Some (VStr s) /\ s <> "").

(** ** Documents and pages used as examples *)

Module Examples.

Definition dq : string := String "034" "".

Definition quoted (s : string) : string := dq +:+ s +:+ dq.

(** The JSON text of an object with one text field. *)
Definition category_text : string :=
  "{" +:+ quoted "custom_title" +:+ ": " +:+ quoted "Cars" +:+ "}".

Definition category : value := VDict [("custom_title", VStr "Cars")].

Definition civic_fields : list (string * value) :=
  [("marketplace_listing_title", VStr "2018 Honda Civic EX");
   ("listing_price", VDict [("amount", VStr "15995")]);
   ("id", VStr "1001");
   ("custom_sub_titles_with_rendering_flags",
      VList [VDict [("subtitle", VStr "78K km")]]);
   ("primary_listing_photo",
      VDict [("image", VDict [("uri", VStr "https://img.example/1001.jpg")])])].

Definition civic : value := VDict civic_fields.

Definition civic_text : string :=
  "{" +:+ quoted "marketplace_listing_title" +:+ ": " +:+ quoted "2018 Honda Civic EX"
  +:+ ", " +:+ quoted "listing_price" +:+ ": {" +:+ quoted "amount" +:+ ": "
  +:+ quoted "15995" +:+ "}, " +:+ quoted "id" +:+ ": " +:+ quoted "1001"
  +:+ ", " +:+ quoted "custom_sub_titles_with_rendering_flags" +:+ ": [{"
  +:+ quoted "subtitle" +:+ ": " +:+ quoted "78K km" +:+ "}], "
  +:+ quoted "primary_listing_photo" +:+ ": {" +:+ quoted "image" +:+ ": {"
  +:+ quoted "uri" +:+ ": " +:+ quoted "https://img.example/1001.jpg" +:+ "}}}".

(** A runtime that decodes the two texts above and reads the float
    [15995]. *)
Definition runtime : Runtime := {|
  json_loads text :=
    if String.eqb text category_text then Some category
    else if String.eqb text civic_text then Some civic
    else None;
  float_of_str text :=
    if String.eqb text "15995" then Some (binary_normalize 53 1024 15995 0 false)
    else None;
  repr _ := "..."
|}.


(** A feed whose outer node carries a section title and no year. *)
Definition feed : value :=
  VDict [("custom_title", VStr "Vehicles");
         ("listing_price", VDict []);
         ("edges", VList [civic])].

(** A listing whose price object has no amount. *)
Definition unpriced : list (string * value) :=
  [("custom_title", VStr "2018 Honda Civic");
   ("listing_price", VDict []);
   ("id", VStr "1002")].

(** The record that [unpriced] yields. *)
Definition unpriced_record : cars_dict :=
  <["ImageURL" := VStr placeholder_image]>
  (<["URL" := VStr "https://www.facebook.com/marketplace/item/1002"]>
  (<["Mileage" := VInt 0]> (<["Model" := VStr "Civic"]>
  (<["Make" := VStr "Honda"]> (<["Year" := VInt 2018]> ∅))))).

(** A listing whose amount is a negative number. *)
Definition negative : list (string * value) :=
  [("custom_title", VStr "2018 Honda Civic");
   ("listing_price", VDict [("amount", VInt (-500))]);
   ("id", VStr "1005")].

(** A listing whose amount is [null]. *)
Definition null_amount : list (string * value) :=
  [("custom_title", VStr "2018 Honda Civic");
   ("listing_price", VDict [("amount", VNone)]);
   ("id", VStr "1003")].

(** A listing whose amount is written as a price text. *)
Definition dollar_amount : list (string * value) :=
  [("custom_title", VStr "2018 Honda Civic");
   ("listing_price", VDict [("amount", VStr "$15,995")]);
   ("id", VStr "1006")].

(** A listing whose title does not start with the year. *)
Definition year_last : list (string * value) :=
  [("marketplace_listing_title", VStr "Honda Civic 2018");
   ("listing_price", VDict [("amount", VStr "15995")]);
   ("id", VStr "1004")].

Definition span (text : string) : node := Elem "span" [] [Text text].

Definition article (title price mileage : string) : node :=
  Elem "div" [("role", "article")]
    [Elem "a" [("href", "/marketplace/item/123")]
       [span title; span price; span mileage]].

(** A container with a title and a link and no price. *)
Definition untagged : node :=
  Elem "div" [("role", "article")]
    [Elem "a" [("href", "/marketplace/item/124")]
       [span "2018 Honda Civic"; span "Ask for price"]].

Definition document (body : list node) : node :=
  Elem "[document]" [] [Elem "html" [] [Elem "body" [] body]].

Definition json_script (text : string) : node :=
  Elem "script" [("type", "application/json")] [Special text].

(** A page with no JSON block and no listing container. *)
Definition blank_page : node :=
  document [Elem "div" [("class", "banner")] [Text "No results"]].

(** A page with one listing in its markup only. *)
Definition markup_page : node :=
  document [article "2018 Honda Civic EX" "$15,995" "78K km"].

(** A page whose JSON block names a title key and holds no listing, with
    one listing in its markup. *)
Definition category_page : node :=
  document [json_script category_text;
            article "2018 Honda Civic EX" "$15,995" "78K km"].

(** A page with one listing in its JSON block and another in its markup. *)
Definition both_page : node :=
  document [json_script civic_text;
            article "2017 Toyota Corolla" "$14,500" "65,000 km"].

(** The record that [civic] yields. *)
Definition civic_record : cars_dict :=
  <["ImageURL" := VStr "https://img.example/1001.jpg"]>
  (<["URL" := VStr "https://www.facebook.com/marketplace/item/1001"]>
  (<["Mileage" := VInt 78000]>
  (<["Price" := VFloat (binary_normalize 53 1024 15995 0 false)]>
  (<["Model" := VStr "Civic"]> (<["Make" := VStr "Honda"]>
  (<["Year" := VInt 2018]> ∅)))))).

(** The record that the listing of [markup_page] yields. *)
Definition markup_record : cars_dict :=
  <["URL" := VStr "https://www.facebook.com/marketplace/item/123"]>
  (<["Mileage" := VInt 78000]> (<["Price" := VInt 15995]>
  (<["Model" := VStr "Civic"]> (<["Make" := VStr "Honda"]>
  (<["Year" := VInt 2018]> ∅))))).

End Examples.

(** ** Parts of the loops, one round at a time *)

Section Rounds.
Context `{Runtime}.

(** What one script tag adds to [vehicles_list]. *)
Definition block_records (script : node) : list cars_dict :=
  match Soup.string_of script with
  | Some text =>
      if nonempty text && mentions_title text then
        match json_loads text with
        | Some data => search_listings data []
        | None => []
        end
      else []
  | None => []
  end.

End Rounds.

(** The record one container adds, if any. *)
Definition container_yield (container : node) : option cars_dict :=
  match container_record container with
  | Ok (Some cars) => Some cars
  | _ => None
  end.

(** ** More examples *)

Module MoreExamples.

(** A page whose listing has a make of two words. *)
Definition land_rover_page : node :=
  Examples.document
    [Examples.article "2015 Land Rover Discovery" "$21,000" "120,000 km"].

(** The record it yields. *)
Definition land_rover_record : cars_dict :=
  <["URL" := VStr "https://www.facebook.com/marketplace/item/123"]>
  (<["Mileage" := VInt 120000]> (<["Price" := VInt 21000]>
  (<["Model" := VStr "Rover"]> (<["Make" := VStr "Land"]>
  (<["Year" := VInt 2015]> ∅))))).

(** The JSON text of [Examples.unpriced]. *)
Definition unpriced_text : string :=
  "{" +:+ Examples.quoted "custom_title" +:+ ": "
  +:+ Examples.quoted "2018 Honda Civic" +:+ ", "
  +:+ Examples.quoted "listing_price" +:+ ": {}, "
  +:+ Examples.quoted "id" +:+ ": " +:+ Examples.quoted "1002" +:+ "}".

(** A runtime that decodes it. *)
Definition runtime : Runtime := {|
  json_loads text :=
    if String.eqb text unpriced_text then Some (VDict Examples.unpriced)
    else None;
  float_of_str _ := None;
  repr _ := "..."
|}.

(** A page whose only listing has a price object with no amount. *)
Definition unpriced_page : node :=
  Examples.document [Examples.json_script unpriced_text].

(** Statistics that return. *)
Definition quiet (stored : list cars_dict) : result unit := Ok tt.

End MoreExamples.

(** ** [build_search_url] on the values its callers pass

    The arguments of [build_search_url] are untyped: [None] leaves a
    parameter out and any other value is formatted into the URL. *)

Section Values.
Context `{Runtime}.

Definition is_none (v : value) : bool :=
  match v with VNone => true | _ => false end.

(** [if v is not None: params.append(...)] *)
Definition append_given (v : value) (render : value -> string)
    (params : list string) : list string :=
  if is_none v then params else params ++ [render v].

Definition search_params_values
    (min_price max_price days_listed min_mileage max_mileage min_year max_year
     transmission make model : value) : list string :=
  let params := [] in
  let params := append_given min_price (fun v => "minPrice=" +:+ Py.format v) params in
  let params := append_given max_price (fun v => "maxPrice=" +:+ Py.format v) params in
  let params := append_given days_listed (fun v => "daysSinceListed=" +:+ Py.format v) params in
  let params := append_given min_mileage (fun v => "minMileage=" +:+ Py.format v) params in
  let params := append_given max_mileage (fun v => "maxMileage=" +:+ Py.format v) params in
  let params := append_given min_year (fun v => "minYear=" +:+ Py.format v) params in
  let params := append_given max_year (fun v => "maxYear=" +:+ Py.format v) params in
  let params := append_given transmission (fun v => "transmissionType=" +:+ Py.format v) params in
  let params :=
    if negb (is_none make) && negb (is_none model)
    then params ++ ["query=" +:+ Py.format make +:+ Py.format model]
    else if negb (is_none make) then params ++ ["query=" +:+ Py.format make]
    else if negb (is_none model) then params ++ ["query=" +:+ Py.format model]
    else params in
  params ++ ["exact=false"].

Definition build_search_url_values (location : string)
    (min_price max_price days_listed min_mileage max_mileage min_year max_year
     transmission make model : value) : string :=
  let base_url := "https://www.facebook.com/marketplace/" +:+ location +:+ "/search?" in
  base_url +:+ join "&" (search_params_values min_price max_price days_listed
                           min_mileage max_mileage min_year max_year
                           transmission make model).

(** ** The application: [car_finder_app.py] *)

(** The parameters of the URL [search_marketplace] builds: the
    preferences are read with [get], with [''] as the default of make and
    model and [None] as the default of the bounds. *)
Definition marketplace_params (preferences : list (string * value)) : list string :=
  search_params_values
    (Py.get_default "min_price" VNone preferences)
    (Py.get_default "max_price" VNone preferences)
    VNone VNone VNone
    (Py.get_default "min_year" VNone preferences)
    (Py.get_default "max_year" VNone preferences)
    VNone
    (Py.get_default "make" (VStr "") preferences)
    (Py.get_default "model" (VStr "") preferences).

Definition marketplace_url (preferences : list (string * value)) : string :=
  build_search_url_values "toronto"
    (Py.get_default "min_price" VNone preferences)
    (Py.get_default "max_price" VNone preferences)
    VNone VNone VNone
    (Py.get_default "min_year" VNone preferences)
    (Py.get_default "max_year" VNone preferences)
    VNone
    (Py.get_default "make" (VStr "") preferences)
    (Py.get_default "model" (VStr "") preferences).

(** [search_marketplace(preferences)]; [s] is how the browser session of
    the scrape ends. Preferences that are no dictionary have no [get]:
    the [except] of the function returns the empty list. The constructor
    of the scraper only makes the output directory, which is taken to
    succeed; building the URL and closing the browser do not raise. *)
Definition search_marketplace (preferences : value) (s : session)
    : list cars_dict :=
  match preferences with
  | VDict _ => take 5 (scrape_listings s)
  | _ => []
  end.

(** [re.search(r'({.*})', text, re.DOTALL)]: the group is the whole
    pattern and nothing follows it. *)
Definition any_char : regex := RSet (fun _ => true).

Definition nothing : regex := RStar (RSet (fun _ => false)).

Definition pat_braces : pattern :=
  Pattern (RSeq (RChr "{") (RSeq (RStar any_char) (RChr "}"))) nothing.

(** [analyze_preferences] from the text of the response to its result;
    [None] is the [None] the function returns when decoding raises. *)
Definition parse_response (response_text : string) : option value :=
  match search pat_braces (chr response_text) with
  | Some json_str => json_loads (Py.str json_str)
  | None => json_loads response_text
  end.

(** ** The scraper object and the command line *)

(** [self.listings], the one field the methods below read. *)
Record scraper : Type := { listings : list cars_dict }.

(** [FacebookMarketplaceScraper(...)]: [self.listings = []]. *)
Definition new_scraper : scraper := {| listings := [] |}.

(** [scrape_listings] with the object: only the path that searches the
    page assigns [self.listings]. *)
Definition scrape_listings_in (self : scraper) (s : session)
    : list cars_dict * scraper :=
  match s with
  | Parsed soup =>
      let vehicles_list := extract soup in
      (vehicles_list, {| listings := vehicles_list |})
  | _ => (get_sample_data, self)
  end.

End Values.

(** ** Showing the records *)

(** The two format specifications the programs apply to a price and a
    mileage: [','] and [',.2f']. *)
Inductive format_spec : Type := Grouped | GroupedFixed.

(** [car[key]] on a listing dictionary. *)
Definition subscript (car : cars_dict) (key : string) : result value :=
  match car !! key with
  | Some v => Ok v
  | None => Raise KeyError
  end.

(** A loop whose body may raise. *)
Fixpoint for_each {A : Type} (body : A -> result unit) (l : list A) : result unit :=
  match l with
  | [] => Ok tt
  | x :: rest => _ ← body x; for_each body rest
  end.

Section Reports.
Context `{Runtime}.

(** [format(v, spec)]; the text is only shown, so the result says
    whether the call returns. [None], lists and dictionaries refuse a
    format specification with [TypeError] and texts refuse these two with
    [ValueError]; [',.2f'] turns an integer into a float first. *)
Definition formats (spec : format_spec) (v : value) : result unit :=
  match v with
  | VNone | VList _ | VDict _ => Raise TypeError
  | VStr _ => Raise ValueError
  | VInt n =>
      match spec with
      | Grouped => Ok tt
      | GroupedFixed => _ ← Py.float (VInt n); Ok tt
      end
  | VBool _ | VFloat _ => Ok tt
  end.

(** One round of the loop of [display_listings]: the subscripts and the
    formats of the card, in the order the f-strings evaluate them. The
    test of [ImageURL] does not raise, and the calls into Streamlit are
    taken to return. *)
Definition card (car : cars_dict) : result unit :=
  _ ← subscript car "Year";
  _ ← subscript car "Make";
  _ ← subscript car "Model";
  price ← subscript car "Price";
  _ ← formats GroupedFixed price;
  mileage ← subscript car "Mileage";
  _ ← formats Grouped mileage;
  _ ← subscript car "URL";
  Ok tt.

(** [display_listings(listings, preferences)]: a warning for an empty
    list, one column and one card for each listing otherwise. *)
Definition display_listings (listings : list cars_dict) : result unit :=
  match listings with
  | [] => Ok tt
  | _ :: _ => for_each card listings
  end.

(** The three blocks of statistics of [print_summary]: they read
    [self.listings], print, and return or raise. *)
Variable statistics : list cars_dict -> result unit.

(** One of the sample listings of [print_summary]: every field is read
    with [get]; the price and the mileage are formatted with [',']. *)
Definition sample_listing (listing : cars_dict) : result unit :=
  _ ← formats Grouped (default VNone (listing !! "Price"));
  formats Grouped (default VNone (listing !! "Mileage")).

(** [print_summary()] *)
Definition print_summary (self : scraper) : result unit :=
  match listings self with
  | [] => Ok tt
  | _ :: _ =>
      _ ← statistics (listings self);
      for_each sample_listing (take 5 (listings self))
  end.

(** How [main] ends once the scrape has returned. *)
Inductive report : Type :=
| Summarised (stored : list cars_dict)
| Crashed (e : exn)
| NothingStored
| NothingFound.

(** [main] after the URL is built. [print_summary] and [save_to_csv] run
    when the returned list is not empty; both give up when
    [self.listings] is empty. An exception of [print_summary] is not
    caught: the program ends before [save_to_csv]. [Summarised stored]:
    the summary is printed and [save_to_csv] goes on to write [stored]. *)
Definition main_report (s : session) : report :=
  let '(returned, self) := scrape_listings_in new_scraper s in
  match returned with
  | [] => NothingFound
  | _ :: _ =>
      match print_summary self with
      | Raise e => Crashed e
      | Ok _ =>
          match listings self with
          | [] => NothingStored
          | stored => Summarised stored
          end
      end
  end.

End Reports.

(** The options of [build_search_url] as the values Python passes. *)
Definition int_or_none (o : option Z) : value :=
  match o with Some n => VInt n | None => VNone end.

Definition str_or_none (o : option string) : value :=
  match o with Some s => VStr s | None => VNone end.

(** The first [{] through the last [}] of a text. *)
Definition brace_span (s g : chars) : Prop :=
  exists pre body post,
    s = pre ++ ("{" :: body)%char ++ ("}" :: post)%char
    /\ ~ In "{"%char pre /\ ~ In "}"%char post
    /\ g = ("{" :: body)%char ++ ["}"%char].

(** The greedy [.*]: the continuation is tried on the shortest rest
    first. *)
Fixpoint last_success {R : Type} (k : chars -> option R) (t : chars) : option R :=
  match t with
  | [] => k []
  | _ :: t' =>
      match last_success k t' with
      | Some x => Some x
      | None => k t
      end
  end.

(** * Properties *)

(** ** Texts and patterns on examples *)

Example split_title :
  Text.split (chr "2018 Honda  Civic EX ")
  = [chr "2018"; chr "Honda"; chr "Civic"; chr "EX"].
Proof. reflexivity. Qed.

Example int_year :
  py_int (chr "2018") = Some 2018 /\ py_int (chr "Honda") = None
  /\ py_int (chr "2_018") = Some 2018 /\ py_int (chr "-7") = Some (-7)
  /\ py_int (chr "1__0") = None /\ py_int (chr "12_") = None
  /\ py_int (chr "+") = None.
Proof. repeat split; reflexivity. Qed.

Example search_on_texts :
  search pat_thousands (chr "about 78K km driven") = Some (chr "78")
  /\ search pat_thousands (chr "78k km") = None
  /\ search pat_plain (chr "78k km") = None
  /\ search pat_plain (chr "only 45,000   km") = Some (chr "45,000")
  /\ search pat_plain (chr "78K km") = None
  /\ search pat_plain (chr "a1,,2 km3km") = Some (chr "2").
Proof. repeat split; reflexivity. Qed.

(** ** The matcher finds exactly the words of the pattern *)

Lemma star_sound {R} (m : @matcher R) (r : regex) :
  (forall s k v, m s k = Some v ->
     exists u s', s = u ++ s' /\ matches r u /\ k s' = Some v) ->
  forall fuel s k v, star m fuel s k = Some v ->
     exists u s', s = u ++ s' /\ matches (RStar r) u /\ k s' = Some v.
Proof.
  intros Hm fuel. induction fuel as [|fuel IH]; intros s k v Hs; simpl in Hs.
  - exists [], s. split; [done|]. split; [constructor|done].
  - destruct (m s _) as [x|] eqn:Hround.
    + inversion Hs; subst x; clear Hs.
      apply Hm in Hround as (u & s' & -> & Hu & Hk).
      destruct (length s' <? length (u ++ s'))%nat eqn:Hlt; [|done].
      apply IH in Hk as (u' & s'' & -> & Hu' & Hk).
      exists (u ++ u'), s''. split; [by rewrite app_assoc|]. split; [|done].
      apply M_star_cons; [|done..].
      intros ->. apply Nat.ltb_lt in Hlt. simpl in Hlt. lia.
    + exists [], s. split; [done|]. split; [constructor|done].
Qed.

Lemma rmatch_sound {R} (r : regex) :
  forall s (k : chars -> option R) v, rmatch r s k = Some v ->
    exists u s', s = u ++ s' /\ matches r u /\ k s' = Some v.
Proof.
  induction r as [c|p|r1 IH1 r2 IH2|r1 IH1|r1 IH1]; intros s k v Hs; simpl in Hs.
  - destruct s as [|a t]; [done|]. destruct (Ascii.eqb a c) eqn:E; [|done].
    apply Ascii.eqb_eq in E as ->. exists [c], t. repeat split; [constructor|done].
  - destruct s as [|a t]; [done|]. destruct (p a) eqn:E; [|done].
    exists [a], t. repeat split; [by constructor|done].
  - apply IH1 in Hs as (u & s' & -> & Hu & Hs).
    apply IH2 in Hs as (u' & s'' & -> & Hu' & Hk).
    exists (u ++ u'), s''. split; [by rewrite app_assoc|]. split; [by constructor|done].
  - by apply (star_sound _ r1 IH1) in Hs.
  - apply IH1 in Hs as (u & s' & -> & Hu & Hs).
    apply (star_sound _ r1 IH1) in Hs as (u' & s'' & -> & Hu' & Hk).
    exists (u ++ u'), s''. split; [by rewrite app_assoc|]. split; [by constructor|done].
Qed.

Lemma star_complete {R} (r : regex) :
  (forall u, matches r u -> forall s' (k : chars -> option R),
     is_Some (k s') -> is_Some (rmatch r (u ++ s') k)) ->
  forall v, matches (RStar r) v -> forall fuel s' (k : chars -> option R),
     (length (v ++ s') <= fuel)%nat -> is_Some (k s') ->
     is_Some (star (rmatch r) fuel (v ++ s') k).
Proof.
  intros Hr v Hv. remember (RStar r) as rs eqn:Ers.
  induction Hv as [| | |r0|r0 u v Hne Hu _ Hv IH|]; try discriminate.
  - intros fuel s' k _ Hk. destruct fuel as [|fuel]; simpl; [done|].
    by destruct (rmatch r s' _).
  - injection Ers as ->. intros fuel s' k Hlen Hk.
    assert (0 < length u)%nat by (destruct u; [done|simpl; lia]).
    rewrite !length_app in Hlen.
    destruct fuel as [|fuel]; [lia|]. simpl.
    rewrite <- app_assoc.
    destruct (Hr u Hu (v ++ s')
      (fun s1 => if (length s1 <? length (u ++ v ++ s'))%nat
                 then star (rmatch r) fuel s1 k else None)) as [x ->]; [|done].
    replace (length (v ++ s') <? length (u ++ v ++ s'))%nat with true
      by (symmetry; apply Nat.ltb_lt; rewrite !length_app; lia).
    apply IH; [done| |done]. rewrite length_app. lia.
Qed.

Lemma rmatch_complete {R} (r : regex) :
  forall u, matches r u -> forall s' (k : chars -> option R),
    is_Some (k s') -> is_Some (rmatch r (u ++ s') k).
Proof.
  induction r as [c|p|r1 IH1 r2 IH2|r1 IH1|r1 IH1]; intros u Hu s' k Hk.
  - inversion Hu; subst; simpl. by rewrite Ascii.eqb_refl.
  - inversion Hu as [|? ? Hp| | | |]; subst; simpl. by rewrite Hp.
  - inversion Hu; subst; simpl.
    rewrite <- app_assoc. apply IH1; [done|]. by apply IH2.
  - simpl. by apply (star_complete r1 IH1 u Hu).
  - inversion Hu as [| | | | |? u1 u2 Hu1 Hu2]; subst; simpl.
    rewrite <- app_assoc. apply IH1; [done|].
    by apply (star_complete r1 IH1 u2 Hu2).
Qed.

Lemma take_app_length_sub (u s1 : chars) :
  take (length (u ++ s1) - length s1) (u ++ s1) = u.
Proof.
  rewrite length_app. replace (length u + length s1 - length s1)%nat with (length u) by lia.
  by rewrite take_app_length.
Qed.

Lemma match_here_sound p s g :
  match_here p s = Some g ->
  exists m post, s = g ++ m ++ post /\ matches (grp p) g /\ matches (rest p) m.
Proof.
  unfold match_here. intros Hs.
  apply rmatch_sound in Hs as (u & s1 & -> & Hu & Hs).
  apply rmatch_sound in Hs as (m & post & -> & Hm & Hs).
  rewrite take_app_length_sub in Hs. injection Hs as <-. by exists m, post.
Qed.

Lemma match_here_complete p g m post :
  matches (grp p) g -> matches (rest p) m ->
  is_Some (match_here p (g ++ m ++ post)).
Proof.
  intros Hg Hm. unfold match_here.
  apply rmatch_complete; [done|]. by apply rmatch_complete.
Qed.

Lemma search_sound p s g : search p s = Some g -> occurs p s g.
Proof.
  induction s as [|a t IH]; simpl.
  - destruct (match_here p []) as [g'|] eqn:E; [|done].
    intros [= ->]. apply match_here_sound in E as (m & post & E & ? & ?).
    by exists [], m, post.
  - destruct (match_here p (a :: t)) as [g'|] eqn:E.
    + intros [= ->]. apply match_here_sound in E as (m & post & E & ? & ?).
      by exists [], m, post.
    + intros (pre & m & post & -> & ? & ?)%IH.
      by exists (a :: pre), m, post.
Qed.

Lemma search_complete p s g : occurs p s g -> is_Some (search p s).
Proof.
  intros (pre & m & post & -> & Hg & Hm).
  induction pre as [|a pre IH]; simpl.
  - pose proof (match_here_complete p g m post Hg Hm) as [x Hx].
    destruct (g ++ m ++ post); simpl in *; by rewrite Hx.
  - destruct (match_here p _); [done|]. apply IH.
Qed.

Lemma search_none p s : search p s = None <-> forall g, ~ occurs p s g.
Proof.
  split.
  - intros Hn g Hg. apply search_complete in Hg as [x Hx]. congruence.
  - intros Hn. destruct (search p s) as [g|] eqn:E; [|done].
    apply search_sound in E. by destruct (Hn g).
Qed.
(** ** The patterns of the source and the forms of the specification *)

Lemma matches_class_star p v :
  matches (RStar (RSet p)) v <-> Forall (fun c => p c = true) v.
Proof.
  split.
  - intros Hv. remember (RStar (RSet p)) as r eqn:Er.
    induction Hv as [| | | |r0 u v _ Hu _ _ IH|]; try discriminate; [done|].
    injection Er as ->. inversion Hu; subst. constructor; [done|]. by apply IH.
  - induction 1 as [|c v Hc _ IH]; [constructor|].
    apply (M_star_cons _ [c] v); [done|by constructor|done].
Qed.

Lemma matches_digits1 d : matches digits1 d <-> digits d.
Proof.
  unfold digits1, digits. split.
  - intros Hd. inversion Hd as [| | | | |? u v Hu Hv]; subst.
    inversion Hu; subst. split; [done|].
    constructor; [done|]. by apply matches_class_star.
  - intros [Hne Hall]. destruct d as [|c d]; [done|].
    inversion Hall; subst.
    apply (M_plus _ [c] d); [by constructor|by apply matches_class_star].
Qed.

Lemma matches_spaces0 w : matches spaces0 w <-> spaces w.
Proof. apply matches_class_star. Qed.

Lemma matches_km m : matches km m <-> m = chr "km".
Proof.
  split.
  - intros Hm. inversion Hm as [| |? ? u v Hu Hv| | |]; subst.
    by inversion Hu; inversion Hv; subst.
  - intros ->. apply (M_seq _ _ ["k"%char] ["m"%char]); constructor.
Qed.

Lemma matches_separated t :
  matches (RStar (RSeq (RChr ",") digits1)) t <-> separated t.
Proof.
  split.
  - intros Ht. remember (RStar (RSeq (RChr ",") digits1)) as r eqn:Er.
    induction Ht as [| | | |r0 u v _ Hu _ _ IH|]; try discriminate; [constructor|].
    injection Er as ->.
    inversion Hu as [| |? ? c d Hc Hd| | |]; subst. inversion Hc; subst.
    rewrite <- app_assoc. simpl.
    constructor; [by apply matches_digits1|by apply IH].
  - induction 1 as [|d t Hd _ IH]; [constructor|].
    apply (M_star_cons _ ("," :: d)%char t); [done| |done].
    apply (M_seq _ _ [","%char] d); [constructor|by apply matches_digits1].
Qed.

Lemma matches_grouped g : matches (grp pat_plain) g <-> grouped g.
Proof.
  simpl. split.
  - intros Hg. inversion Hg as [| |? ? d t Hd Ht| | |]; subst.
    exists d, t. split; [done|].
    split; [by apply matches_digits1|by apply matches_separated].
  - intros (d & t & -> & Hd & Ht).
    constructor; [by apply matches_digits1|by apply matches_separated].
Qed.

Lemma matches_spaces_km m :
  matches (RSeq spaces0 km) m <-> exists w, m = w ++ chr "km" /\ spaces w.
Proof.
  split.
  - intros Hm. inversion Hm as [| |? ? w v Hw Hv| | |]; subst.
    apply matches_km in Hv as ->. exists w. split; [done|by apply matches_spaces0].
  - intros (w & -> & Hw). constructor; [by apply matches_spaces0|by apply matches_km].
Qed.

Lemma occurs_thousands s d : occurs pat_thousands s d <-> thousands_form s d.
Proof.
  unfold occurs, thousands_form. simpl. split.
  - intros (pre & m & post & -> & Hd & Hm).
    inversion Hm as [| |? ? u v Hu Hv| | |]; subst. inversion Hu; subst.
    apply matches_spaces_km in Hv as (w & -> & Hw).
    exists pre, w, post. split; [|split; [by apply matches_digits1|done]].
    simpl. by rewrite <- !app_assoc.
  - intros (pre & w & post & -> & Hd & Hw).
    exists pre, ("K" :: w ++ chr "km")%char, post.
    split; [simpl; by rewrite <- !app_assoc|].
    split; [by apply matches_digits1|].
    apply (M_seq _ _ ["K"%char] (w ++ chr "km")); [constructor|].
    apply matches_spaces_km. by exists w.
Qed.

Lemma occurs_plain s g : occurs pat_plain s g <-> plain_form s g.
Proof.
  unfold occurs, plain_form. split.
  - intros (pre & m & post & -> & Hg & Hm).
    apply matches_spaces_km in Hm as (w & -> & Hw).
    exists pre, w, post. split; [by rewrite <- !app_assoc|].
    split; [by apply matches_grouped|done].
  - intros (pre & w & post & -> & Hg & Hw).
    exists pre, (w ++ chr "km"), post. split; [by rewrite <- !app_assoc|].
    split; [by apply matches_grouped|]. apply matches_spaces_km. by exists w.
Qed.

(** ** Integers read from digits *)

Lemma int_digits_decimal d :
  Forall (fun c => is_decimal c = true) d ->
  forall acc b, (d <> [] \/ b = true) ->
  int_digits acc b d
  = Some (fold_left (fun acc c => 10 * acc + digit_value c) d acc).
Proof.
  induction 1 as [|c d Hc _ IH]; intros acc b Hb; simpl.
  - by destruct Hb as [ | -> ].
  - rewrite Hc. apply IH. by right.
Qed.

Lemma decimal_fold_nonneg d :
  forall acc, 0 <= acc ->
  0 <= fold_left (fun acc c => 10 * acc + digit_value c) d acc.
Proof.
  induction d as [|c d IH]; intros acc Hacc; [done|].
  simpl. apply IH. unfold digit_value. lia.
Qed.

Lemma decimal_value_nonneg d : 0 <= decimal_value d.
Proof. by apply decimal_fold_nonneg. Qed.

Lemma decimal_not_sign c :
  is_decimal c = true -> Ascii.eqb c "+" = false /\ Ascii.eqb c "-" = false
    /\ Ascii.eqb c "," = false /\ Ascii.eqb c "." = false.
Proof.
  intros Hc. repeat split; apply Ascii.eqb_neq; intros ->; discriminate.
Qed.

Lemma int_literal_digits d : digits d -> int_literal d = Some (decimal_value d).
Proof.
  intros [Hne Hall]. destruct d as [|c d]; [done|]. unfold int_literal.
  inversion Hall as [|? ? Hc _]; subst.
  destruct (decimal_not_sign c Hc) as (-> & -> & _).
  apply int_digits_decimal; [done|by left].
Qed.

Lemma digit_count_digits d :
  Forall (fun c => is_decimal c = true) d -> digit_count d = Z.of_nat (length d).
Proof.
  intros Hall. unfold digit_count. f_equal. f_equal.
  induction Hall as [|c d Hc _ IH]; [done|]. simpl. rewrite Hc. simpl. by f_equal.
Qed.

(** [int] on a run of digits. *)
Lemma py_int_digits d : digits d -> Py.int d = int_of_digits d.
Proof.
  intros Hd. unfold Py.int, py_int, int_of_digits.
  rewrite (digit_count_digits d) by apply Hd.
  destruct (int_max_str_digits <? _); [done|]. by rewrite int_literal_digits.
Qed.

Lemma int_of_digits_nonneg d n : int_of_digits d = Ok n -> 0 <= n.
Proof.
  unfold int_of_digits. destruct (_ <? _); [done|].
  intros [= <-]. apply decimal_value_nonneg.
Qed.

Lemma py_int_literal s n : py_int s = Some n -> int_literal s = Some n.
Proof. unfold py_int. by destruct (_ <? _). Qed.

Lemma drop_commas_digits d : digits d -> drop_commas d = d.
Proof.
  intros [_ Hall]. unfold drop_commas.
  induction Hall as [|c d Hc _ IH]; [done|].
  cbn. destruct (decimal_not_sign c Hc) as (_ & _ & -> & _). simpl.
  by f_equal.
Qed.

Lemma drop_commas_app u v : drop_commas (u ++ v) = drop_commas u ++ drop_commas v.
Proof. apply filter_app. Qed.

Lemma drop_commas_separated t :
  separated t -> Forall (fun c => is_decimal c = true) (drop_commas t).
Proof.
  induction 1 as [|d t Hd _ IH]; [constructor|].
  change ("," :: d ++ t)%char with ([","%char] ++ d ++ t).
  rewrite !drop_commas_app, (drop_commas_digits d Hd).
  change (drop_commas [","%char]) with (@nil ascii). simpl.
  apply Forall_app. split; [apply Hd|done].
Qed.

Lemma drop_commas_grouped g : grouped g -> digits (drop_commas g).
Proof.
  intros (d & t & -> & Hd & Ht).
  rewrite drop_commas_app, (drop_commas_digits d Hd). split.
  - destruct Hd as [Hne _]. by destruct d.
  - apply Forall_app. split; [apply Hd|by apply drop_commas_separated].
Qed.

(** ** Two examples on the library side *)

(** The text of a [span] leaves out the content of a [script] below
    it, which [.string] returns on the [script] itself. *)
Example text_of_a_span :
  Soup.text (Elem "span" [] [Text "$5"; Elem "script" [] [Special "1"]]) = "$5"
  /\ Soup.string_of (Elem "script" [] [Special "1"]) = Some "1"
  /\ markup_price (chr (Soup.text
        (Elem "span" [] [Text "$5"; Elem "script" [] [Special "1"]]))) = 5.
Proof. repeat split; reflexivity. Qed.

(** [int] reads 4300 digits and refuses 4301. *)
Example int_limit :
  py_int (repeat "9"%char 4300) <> None /\ py_int (repeat "9"%char 4301) = None.
Proof.
  split; [|by vm_compute].
  assert (digits (repeat "9"%char 4300)) as Hd.
  { split; [done|]. apply Forall_forall.
    by intros c ->%list_elem_of_In%repeat_spec. }
  unfold py_int. rewrite (digit_count_digits _ (proj2 Hd)), repeat_length.
  change (int_max_str_digits <? Z.of_nat 4300) with false. cbv iota.
  by rewrite (int_literal_digits _ Hd).
Qed.
(** ** The leftmost match *)

Lemma search_leftmost p s g :
  search p s = Some g <->
  exists pre rest,
    s = pre ++ rest /\ match_here p rest = Some g
    /\ forall p1 p2, pre = p1 ++ p2 -> p2 <> [] -> match_here p (p2 ++ rest) = None.
Proof.
  split.
  - induction s as [|a t IH]; simpl.
    + destruct (match_here p []) as [g'|] eqn:E; [|done].
      intros [= ->]. exists [], []. split; [done|]. split; [done|].
      intros p1 p2 Hp Hne. by destruct p1, p2.
    + destruct (match_here p (a :: t)) as [g'|] eqn:E.
      * intros [= ->]. exists [], (a :: t). split; [done|]. split; [done|].
        intros p1 p2 Hp Hne. by destruct p1, p2.
      * intros (pre & rest & -> & Hm & Hbefore)%IH.
        exists (a :: pre), rest. split; [done|]. split; [done|].
        intros p1 p2 Hp Hne. destruct p1 as [|b p1]; simpl in Hp.
        -- by subst p2.
        -- injection Hp as <- ->. by apply (Hbefore p1 p2).
  - intros (pre & rest & -> & Hm & Hbefore).
    induction pre as [|a pre IH]; simpl.
    + destruct rest; simpl in *; by rewrite Hm.
    + pose proof (Hbefore [] (a :: pre) eq_refl ltac:(done)) as Hn.
      simpl in Hn. rewrite Hn.
      apply IH. intros p1 p2 -> Hne. by apply (Hbefore (a :: p1) p2).
Qed.

(** Two runs of one class that end at a character outside the class are
    the same run. *)
Lemma run_unique (P : ascii -> bool) (u u' x x' : chars) :
  Forall (fun c => P c = true) u -> Forall (fun c => P c = true) u' ->
  (forall c t, x = c :: t -> P c = false) ->
  (forall c t, x' = c :: t -> P c = false) ->
  x <> [] -> x' <> [] ->
  u ++ x = u' ++ x' -> u = u'.
Proof.
  intros Hu. revert u'. induction Hu as [|c u Hc _ IH]; intros u' Hu' Hx Hx' Hn Hn' E.
  - destruct Hu' as [|c' u' Hc' _]; [done|]. simpl in E.
    destruct x as [|c t]; [done|]. injection E as -> _.
    rewrite (Hx c' t) in Hc' by done. done.
  - destruct Hu' as [|c' u' Hc' Hu']; simpl in E.
    + destruct x' as [|c' t]; [done|]. injection E as -> _.
      rewrite (Hx' c' t) in Hc by done. done.
    + injection E as -> E. f_equal. by apply (IH u').
Qed.

Lemma space_not_in_number c :
  is_space c = true -> is_decimal c || Ascii.eqb c "," = false.
Proof. by destruct c as [[] [] [] [] [] [] [] []]. Qed.

Lemma grouped_class g :
  grouped g -> Forall (fun c => is_decimal c || Ascii.eqb c "," = true) g.
Proof.
  intros (d & t & -> & [_ Hd] & Ht). apply Forall_app. split.
  - eapply Forall_impl; [apply Hd|]. by intros c ->.
  - induction Ht as [|d' t' [_ Hd'] _ IH]; [constructor|].
    constructor; [done|]. apply Forall_app. split; [|done].
    eapply Forall_impl; [apply Hd'|]. by intros c ->.
Qed.

Lemma thousands_at_unique s d d' : thousands_at s d -> thousands_at s d' -> d = d'.
Proof.
  intros (w & post & -> & [_ Hd] & _) (w' & post' & E & [_ Hd'] & _).
  apply (run_unique is_decimal _ _ _ _ Hd Hd') in E; try done;
    by intros c t [= <- _].
Qed.

Lemma plain_at_unique s g g' : plain_at s g -> plain_at s g' -> g = g'.
Proof.
  assert (forall w post c t, spaces w -> w ++ chr "km" ++ post = c :: t ->
            is_decimal c || Ascii.eqb c "," = false) as Hnext.
  { intros w post c t Hw E. destruct Hw as [|a w Ha _]; simpl in E.
    - by injection E as <- _.
    - injection E as <- _. by apply space_not_in_number. }
  intros (w & post & -> & Hg & Hw) (w' & post' & E & Hg' & Hw').
  apply grouped_class in Hg, Hg'.
  apply (run_unique (fun c => is_decimal c || Ascii.eqb c ",") _ _ _ _ Hg Hg') in E;
    try done.
  - intros c t. by apply Hnext.
  - intros c t. by apply Hnext.
  - by destruct w.
  - by destruct w'.
Qed.

Lemma match_here_thousands s d :
  match_here pat_thousands s = Some d <-> thousands_at s d.
Proof.
  assert (forall g, match_here pat_thousands s = Some g -> thousands_at s g) as Hsound.
  { intros g (m & post & -> & Hg & Hm)%match_here_sound. simpl in *.
    inversion Hm as [| |? ? u v Hu Hv| | |]; subst. inversion Hu; subst.
    apply matches_spaces_km in Hv as (w & -> & Hw).
    exists w, post. split; [|split; [by apply matches_digits1|done]].
    simpl. by rewrite <- !app_assoc. }
  split; [apply Hsound|].
  intros Hd. pose proof Hd as (w & post & -> & Hdig & Hw).
  destruct (match_here_complete pat_thousands d ("K" :: w ++ chr "km")%char post)
    as [g Hg].
  { by apply matches_digits1. }
  { apply (M_seq _ _ ["K"%char] (w ++ chr "km")); [constructor|].
    apply matches_spaces_km. by exists w. }
  replace (d ++ ("K" :: w)%char ++ chr "km" ++ post)
    with (d ++ ("K" :: w ++ chr "km")%char ++ post)
    by (simpl; by rewrite <- !app_assoc).
  rewrite Hg. f_equal. apply (thousands_at_unique (d ++ ("K" :: w)%char ++ chr "km" ++ post)); [|done].
  apply Hsound.
  replace (d ++ ("K" :: w)%char ++ chr "km" ++ post)
    with (d ++ ("K" :: w ++ chr "km")%char ++ post)
    by (simpl; by rewrite <- !app_assoc).
  done.
Qed.

Lemma match_here_plain s g :
  match_here pat_plain s = Some g <-> plain_at s g.
Proof.
  assert (forall g, match_here pat_plain s = Some g -> plain_at s g) as Hsound.
  { intros g' (m & post & -> & Hg & Hm)%match_here_sound.
    apply matches_spaces_km in Hm as (w & -> & Hw).
    exists w, post. split; [by rewrite <- !app_assoc|].
    split; [by apply matches_grouped|done]. }
  split; [apply Hsound|].
  intros Hd. pose proof Hd as (w & post & -> & Hgr & Hw).
  destruct (match_here_complete pat_plain g (w ++ chr "km") post) as [g' Hg'].
  { by apply matches_grouped. }
  { apply matches_spaces_km. by exists w. }
  rewrite <- !app_assoc in Hg'. rewrite Hg'. f_equal.
  apply (plain_at_unique (g ++ w ++ chr "km" ++ post)); [|done]. by apply Hsound.
Qed.

Lemma search_is_leftmost (p : pattern) (form : chars -> chars -> Prop) :
  (forall s g, match_here p s = Some g <-> form s g) ->
  forall s g, search p s = Some g <-> leftmost form s g.
Proof.
  intros Hform s g. rewrite search_leftmost. unfold leftmost.
  split; intros (pre & rest & -> & Hm & Hbefore); exists pre, rest;
    (split; [done|]); (split; [by apply Hform|]).
  - intros p1 p2 g' Hp Hne Hg'%Hform. by rewrite (Hbefore p1 p2) in Hg'.
  - intros p1 p2 Hp Hne. destruct (match_here p (p2 ++ rest)) as [g'|] eqn:E; [|done].
    apply Hform in E. by destruct (Hbefore p1 p2 g').
Qed.

Lemma search_thousands s d :
  search pat_thousands s = Some d <-> leftmost thousands_at s d.
Proof. apply search_is_leftmost, match_here_thousands. Qed.

Lemma search_plain s g : search pat_plain s = Some g <-> leftmost plain_at s g.
Proof. apply search_is_leftmost, match_here_plain. Qed.

Lemma leftmost_digits s d : leftmost thousands_at s d -> digits d.
Proof. by intros (pre & rest & _ & (w & post & _ & Hd & _) & _). Qed.

Lemma leftmost_grouped s g : leftmost plain_at s g -> grouped g.
Proof. by intros (pre & rest & _ & (w & post & _ & Hg & _) & _). Qed.

(** ** Mileage *)

Lemma search_thousands_digits s d : search pat_thousands s = Some d -> digits d.
Proof. by intros Hs%search_thousands%leftmost_digits. Qed.

Lemma search_plain_digits s g :
  search pat_plain s = Some g -> digits (drop_commas g).
Proof. by intros Hs%search_plain%leftmost_grouped%drop_commas_grouped. Qed.

(** The mileage lines on each of their three paths. *)
Lemma markup_mileage_thousands s d :
  search pat_thousands s = Some d ->
  markup_mileage s = if int_max_str_digits <? Z.of_nat (length d)
                     then Raise ValueError
                     else Ok (decimal_value d * 1000).
Proof.
  intros Hs. unfold markup_mileage. rewrite Hs.
  rewrite (py_int_digits d) by by eapply search_thousands_digits.
  unfold int_of_digits. by destruct (_ <? _).
Qed.

Lemma markup_mileage_plain s g :
  search pat_thousands s = None -> search pat_plain s = Some g ->
  markup_mileage s = int_of_digits (drop_commas g).
Proof.
  intros Hn Hs. unfold markup_mileage. rewrite Hn, Hs.
  apply py_int_digits. by eapply search_plain_digits.
Qed.

(** The mileage lines raise nothing but [ValueError], and never give a
    negative number. *)
Lemma markup_mileage_nonneg s n : markup_mileage s = Ok n -> 0 <= n.
Proof.
  destruct (search pat_thousands s) as [d|] eqn:E1.
  - rewrite (markup_mileage_thousands s d E1).
    destruct (_ <? _); [done|]. intros [= <-].
    pose proof (decimal_value_nonneg d). lia.
  - destruct (search pat_plain s) as [g|] eqn:E2.
    + rewrite (markup_mileage_plain s g E1 E2). apply int_of_digits_nonneg.
    + unfold markup_mileage. rewrite E1, E2. by intros [= <-].
Qed.

Lemma markup_mileage_raises s e : markup_mileage s = Raise e -> e = ValueError.
Proof.
  destruct (search pat_thousands s) as [d|] eqn:E1.
  - rewrite (markup_mileage_thousands s d E1).
    destruct (_ <? _); [|done]. by intros [= <-].
  - destruct (search pat_plain s) as [g|] eqn:E2.
    + rewrite (markup_mileage_plain s g E1 E2). unfold int_of_digits.
      destruct (_ <? _); [|done]. by intros [= <-].
    + unfold markup_mileage. by rewrite E1, E2.
Qed.

(** A text with no integer of more than 4300 digits before [km] has a
    mileage. *)
Lemma markup_mileage_short s :
  (Z.of_nat (length s) <= int_max_str_digits) ->
  exists n, markup_mileage s = Ok n.
Proof.
  intros Hlen.
  assert (forall g pre rest, s = pre ++ g ++ rest ->
            (int_max_str_digits <? Z.of_nat (length g)) = false) as Hshort.
  { intros g pre rest ->. apply Z.ltb_ge. rewrite !length_app in Hlen. lia. }
  destruct (search pat_thousands s) as [d|] eqn:E1.
  - rewrite (markup_mileage_thousands s d E1).
    apply search_sound in E1 as (pre & m & post & -> & _).
    rewrite (Hshort d pre (m ++ post)) by done. by eexists.
  - destruct (search pat_plain s) as [g|] eqn:E2.
    + rewrite (markup_mileage_plain s g E1 E2). unfold int_of_digits.
      apply search_sound in E2 as (pre & m & post & -> & _).
      assert (length (drop_commas g) <= length g)%nat as Hle
        by apply length_filter.
      replace (_ <? _) with false; [by eexists|].
      symmetry. apply Z.ltb_ge. rewrite !length_app in Hlen. lia.
    + unfold markup_mileage. rewrite E1, E2. by eexists.
Qed.

Lemma starts_with_app n post : starts_with n (n ++ post) = true.
Proof. induction n as [|a n IH]; [done|]. simpl. by rewrite Ascii.eqb_refl. Qed.

Lemma contains_head n h : starts_with n h = true -> contains n h = true.
Proof. destruct h; simpl; by intros ->. Qed.

Lemma contains_app n pre post : contains n (pre ++ n ++ post) = true.
Proof.
  induction pre as [|a pre IH]; simpl.
  - apply contains_head, starts_with_app.
  - rewrite IH. apply orb_true_r.
Qed.

Lemma occurs_has_km (p : pattern) s g :
  (forall m, matches (rest p) m -> exists u, m = u ++ chr "km") ->
  occurs p s g -> contains (chr "km") (lower s) = true.
Proof.
  intros Hrest (pre & m & post & -> & _ & Hm).
  apply Hrest in Hm as [u ->]. unfold lower.
  rewrite !map_app, !app_assoc, <- app_assoc.
  apply contains_app.
Qed.

Lemma search_needs_km s :
  contains (chr "km") (lower s) = false ->
  search pat_thousands s = None /\ search pat_plain s = None.
Proof.
  intros Hkm. split; apply search_none; intros g Hg;
    apply occurs_has_km in Hg; try congruence; simpl; intros m Hm.
  - inversion Hm as [| |? ? u v Hu Hv| | |]; subst.
    apply matches_spaces_km in Hv as (w & -> & _).
    exists (u ++ w). by rewrite app_assoc.
  - apply matches_spaces_km in Hm as (w & -> & _). by exists w.
Qed.

(** The structured path reads a single subtitle as the markup path reads
    its mileage text. *)
Lemma subtitle_step_markup (s : string) :
  subtitle_step 0 (VDict [("subtitle", VStr s)]) = markup_mileage (chr s).
Proof.
  unfold subtitle_step, markup_mileage. simpl.
  destruct (contains _ (lower _)) eqn:Hkm; [done|].
  by destruct (search_needs_km _ Hkm) as [-> ->].
Qed.

(** C5, as amended: the mileage lines look for the leftmost place where
    [<integer>K km] starts, with an upper-case K and the integer taken
    whole, and give that integer times 1000; when there is none they look
    for the leftmost place where [<integer with optional separators> km]
    starts and give that integer without its separators; when there is
    none either they give 0. [int] refuses an integer of more than 4300
    digits with [ValueError]. The place and the integer are unique, and a
    text that holds a form has its leftmost place. The structured path
    reads a subtitle the same way. A lower-case k is not a thousands
    suffix. *)
Theorem mileage_normalization (s : chars) :
  (forall d, leftmost thousands_at s d ->
     markup_mileage s = if int_max_str_digits <? Z.of_nat (length d)
                        then Raise ValueError
                        else Ok (decimal_value d * 1000))
  /\ ((forall d, ~ thousands_form s d) -> forall g, leftmost plain_at s g ->
        markup_mileage s
        = if int_max_str_digits <? Z.of_nat (length (drop_commas g))
          then Raise ValueError
          else Ok (decimal_value (drop_commas g)))
  /\ ((forall d, ~ thousands_form s d) -> (forall g, ~ plain_form s g) ->
        markup_mileage s = Ok 0)
  /\ ((exists d, thousands_form s d) -> exists d, leftmost thousands_at s d)
  /\ ((exists g, plain_form s g) -> exists g, leftmost plain_at s g)
  /\ (forall d d', leftmost thousands_at s d -> leftmost thousands_at s d' ->
        d = d')
  /\ (forall g g', leftmost plain_at s g -> leftmost plain_at s g' -> g = g')
  /\ subtitle_step 0 (VDict [("subtitle", VStr (Py.str s))]) = markup_mileage s
  /\ markup_mileage (chr "78K km") = Ok 78000
  /\ markup_mileage (chr "45,000 km") = Ok 45000
  /\ markup_mileage (chr "some text") = Ok 0
  /\ markup_mileage (chr "78k km") = Ok 0.
Proof.
  split; [|split; [|split; [|split; [|split; [|split; [|split; [|split]]]]]]].
  - intros d Hd%search_thousands. by apply markup_mileage_thousands.
  - intros Hno g Hg%search_plain.
    rewrite (markup_mileage_plain s g); [done| |done].
    apply search_none. intros d Hd%occurs_thousands. by apply (Hno d).
  - intros Hno1 Hno2. unfold markup_mileage.
    replace (search pat_thousands s) with (@None chars).
    + replace (search pat_plain s) with (@None chars); [done|].
      symmetry. apply search_none. intros g Hg%occurs_plain. by apply (Hno2 g).
    + symmetry. apply search_none. intros d Hd%occurs_thousands. by apply (Hno1 d).
  - intros [d Hd%occurs_thousands%search_complete]. destruct Hd as [d' Hd'].
    exists d'. by apply search_thousands.
  - intros [g Hg%occurs_plain%search_complete]. destruct Hg as [g' Hg'].
    exists g'. by apply search_plain.
  - intros d d' Hd%search_thousands Hd'%search_thousands. congruence.
  - intros g g' Hg%search_plain Hg'%search_plain. congruence.
  - rewrite subtitle_step_markup. unfold Py.str.
    by rewrite list_ascii_of_string_of_list_ascii.
  - by repeat split.
Qed.

Lemma mileage_normalization_witness :
  markup_mileage (chr "1978K km") = Ok 1978000.
Proof.
  apply (proj1 (mileage_normalization (chr "1978K km")) (chr "1978")).
  exists [], (chr "1978K km"). split; [reflexivity|]. split.
  - exists [" "%char], []. split; [reflexivity|].
    split; [split; [discriminate|]|]; repeat constructor.
  - intros p1 p2 g' Hp Hne. by destruct p1, p2.
Defined.

(** C5 as stated fails: the K suffix is matched with its case, and an
    integer of 4301 digits is refused. *)
Lemma mileage_lower_k_is_zero :
  markup_mileage (chr "78k km") = Ok 0
  /\ subtitle_step 0 (VDict [("subtitle", VStr "78k km")]) = Ok 0
  /\ markup_mileage (chr "78k km") <> Ok 78000
  /\ markup_mileage (repeat "9"%char 4301 ++ chr " km") = Raise ValueError.
Proof.
  split; [done|]. split; [done|]. split; [done|].
  rewrite (markup_mileage_plain _ (repeat "9"%char 4301)).
  - assert (drop_commas (repeat "9"%char 4301) = repeat "9"%char 4301) as ->.
    { apply drop_commas_digits. split; [done|]. apply Forall_forall.
      by intros c ->%list_elem_of_In%repeat_spec. }
    unfold int_of_digits. by rewrite repeat_length.
  - apply search_none. intros d (pre & m & post & E & _ & Hm). simpl in Hm.
    inversion Hm as [| |? ? u v Hu Hv| | |]; subst. inversion Hu; subst.
    assert (In "K"%char (repeat "9"%char 4301 ++ chr " km")) as Hin.
    { rewrite E. apply in_or_app. right. apply in_or_app. right. by left. }
    apply in_app_or in Hin as [Hk%repeat_spec|Hin]; [discriminate|].
    simpl in Hin. by repeat destruct Hin as [Hin|Hin].
  - apply search_plain. exists [], (repeat "9"%char 4301 ++ chr " km").
    split; [done|]. split.
    + exists [" "%char], []. split; [done|]. split; [|by repeat constructor].
      exists (repeat "9"%char 4301), []. split; [by rewrite app_nil_r|].
      split; [|constructor]. split; [done|]. apply Forall_forall.
      by intros c ->%list_elem_of_In%repeat_spec.
    + intros p1 p2 g' Hp Hne. by destruct p1, p2.
Qed.
(** ** The image lines *)

Lemma set_primary_image_spec (obj : list (string * value)) (cars cars' : cars_dict) :
  set_primary_image obj cars = Ok cars' ->
  cars' = match primary_uri obj with
          | Some uri => <["ImageURL" := uri]> cars
          | None => cars
          end.
Proof.
  unfold set_primary_image, primary_uri, Py.has_key, Py.getitem, Py.py_in,
    Py.has_key. simpl.
  destruct (Py.dict_get "primary_listing_photo" obj) as [photo|]; simpl;
    [|congruence].
  destruct photo as [| | | | |l|items]; simpl; try discriminate.
  - destruct (contains _ _); simpl; [discriminate|congruence].
  - destruct (existsb _ _); simpl; [discriminate|congruence].
  - destruct (Py.dict_get "image" items) as [image|]; simpl; [|congruence].
    destruct image as [| | | | |l|items']; simpl; try discriminate.
    + destruct (contains _ _); simpl; [discriminate|congruence].
    + destruct (existsb _ _); simpl; [discriminate|congruence].
    + destruct (Py.dict_get "uri" items'); simpl; congruence.
Qed.

Lemma set_fallback_image_spec (obj : list (string * value)) (cars cars' : cars_dict) :
  set_fallback_image obj cars = Ok cars' ->
  cars' = match cars !! "ImageURL" with
          | Some _ => cars
          | None =>
              match first_photo_uri obj with
              | Some uri => <["ImageURL" := uri]> cars
              | None => cars
              end
          end.
Proof.
  unfold set_fallback_image, first_photo_uri, Py.has_key, Py.getitem, Py.py_in,
    Py.has_key.
  destruct (cars !! "ImageURL") as [u|] eqn:Hu; simpl.
  { congruence. }
  destruct (Py.dict_get "listing_photos" obj) as [photos|]; simpl; [|congruence].
  destruct photos as [| | | |s|l|items]; simpl; try discriminate.
  - destruct s as [|c s]; simpl; [congruence|].
    rewrite andb_false_r. simpl. congruence.
  - destruct l as [|photo l]; simpl; [congruence|].
    destruct photo as [| | | | |l'|items]; simpl; try discriminate.
    + destruct (contains _ _); simpl; [discriminate|congruence].
    + destruct (existsb _ _); simpl; [discriminate|congruence].
    + destruct (Py.dict_get "image" items) as [image|]; simpl; [|congruence].
      destruct image as [| | | | |l''|items']; simpl; try discriminate.
      * destruct (contains _ _); simpl; [discriminate|congruence].
      * destruct (existsb _ _); simpl; [discriminate|congruence].
      * destruct (Py.dict_get "uri" items'); simpl; congruence.
  - destruct items; simpl; [congruence|discriminate].
Qed.

Lemma image_chain (obj : list (string * value)) (c0 c1 c2 : cars_dict) :
  c0 !! "ImageURL" = None ->
  set_primary_image obj c0 = Ok c1 ->
  set_fallback_image obj c1 = Ok c2 ->
  set_default_image c2 !! "ImageURL" = Some (resolved_image obj)
  /\ forall k, k <> "ImageURL" -> set_default_image c2 !! k = c0 !! k.
Proof.
  intros H0 -> %set_primary_image_spec -> %set_fallback_image_spec.
  unfold resolved_image, set_default_image.
  destruct (primary_uri obj) as [u|].
  - rewrite lookup_insert_eq, bool_decide_eq_true_2 by (rewrite lookup_insert_eq; eauto).
    split; [by rewrite lookup_insert_eq|].
    intros k Hk. by rewrite lookup_insert_ne.
  - rewrite H0. destruct (first_photo_uri obj) as [u|].
    + rewrite bool_decide_eq_true_2 by (rewrite lookup_insert_eq; eauto).
      split; [by rewrite lookup_insert_eq|].
      intros k Hk. by rewrite lookup_insert_ne.
    + rewrite bool_decide_eq_false_2 by (rewrite H0; by intros [? ?]).
      split; [by rewrite lookup_insert_eq|].
      intros k Hk. by rewrite lookup_insert_ne.
Qed.
(** ** Tokens *)

Lemma split_from_nonempty cur s t : In t (split_from cur s) -> t <> [].
Proof.
  revert cur. induction s as [|c s IH]; intros cur; simpl.
  - destruct cur as [|a cur]; simpl; [done|]. intros [<-|[]].
    intros Hr. apply (f_equal (@length ascii)) in Hr.
    rewrite length_app in Hr. simpl in Hr. lia.
  - destruct (is_space c); [|by apply IH].
    destruct cur as [|a cur]; [by apply IH|]. simpl. intros [<-|Hin]; [|by apply (IH [])].
    intros Hr. apply (f_equal (@length ascii)) in Hr.
    rewrite length_app in Hr. simpl in Hr. lia.
Qed.

Lemma token_nonempty s i :
  (i < length (Text.split s))%nat -> Py.str (nth i (Text.split s) []) <> "".
Proof.
  intros Hi. pose proof (nth_In _ [] Hi) as Hin.
  apply split_from_nonempty in Hin.
  intros Hs. apply Hin. unfold Py.str in Hs.
  by destruct (nth _ _ _).
Qed.

(** ** Induction on decoded documents *)

Lemma value_ind_nested (P : value -> Prop) :
  P VNone -> (forall b, P (VBool b)) -> (forall n, P (VInt n)) ->
  (forall x, P (VFloat x)) -> (forall s, P (VStr s)) ->
  (forall items, Forall P items -> P (VList items)) ->
  (forall items, Forall (fun kv => P (snd kv)) items -> P (VDict items)) ->
  forall v, P v.
Proof.
  intros Hnone Hbool Hint Hfloat Hstr Hlist Hdict.
  fix IH 1.
  intros [|b|n|x|s|items|items];
    [apply Hnone|apply Hbool|apply Hint|apply Hfloat|apply Hstr| |].
  - apply Hlist. induction items as [|v items IHl]; constructor; [apply IH|apply IHl].
  - apply Hdict. induction items as [|[k v] items IHl]; constructor; [apply IH|apply IHl].
Qed.

(** ** The price lines *)

Lemma set_price_spec `{Runtime} (obj : list (string * value)) (cars cars' : cars_dict) :
  set_price obj cars = Ok cars' ->
  cars' = match listed_amount obj with
          | Some amount =>
              match Py.float amount with
              | Ok f => <["Price" := VFloat f]> cars
              | Raise _ => <["Price" := VInt 0]> cars
              end
          | None => cars
          end.
Proof.
  unfold set_price, listed_amount, Py.has_key, Py.getitem, Py.py_in, Py.has_key. simpl.
  destruct (Py.dict_get "listing_price" obj) as [lp|]; simpl; [|congruence].
  destruct lp as [| | | | |l|items]; simpl; try discriminate.
  - destruct (contains _ _); simpl; [discriminate|congruence].
  - destruct (existsb _ _); simpl; [discriminate|congruence].
  - destruct (Py.dict_get "amount" items) as [amount|]; simpl; [|congruence].
    destruct (Py.float amount) as [f|[]]; simpl; congruence.
Qed.

Lemma set_price_other `{Runtime} (obj : list (string * value)) (cars cars' : cars_dict) k :
  set_price obj cars = Ok cars' -> k <> "Price" -> cars' !! k = cars !! k.
Proof.
  intros -> %set_price_spec Hk.
  destruct (listed_amount obj) as [a|]; [|done].
  destruct (Py.float a); by rewrite lookup_insert_ne.
Qed.

(** ** What a candidate node yields *)

Section Candidate.
Context `{Runtime}.

(** The steps a candidate goes through to reach the [append]. *)
Lemma candidate_some (obj : list (string * value)) (cars : cars_dict) :
  candidate obj = Ok (Some cars) <->
  exists t year c1 m c2 c3,
    listing_title obj = VStr t
    /\ (3 <= length (Text.split (chr t)))%nat
    /\ py_int (nth 0 (Text.split (chr t)) []) = Some year
    /\ set_price obj (base_cars (Text.split (chr t)) year) = Ok c1
    /\ get_mileage obj = Ok m
    /\ set_primary_image obj
         (<["URL" := VStr (item_url_prefix +:+
              Py.format (Py.get_default "id" (VStr "") obj))]>
            (<["Mileage" := VInt m]> c1)) = Ok c2
    /\ set_fallback_image obj c2 = Ok c3
    /\ cars = set_default_image c3.
Proof.
  unfold candidate, base_cars. split.
  - intros Hc.
    destruct (listing_title obj) as [| | | |t| |]; cbn [Py.split mbind result_bind] in Hc; try discriminate.
    destruct (Nat.ltb _ 3) eqn:Hlen; [discriminate|].
    apply Nat.ltb_ge in Hlen.
    destruct (py_int _) as [year|] eqn:Hyear; [|discriminate].
    destruct (set_price obj _) as [c1|] eqn:Hprice; cbn [Py.split mbind result_bind] in Hc; [|discriminate].
    destruct (get_mileage obj) as [m|] eqn:Hm; cbn [Py.split mbind result_bind] in Hc; [|discriminate].
    destruct (set_primary_image obj _) as [c2|] eqn:H2; cbn [Py.split mbind result_bind] in Hc; [|discriminate].
    destruct (set_fallback_image obj c2) as [c3|] eqn:H3; cbn [Py.split mbind result_bind] in Hc; [|discriminate].
    revert Hc.
    intros [= <-]. by exists t, year, c1, m, c2, c3.
  - intros (t & year & c1 & m & c2 & c3 & -> & Hlen & Hyear & Hp & Hm & H2 & H3 & ->).
    cbn [Py.split mbind result_bind]. apply Nat.ltb_ge in Hlen.
    rewrite Hlen, Hyear, Hp. cbn [mbind result_bind].
    rewrite Hm. cbn [mbind result_bind].
    rewrite H2. cbn [mbind result_bind]. by rewrite H3.
Qed.

(** The [return] of a rejected title. *)
Lemma candidate_none (obj : list (string * value)) :
  candidate obj = Ok None <->
  exists t, listing_title obj = VStr t
    /\ ((length (Text.split (chr t)) < 3)%nat
        \/ py_int (nth 0 (Text.split (chr t)) []) = None).
Proof.
  unfold candidate. split.
  - intros Hc.
    destruct (listing_title obj) as [| | | |t| |]; cbn [Py.split mbind result_bind] in Hc; try discriminate.
    exists t. split; [done|].
    destruct (Nat.ltb _ 3) eqn:Hlen.
    { left. by apply Nat.ltb_lt. }
    destruct (py_int _) as [year|] eqn:Hyear; [|by right].
    destruct (set_price obj _) as [c1|]; cbn [Py.split mbind result_bind] in Hc; [|discriminate].
    destruct (get_mileage obj) as [m|]; cbn [Py.split mbind result_bind] in Hc; [|discriminate].
    destruct (set_primary_image obj _) as [c2|]; cbn [Py.split mbind result_bind] in Hc; [|discriminate].
    destruct (set_fallback_image obj c2) as [c3|]; cbn [Py.split mbind result_bind] in Hc; discriminate.
  - intros (t & -> & [Hlen|Hyear]); cbn [Py.split mbind result_bind].
    + apply Nat.ltb_lt in Hlen. by rewrite Hlen.
    + destruct (Nat.ltb _ 3); [done|]. by rewrite Hyear.
Qed.

(** The fields of a record that reaches the [append]. *)
Lemma candidate_fields (obj : list (string * value)) (cars : cars_dict) :
  candidate obj = Ok (Some cars) ->
  exists t year m,
    listing_title obj = VStr t
    /\ (3 <= length (Text.split (chr t)))%nat
    /\ py_int (nth 0 (Text.split (chr t)) []) = Some year
    /\ get_mileage obj = Ok m
    /\ cars !! "Year" = Some (VInt year)
    /\ cars !! "Make" = Some (VStr (Py.str (nth 1 (Text.split (chr t)) [])))
    /\ cars !! "Model" = Some (VStr (Py.str (nth 2 (Text.split (chr t)) [])))
    /\ cars !! "Mileage" = Some (VInt m)
    /\ cars !! "URL" = Some (VStr (item_url_prefix +:+
                          Py.format (Py.get_default "id" (VStr "") obj)))
    /\ cars !! "ImageURL" = Some (resolved_image obj)
    /\ cars !! "Price" =
         match listed_amount obj with
         | Some amount =>
             match Py.float amount with
             | Ok f => Some (VFloat f)
             | Raise _ => Some (VInt 0)
             end
         | None => None
         end.
Proof.
  intros (t & year & c1 & m & c2 & c3 & Ht & Hlen & Hyear & Hp & Hm & H2 & H3 & ->)
    %candidate_some.
  exists t, year, m. do 4 (split; [done|]).
  assert (forall k, k <> "Price" -> k <> "Mileage" -> k <> "URL" ->
                    (<["URL" := VStr (item_url_prefix +:+
                        Py.format (Py.get_default "id" (VStr "") obj))]>
                      (<["Mileage" := VInt m]> c1) : cars_dict) !! k
                    = base_cars (Text.split (chr t)) year !! k) as Hbase.
  { intros k ? ? ?. rewrite !lookup_insert_ne by done. by eapply set_price_other. }
  pose proof (Hbase "ImageURL" ltac:(done) ltac:(done) ltac:(done)) as Hnone.
  change (base_cars _ _ !! "ImageURL") with (@None value) in Hnone.
  destruct (image_chain obj _ c2 c3 Hnone H2 H3) as [Himg Hother].
  rewrite !Hother, !Hbase by done.
  repeat split; try done.
  - by rewrite lookup_insert_ne, lookup_insert_eq.
  - by rewrite lookup_insert_eq.
  - rewrite Hother, !lookup_insert_ne by done.
    rewrite (set_price_spec _ _ _ Hp).
    destruct (listed_amount obj) as [a|]; [|done].
    destruct (Py.float a); by rewrite lookup_insert_eq.
Qed.

End Candidate.
(** ** The traversal *)

Section Traversal.
Context `{Runtime}.

Lemma search_listings_dict (items : list (string * value)) vehicles :
  search_listings (VDict items) vehicles =
    if is_listing items then
      match candidate items with
      | Ok None => vehicles
      | Ok (Some cars) => search_values items (vehicles ++ [cars])
      | Raise _ => search_values items vehicles
      end
    else search_values items vehicles.
Proof.
  assert (forall l acc,
    (fix values (l : list (string * value)) (acc : list cars_dict) :=
       match l with
       | [] => acc
       | (_, val) :: rest => values rest (search_listings val acc)
       end) l acc = search_values l acc) as Hfold.
  { induction l as [|[k v] l IH]; intros acc; [done|]. apply IH. }
  simpl. rewrite !Hfold. by destruct (is_listing items), (candidate items) as [[?|]|].
Qed.

Lemma search_listings_list (items : list value) vehicles :
  search_listings (VList items) vehicles = search_elements items vehicles.
Proof.
  simpl. revert vehicles. induction items as [|v l IH]; intros acc; [done|]. apply IH.
Qed.

(** A node whose title is rejected ends the call: its children are not
    visited. *)
Lemma rejected_node_is_not_searched (items : list (string * value)) vehicles :
  is_listing items = true -> candidate items = Ok None ->
  search_listings (VDict items) vehicles = vehicles.
Proof. intros Hl Hc. by rewrite search_listings_dict, Hl, Hc. Qed.

(** Every record the traversal appends is the record of a candidate
    node of the document. *)
Lemma search_listings_origin (data : value) :
  forall vehicles, exists new,
    search_listings data vehicles = vehicles ++ new
    /\ Forall (fun cars => exists obj, inside (VDict obj) data
                 /\ is_listing obj = true /\ candidate obj = Ok (Some cars)) new.
Proof.
  induction data as [| | | | |items IH|items IH] using value_ind_nested;
    intros vehicles; try (exists []; split; [by rewrite app_nil_r|constructor]).
  - rewrite search_listings_list.
    assert (forall acc, exists new, search_elements items acc = acc ++ new
      /\ Forall (fun cars => exists obj item, In item items /\ inside (VDict obj) item
                 /\ is_listing obj = true /\ candidate obj = Ok (Some cars)) new)
      as Hfold.
    { clear vehicles. induction IH as [|v l Hv _ IHl]; intros acc.
      - exists []. split; [by rewrite app_nil_r|constructor].
      - simpl. destruct (Hv acc) as (n1 & -> & Hn1).
        destruct (IHl (acc ++ n1)) as (n2 & -> & Hn2).
        exists (n1 ++ n2). split; [by rewrite app_assoc|].
        apply Forall_app. split.
        + eapply Forall_impl; [apply Hn1|]. intros c (obj & ? & ? & ?).
          exists obj, v. split; [by left|done].
        + eapply Forall_impl; [apply Hn2|]. intros c (obj & item & ? & ?).
          exists obj, item. split; [by right|done]. }
    destruct (Hfold vehicles) as (new & -> & Hnew). exists new. split; [done|].
    eapply Forall_impl; [apply Hnew|]. intros c (obj & item & ? & ? & ? & ?).
    exists obj. split; [by eapply inside_list|done].
  - rewrite search_listings_dict.
    assert (forall acc, exists new, search_values items acc = acc ++ new
      /\ Forall (fun cars => exists obj kv, In kv items /\ inside (VDict obj) (snd kv)
                 /\ is_listing obj = true /\ candidate obj = Ok (Some cars)) new)
      as Hfold.
    { clear vehicles. induction IH as [|kv l Hv _ IHl]; intros acc.
      - exists []. split; [by rewrite app_nil_r|constructor].
      - simpl. destruct (Hv acc) as (n1 & -> & Hn1).
        destruct (IHl (acc ++ n1)) as (n2 & -> & Hn2).
        exists (n1 ++ n2). split; [by rewrite app_assoc|].
        apply Forall_app. split.
        + eapply Forall_impl; [apply Hn1|]. intros c (obj & ? & ? & ?).
          exists obj, kv. split; [by left|done].
        + eapply Forall_impl; [apply Hn2|]. intros c (obj & kv' & ? & ?).
          exists obj, kv'. split; [by right|done]. }
    assert (forall acc, exists new, search_values items acc = acc ++ new
      /\ Forall (fun cars => exists obj, inside (VDict obj) (VDict items)
                 /\ is_listing obj = true /\ candidate obj = Ok (Some cars)) new)
      as Hbelow.
    { intros acc. destruct (Hfold acc) as (new & -> & Hnew). exists new.
      split; [done|]. eapply Forall_impl; [apply Hnew|].
      intros c (obj & [k v] & ? & ? & ? & ?).
      exists obj. split; [by eapply inside_dict|done]. }
    destruct (is_listing items) eqn:Hl; [|apply Hbelow].
    destruct (candidate items) as [[cars|]|e] eqn:Hc; [| |apply Hbelow].
    + destruct (Hbelow (vehicles ++ [cars])) as (new & -> & Hnew).
      exists (cars :: new). split; [by rewrite <- app_assoc|].
      constructor; [|done]. exists items. split; [constructor|done].
    + exists []. split; [by rewrite app_nil_r|constructor].
Qed.

Lemma search_listings_records (data : value) (cars : cars_dict) :
  In cars (search_listings data []) ->
  exists obj, inside (VDict obj) data /\ is_listing obj = true
    /\ candidate obj = Ok (Some cars).
Proof.
  destruct (search_listings_origin data []) as (new & -> & Hnew).
  simpl. intros Hin%list_elem_of_In. by apply (proj1 (Forall_forall _ _) Hnew).
Qed.

(** Depth does not stop the traversal. *)
Lemma search_list_wrap n (v : value) vehicles :
  search_listings (list_wrap n v) vehicles = search_listings v vehicles.
Proof.
  induction n as [|n IH]; [done|].
  simpl list_wrap. by rewrite search_listings_list.
Qed.


End Traversal.
(** ** Stripping does not change the tokens *)

Lemma split_from_lstrip s : split_from [] (lstrip s) = split_from [] s.
Proof.
  induction s as [|c s IH]; [done|]. simpl.
  destruct (is_space c) eqn:Hc; [done|]. simpl. by rewrite Hc.
Qed.

Lemma split_from_trailing cur s c :
  is_space c = true -> split_from cur (s ++ [c]) = split_from cur s.
Proof.
  intros Hc. revert cur. induction s as [|a s IH]; intros cur; simpl.
  - rewrite Hc. by destruct cur.
  - destruct (is_space a); [|apply IH]. rewrite !IH. by destruct cur.
Qed.

Lemma split_rstrip s : Text.split (rev (lstrip (rev s))) = Text.split s.
Proof.
  unfold Text.split. induction s as [|c s IH] using rev_ind; [done|].
  rewrite rev_app_distr. simpl.
  destruct (is_space c) eqn:Hc.
  - by rewrite IH, split_from_trailing.
  - simpl. by rewrite rev_involutive.
Qed.

Lemma split_strip s : Text.split (strip s) = Text.split s.
Proof. unfold strip. rewrite split_rstrip. apply split_from_lstrip. Qed.

(** ** The price lines of the markup path *)

Lemma int_digits_nonneg s :
  forall acc b n, int_digits acc b s = Some n -> 0 <= acc -> 0 <= n.
Proof.
  induction s as [|c s IH]; intros acc b n; simpl.
  - destruct b; [|done]. by intros [= ->].
  - destruct (is_decimal c) eqn:Hc.
    + intros Hn Hacc. apply (IH _ _ _ Hn). unfold digit_value. lia.
    + destruct (Ascii.eqb c "_"); [|done]. destruct b; [|done]. apply IH.
Qed.

Lemma kept_literal_nonneg s n :
  int_literal (keep_digits_and_dots s) = Some n -> 0 <= n.
Proof.
  unfold int_literal, keep_digits_and_dots.
  induction s as [|c s IH]; [done|].
  cbn [filter list_filter]. destruct (decide _) as [Hkeep|]; [|apply IH].
  destruct (Ascii.eqb c "+") eqn:Hplus.
  { apply Ascii.eqb_eq in Hplus as ->. done. }
  destruct (Ascii.eqb c "-") eqn:Hminus.
  { apply Ascii.eqb_eq in Hminus as ->. done. }
  intros Hn. by apply int_digits_nonneg in Hn.
Qed.

Lemma markup_price_nonneg price_text : 0 <= markup_price price_text.
Proof.
  unfold markup_price, Py.int.
  destruct (py_int _) as [n|] eqn:Hn; [|done].
  by apply py_int_literal, kept_literal_nonneg in Hn.
Qed.

(** ** What a container yields *)

Lemma container_record_some (container : node) (cars : cars_dict) :
  container_record container = Ok (Some cars) <->
  exists title_elem price_elem url_elem links year m,
    List.find is_title (spans container) = Some title_elem
    /\ List.find is_price (spans container) = Some price_elem
    /\ Soup.find_all "a" (Soup.has_attr "href") container = url_elem :: links
    /\ py_int (nth 0 (Text.split (chr (Soup.text title_elem))) []) = Some year
    /\ markup_mileage (find_mileage_text container) = Ok m
    /\ cars = markup_cars (Text.split (chr (Soup.text title_elem))) year
                (markup_price (strip (chr (Soup.text price_elem)))) m
                (absolute_url (default "" (Soup.get "href" url_elem))).
Proof.
  unfold container_record, markup_cars, base_cars. split.
  - intros Hc.
    destruct (List.find is_title _) as [title_elem|] eqn:Ht; [|discriminate].
    destruct (List.find is_price _) as [price_elem|] eqn:Hp; [|discriminate].
    destruct (Soup.find_all "a" _ _) as [|url_elem links] eqn:Hu; [discriminate|].
    rewrite split_strip in Hc.
    destruct (Nat.ltb _ 3); [discriminate|].
    destruct (py_int _) as [year|] eqn:Hy; [|discriminate].
    destruct (markup_mileage _) as [m|] eqn:Hm; [|discriminate].
    cbn [mbind result_bind] in Hc. injection Hc as <-.
    by exists title_elem, price_elem, url_elem, links, year, m.
  - intros (title_elem & price_elem & url_elem & links & year & m
            & Ht & Hp & Hu & Hy & Hm & ->).
    rewrite Ht, Hp, Hu, split_strip, Hy, Hm.
    apply find_some in Ht as [_ Htitle]. unfold is_title in Htitle.
    apply andb_prop in Htitle as [[_ Hlen]%andb_prop _].
    apply Nat.leb_le in Hlen.
    by rewrite (proj2 (Nat.ltb_ge _ _) Hlen).
Qed.

(** A container without a title, a price or a link, or whose first token
    is no integer, yields no record; nothing else stops it but an integer
    of more than 4300 digits in the mileage text. *)
Lemma container_record_none (container : node) :
  (exists cars, container_record container = Ok (Some cars))
  \/ container_record container = Ok None
  \/ container_record container = Raise ValueError.
Proof.
  unfold container_record.
  destruct (List.find is_title _); [|by right; left].
  destruct (List.find is_price _); [|by right; left].
  destruct (Soup.find_all "a" _ _); [by right; left|].
  destruct (Nat.ltb _ 3); [by right; left|].
  destruct (py_int _); [|by right; left].
  destruct (markup_mileage (find_mileage_text container)) as [m|e] eqn:Hm.
  - left. by eexists.
  - apply markup_mileage_raises in Hm as ->. by right; right.
Qed.

Lemma markup_cars_fields tokens year price m url :
  markup_cars tokens year price m url !! "Year" = Some (VInt year)
  /\ markup_cars tokens year price m url !! "Make" = Some (VStr (Py.str (nth 1 tokens [])))
  /\ markup_cars tokens year price m url !! "Model" = Some (VStr (Py.str (nth 2 tokens [])))
  /\ markup_cars tokens year price m url !! "Price" = Some (VInt price)
  /\ markup_cars tokens year price m url !! "Mileage" = Some (VInt m)
  /\ markup_cars tokens year price m url !! "URL" = Some (VStr url)
  /\ markup_cars tokens year price m url !! "ImageURL" = None.
Proof. by repeat split. Qed.

Lemma container_loop_origin (containers : list node) :
  forall vehicles (cars : cars_dict),
    In cars (fold_left container_step containers vehicles) ->
    In cars vehicles
    \/ exists container, In container containers
         /\ container_record container = Ok (Some cars).
Proof.
  induction containers as [|c l IH]; intros vehicles cars; simpl; [by left|].
  intros [Hin|(c' & ? & ?)]%IH; [|right; by exists c'; split; [right|]].
  unfold container_step in Hin.
  destruct (container_record c) as [[r|]|] eqn:Hc; try by left.
  apply in_app_or in Hin as [?|[<-|[]]]; [by left|].
  right. exists c. by split; [left|].
Qed.

Lemma markup_records_origin (soup : node) (cars : cars_dict) :
  In cars (markup_records soup) ->
  exists container, In container (listing_containers soup)
    /\ container_record container = Ok (Some cars).
Proof. by intros [[]|?]%container_loop_origin. Qed.
(** ** The script loop and the fallback *)

Section PipelineFacts.
Context `{Runtime}.

Lemma script_step_found st script :
  fst (script_step st script) = fst st || script_mentions script.
Proof.
  unfold script_step, script_mentions.
  destruct (Soup.string_of script) as [text|]; [|by rewrite orb_false_r].
  destruct (nonempty text && mentions_title text); [|by rewrite orb_false_r].
  destruct (json_loads text); simpl; by rewrite orb_true_r.
Qed.

Lemma script_fold_found scripts :
  forall st, fst (fold_left script_step scripts st)
             = fst st || existsb script_mentions scripts.
Proof.
  induction scripts as [|s l IH]; intros st; simpl; [by rewrite orb_false_r|].
  by rewrite IH, script_step_found, orb_assoc.
Qed.

Lemma json_data_found_spec (soup : node) :
  json_data_found soup = existsb script_mentions (script_tags soup).
Proof. unfold json_data_found, script_loop. by rewrite script_fold_found. Qed.

(** While the flag is down the list is empty. *)
Lemma script_fold_empty scripts :
  forall st, (fst st = false -> snd st = []) ->
    fst (fold_left script_step scripts st) = false ->
    snd (fold_left script_step scripts st) = [].
Proof.
  induction scripts as [|s l IH]; intros st Hst; simpl; [done|].
  apply IH. unfold script_step.
  destruct (Soup.string_of s) as [text|]; [|done].
  destruct (nonempty text && mentions_title text); [|done].
  by destruct (json_loads text).
Qed.

Lemma structured_records_not_found (soup : node) :
  json_data_found soup = false -> structured_records soup = [].
Proof. by apply script_fold_empty. Qed.

Lemma extract_cases (soup : node) :
  extract soup = if json_data_found soup then structured_records soup
                 else markup_records soup.
Proof.
  unfold extract. pose proof (structured_records_not_found soup) as Hempty.
  unfold json_data_found, structured_records, markup_records in *.
  destruct (script_loop soup) as [[] vehicles]; simpl in *; [done|].
  by rewrite Hempty.
Qed.

Lemma script_fold_origin (all scripts : list node) :
  forall st, incl scripts all -> Forall (from_script all) (snd st) ->
    Forall (from_script all) (snd (fold_left script_step scripts st)).
Proof.
  induction scripts as [|s l IH]; intros st Hincl Hst; simpl; [done|].
  apply IH; [intros x Hx; apply Hincl; by right|].
  unfold script_step.
  destruct (Soup.string_of s) as [text|] eqn:Htext; [|done].
  destruct (nonempty text && mentions_title text); [|done].
  destruct (json_loads text) as [data|] eqn:Hdata; [|done]. simpl.
  unfold process_json_data.
  destruct (search_listings_origin data (snd st)) as (new & -> & Hnew).
  apply Forall_app. split; [done|].
  eapply Forall_impl; [apply Hnew|]. intros cars (obj & ? & ? & ?).
  exists s, text, data, obj. split; [apply Hincl; by left|done].
Qed.

Lemma structured_records_origin (soup : node) (cars : cars_dict) :
  In cars (structured_records soup) -> from_script (script_tags soup) cars.
Proof.
  intros Hin%list_elem_of_In. revert cars Hin. apply Forall_forall.
  apply script_fold_origin; [by intros x|constructor].
Qed.

End PipelineFacts.

Lemma sample_data_populated : Forall populated get_sample_data.
Proof.
  unfold get_sample_data.
  repeat (constructor; [by repeat (split || eexists)|]). constructor.
Qed.

(** C1, as amended: when structured and markup extraction both yield
    nothing the pipeline returns the empty list; the sample set, five
    records with every field populated, is returned when no browser can
    be had or a step before the search raises. *)
Theorem empty_extraction_is_returned `{Runtime} (soup : node) :
  structured_records soup = [] -> markup_records soup = [] ->
  scrape_listings (Parsed soup) = []
  /\ scrape_listings NoBrowser = get_sample_data
  /\ scrape_listings Raised = get_sample_data
  /\ length get_sample_data = 5%nat
  /\ Forall populated get_sample_data.
Proof.
  intros Hs Hm. split; [|by repeat split; try apply sample_data_populated].
  simpl. rewrite extract_cases, Hs, Hm. by destruct (json_data_found soup).
Qed.

Lemma empty_extraction_is_returned_witness :
  @scrape_listings Examples.runtime (Parsed Examples.blank_page) = []
  /\ @scrape_listings Examples.runtime NoBrowser = get_sample_data
  /\ @scrape_listings Examples.runtime Raised = get_sample_data
  /\ length get_sample_data = 5%nat
  /\ Forall populated get_sample_data.
Proof.
  apply (@empty_extraction_is_returned Examples.runtime Examples.blank_page);
    reflexivity.
Defined.

(** C1 as stated fails: a page with no JSON block and no listing
    container gives the empty list, not the sample set. *)
Lemma blank_page_gives_no_sample :
  @structured_records Examples.runtime Examples.blank_page = []
  /\ markup_records Examples.blank_page = []
  /\ @scrape_listings Examples.runtime (Parsed Examples.blank_page) = []
  /\ @scrape_listings Examples.runtime (Parsed Examples.blank_page)
     <> get_sample_data.
Proof. repeat split. discriminate. Qed.

(** C2, as amended: the markup extraction runs, and its records are
    returned, exactly when no JSON script block with a text names one of
    the two title keys; otherwise the records of the JSON blocks are
    returned, few or none. When structured extraction yields a record the
    result holds the JSON-derived records and nothing else. *)
Theorem markup_runs_when_no_block_names_a_title `{Runtime} (soup : node) :
  json_data_found soup = existsb script_mentions (script_tags soup)
  /\ extract soup = (if json_data_found soup then structured_records soup
                     else markup_records soup)
  /\ (json_data_found soup = false -> structured_records soup = [])
  /\ (structured_records soup <> [] -> extract soup = structured_records soup).
Proof.
  split; [apply json_data_found_spec|]. split; [apply extract_cases|].
  split; [apply structured_records_not_found|].
  intros Hne. rewrite extract_cases.
  destruct (json_data_found soup) eqn:Hf; [done|].
  by apply structured_records_not_found in Hf.
Qed.

Lemma markup_runs_when_no_block_names_a_title_witness :
  @extract Examples.runtime Examples.both_page
  = @structured_records Examples.runtime Examples.both_page.
Proof.
  apply (@markup_runs_when_no_block_names_a_title Examples.runtime Examples.both_page).
  discriminate.
Defined.

(** C2 as stated fails: the JSON block of this page names a title key and
    yields no record; the listing in the markup is not extracted. *)
Lemma category_page_skips_markup :
  @structured_records Examples.runtime Examples.category_page = []
  /\ length (markup_records Examples.category_page) = 1%nat
  /\ @extract Examples.runtime Examples.category_page = [].
Proof. by repeat split. Qed.

(** C9: the image of every record of structured extraction is that of
    its node: the URI of the primary photo, else the URI of the first
    listing photo, else the placeholder; so the field is always there. *)
Theorem image_fallback_chain `{Runtime} (soup : node) (cars : cars_dict) :
  In cars (structured_records soup) ->
  exists script text data obj,
    In script (script_tags soup) /\ Soup.string_of script = Some text
    /\ json_loads text = Some data /\ inside (VDict obj) data
    /\ candidate obj = Ok (Some cars)
    /\ cars !! "ImageURL" = Some (resolved_image obj).
Proof.
  intros (script & text & data & obj & ? & ? & ? & ? & ? & Hc)
    %structured_records_origin.
  exists script, text, data, obj. do 5 (split; [done|]).
  by destruct (candidate_fields obj cars Hc)
    as (? & ? & ? & ? & ? & ? & ? & ? & ? & ? & ? & ? & ? & ?).
Qed.

Lemma structured_records_have_image `{Runtime} (soup : node) (cars : cars_dict) :
  In cars (structured_records soup) -> is_Some (cars !! "ImageURL").
Proof.
  intros (_ & _ & _ & obj & _ & _ & _ & _ & _ & Hc)%structured_records_origin.
  destruct (candidate_fields obj cars Hc)
    as (? & ? & ? & _ & _ & _ & _ & _ & _ & _ & _ & _ & Himg & _).
  by rewrite Himg.
Qed.

(** C10: a record of the markup path has no image field, and the guard
    of the display skips it; the records of structured extraction and of
    the sample set have the field. *)
Theorem markup_records_carry_no_image `{Runtime} (soup : node) (cars : cars_dict) :
  In cars (markup_records soup) ->
  cars !! "ImageURL" = None /\ shows_image cars = false
  /\ (forall cars', In cars' (structured_records soup) ->
        is_Some (cars' !! "ImageURL"))
  /\ Forall (fun cars' => is_Some (cars' !! "ImageURL")) get_sample_data.
Proof.
  intros (container & _ & Hc)%markup_records_origin.
  apply container_record_some in Hc
    as (te & pe & ue & links & year & m & _ & _ & _ & _ & _ & ->).
  split; [done|]. split; [done|]. split.
  - apply structured_records_have_image.
  - eapply Forall_impl; [apply sample_data_populated|].
    intros c (_ & _ & _ & _ & _ & _ & s & -> & _). eauto.
Qed.

Lemma image_fallback_chain_witness :
  exists script text data obj,
    In script (script_tags Examples.both_page)
    /\ Soup.string_of script = Some text
    /\ @json_loads Examples.runtime text = Some data
    /\ inside (VDict obj) data
    /\ @candidate Examples.runtime obj = Ok (Some Examples.civic_record)
    /\ Examples.civic_record !! "ImageURL" = Some (resolved_image obj).
Proof.
  apply (@image_fallback_chain Examples.runtime Examples.both_page
           Examples.civic_record).
  vm_compute. left. reflexivity.
Defined.

Lemma markup_records_carry_no_image_witness :
  Examples.markup_record !! "ImageURL" = None
  /\ shows_image Examples.markup_record = false
  /\ (forall cars', In cars' (@structured_records Examples.runtime Examples.markup_page) ->
        is_Some (cars' !! "ImageURL"))
  /\ Forall (fun cars' => is_Some (cars' !! "ImageURL")) get_sample_data.
Proof.
  apply (@markup_records_carry_no_image Examples.runtime Examples.markup_page
           Examples.markup_record).
  vm_compute. left. reflexivity.
Defined.
(** ** The query builder *)

Lemma search_params_expected (o : FilterOptions) :
  search_params o = expected_params o.
Proof.
  destruct o as [loc [a|] [b|] [c|] [d|] [e|] [f|] [g|] [t|] [mk|] [md|]];
    reflexivity.
Qed.

(** C8: the URL is the base with the location, then the parameters that
    have a value, in the fixed order of the table and joined by [&]; a
    field that is absent gives no parameter; the query is make and model
    concatenated, or whichever is given; [exact=false] comes last; equal
    options give equal URLs. *)
Theorem query_builder_contract (o : FilterOptions) :
  build_search_url o
    = ("https://www.facebook.com/marketplace/" +:+ location o +:+ "/search?")
      +:+ join "&" (expected_params o)
  /\ map fst (parameter_table o) = parameter_names
  /\ (forall p, In p (expected_params o) <->
        exists name v, In (name, Some v) (parameter_table o)
                       /\ p = name +:+ "=" +:+ v)
  /\ length (expected_params o)
     = length (List.filter (fun p => bool_decide (is_Some (snd p))) (parameter_table o))
  /\ (exists params, expected_params o = params ++ ["exact=false"])
  /\ (forall o', o' = o -> build_search_url o' = build_search_url o).
Proof.
  split; [unfold build_search_url; by rewrite search_params_expected|].
  split; [done|]. split; [|split; [|split]].
  - intros p. unfold expected_params. rewrite <- list_elem_of_In, list_elem_of_omap.
    split.
    + intros ([name [v|]] & Hin%list_elem_of_In & Hr); [|done].
      injection Hr as <-. by exists name, v.
    + intros (name & v & Hin%list_elem_of_In & ->). by exists (name, Some v).
  - unfold expected_params. induction (parameter_table o) as [|[name [v|]] l IH];
      simpl; [done| |done]. by f_equal.
  - rewrite <- search_params_expected. unfold search_params. by eexists.
  - by intros o' ->.
Qed.

Lemma query_builder_contract_witness :
  build_search_url
    {| location := "toronto"; min_price := Some 1000; max_price := Some 30000;
       days_listed := None; min_mileage := None; max_mileage := None;
       min_year := Some 2015; max_year := None; transmission := Some "automatic";
       make := Some "Honda"; model := Some "Civic" |}
  = "https://www.facebook.com/marketplace/toronto/search?minPrice=1000&maxPrice=30000&minYear=2015&transmissionType=automatic&query=HondaCivic&exact=false".
Proof.
  rewrite (proj1 (query_builder_contract _)). reflexivity.
Defined.

(** ** Deep and rejected nodes *)

Section Reach.
Context `{Runtime}.






Lemma visited_list_wrap n (v : value) : visited v (list_wrap n v).
Proof.
  induction n as [|n IH]; [constructor|].
  simpl. by apply (visited_list _ (list_wrap n v)); [left|].
Qed.

Lemma visited_dict_wrap n (v : value) : visited v (dict_wrap n v).
Proof.
  induction n as [|n IH]; [constructor|].
  simpl. apply (visited_dict _ "node" (dict_wrap n v)); [by left| |done].
  by intros [? _].
Qed.

End Reach.


(** ** The recursion limit *)

Section Limit.
Context `{Runtime}.
Variable body_fits : nat -> list (string * value) -> bool.









End Limit.




(** C3: the claim holds of the specification and fails on the code. The
    outer node of [feed] has a title of one token; the call returns at
    once and the listing under it, which alone yields a record, is
    lost. *)
Theorem rejected_title_hides_nested_listing :
  @search_listings Examples.runtime Examples.civic [] = [Examples.civic_record]
  /\ inside Examples.civic Examples.feed
  /\ @search_listings Examples.runtime Examples.feed [] = [].
Proof.
  split; [reflexivity|]. split; [|reflexivity].
  apply (inside_dict _ "edges" (VList [Examples.civic])); [simpl; tauto|].
  apply (inside_list _ Examples.civic); [by left|constructor].
Qed.
(** ** Titles and prices *)

Lemma is_title_spec (span : node) :
  is_title span = true <->
  Soup.text span <> ""
  /\ (3 <= length (title_tokens (Soup.text span)))%nat
  /\ isdigit (nth 0 (title_tokens (Soup.text span)) []) = true.
Proof.
  unfold is_title, nonempty, title_tokens.
  rewrite !andb_true_iff, negb_true_iff, String.eqb_neq, Nat.leb_le. tauto.
Qed.

(** A container that lacks a title, a price element or a link is passed
    over. *)
Lemma container_record_lacking (container : node) :
  List.find is_title (spans container) = None
  \/ List.find is_price (spans container) = None
  \/ Soup.find_all "a" (Soup.has_attr "href") container = [] ->
  container_record container = Ok None.
Proof.
  unfold container_record. intros Hlack.
  destruct (List.find is_title _); [|done].
  destruct (List.find is_price _); [|done].
  destruct (Soup.find_all "a" _ _); [done|].
  by destruct Hlack as [|[|]].
Qed.

(** C7, as amended: in both paths a record is produced only when the
    title splits into at least 3 tokens and token 0 reads as an integer;
    it then has that integer as Year and tokens 1 and 2, both non-empty,
    as Make and Model. A structured candidate with such a title yields a
    record unless a later line raises; one whose title is shorter or does
    not start with an integer yields none. A container yields a record
    exactly when it has a title element, a price element and a link,
    token 0 of the title reads as an integer and the mileage lines do not
    raise; the title element is the first [span] with a text of at least
    3 tokens whose first token is made of digits, which is stricter than
    reading as an integer; a container that lacks one of the three
    elements is passed over. *)
Theorem title_rule `{Runtime} :
  (forall obj cars, candidate obj = Ok (Some cars) ->
     exists t year,
       listing_title obj = VStr t
       /\ (3 <= length (title_tokens t))%nat
       /\ py_int (nth 0 (title_tokens t) []) = Some year
       /\ cars !! "Year" = Some (VInt year)
       /\ cars !! "Make" = Some (VStr (Py.str (nth 1 (title_tokens t) [])))
       /\ cars !! "Model" = Some (VStr (Py.str (nth 2 (title_tokens t) [])))
       /\ Py.str (nth 1 (title_tokens t) []) <> ""
       /\ Py.str (nth 2 (title_tokens t) []) <> "")
  /\ (forall obj t, listing_title obj = VStr t ->
        (length (title_tokens t) < 3)%nat
        \/ py_int (nth 0 (title_tokens t) []) = None ->
        candidate obj = Ok None)
  /\ (forall obj t year, listing_title obj = VStr t ->
        (3 <= length (title_tokens t))%nat ->
        py_int (nth 0 (title_tokens t) []) = Some year ->
        (exists cars, candidate obj = Ok (Some cars))
        \/ (exists e, candidate obj = Raise e))
  /\ (forall container cars, container_record container = Ok (Some cars) ->
        exists title_elem year,
          List.find is_title (spans container) = Some title_elem
          /\ (3 <= length (title_tokens (Soup.text title_elem)))%nat
          /\ isdigit (nth 0 (title_tokens (Soup.text title_elem)) []) = true
          /\ py_int (nth 0 (title_tokens (Soup.text title_elem)) []) = Some year
          /\ cars !! "Year" = Some (VInt year)
          /\ cars !! "Make"
             = Some (VStr (Py.str (nth 1 (title_tokens (Soup.text title_elem)) [])))
          /\ cars !! "Model"
             = Some (VStr (Py.str (nth 2 (title_tokens (Soup.text title_elem)) [])))
          /\ Py.str (nth 1 (title_tokens (Soup.text title_elem)) []) <> ""
          /\ Py.str (nth 2 (title_tokens (Soup.text title_elem)) []) <> "")
  /\ (forall container,
        (exists cars, container_record container = Ok (Some cars))
        <-> (exists title_elem price_elem url_elem links year m,
               List.find is_title (spans container) = Some title_elem
               /\ List.find is_price (spans container) = Some price_elem
               /\ Soup.find_all "a" (Soup.has_attr "href") container
                  = url_elem :: links
               /\ py_int (nth 0 (title_tokens (Soup.text title_elem)) [])
                  = Some year
               /\ markup_mileage (find_mileage_text container) = Ok m))
  /\ (forall span,
        is_title span = true <->
        Soup.text span <> ""
        /\ (3 <= length (title_tokens (Soup.text span)))%nat
        /\ isdigit (nth 0 (title_tokens (Soup.text span)) []) = true)
  /\ (forall container,
        List.find is_title (spans container) = None
        \/ List.find is_price (spans container) = None
        \/ Soup.find_all "a" (Soup.has_attr "href") container = [] ->
        container_record container = Ok None)
  /\ candidate Examples.year_last = Ok None
  /\ container_record (Examples.article "Honda Civic 2018" "$15,995" "78K km")
     = Ok None
  /\ container_record (Examples.article "2018 Honda Civic EX" "$15,995" "78K km")
     = Ok (Some Examples.markup_record)
  /\ container_record (Examples.article "+2018 Honda Civic" "$15,995" "78K km")
     = Ok None.
Proof.
  assert (forall obj t, listing_title obj = VStr t ->
            (length (title_tokens t) < 3)%nat
            \/ py_int (nth 0 (title_tokens t) []) = None ->
            candidate obj = Ok None) as Hreject.
  { intros obj t Ht Hbad. apply candidate_none. by exists t. }
  split; [|split; [done|split; [|split; [|split; [|split; [|split; [|split]]]]]]].
  - intros obj cars Hc.
    destruct (candidate_fields obj cars Hc)
      as (t & year & m & Ht & Hlen & Hy & _ & HY & HMk & HMd & _).
    exists t, year. unfold title_tokens. do 6 (split; [done|]).
    split; apply token_nonempty; lia.
  - intros obj t year Ht Hlen Hy.
    destruct (candidate obj) as [[cars|]|e] eqn:Hc; [left; eauto| |right; eauto].
    apply candidate_none in Hc as (t' & Ht' & Hbad).
    rewrite Ht in Ht'. injection Ht' as <-. unfold title_tokens in *.
    destruct Hbad; [lia|congruence].
  - intros container cars
      (te & pe & ue & links & year & m & Ht & _ & _ & Hy & _ & ->)%container_record_some.
    exists te, year. split; [done|].
    apply find_some in Ht as [_ (_ & Hlen & Hdigit)%is_title_spec].
    unfold title_tokens in *. do 6 (split; [done|]).
    split; apply token_nonempty; lia.
  - intros container. unfold title_tokens. split.
    + intros (cars & (te & pe & ue & links & year & m & ? & ? & ? & ? & ? & _)
                      %container_record_some).
      by exists te, pe, ue, links, year, m.
    + intros (te & pe & ue & links & year & m & ? & ? & ? & ? & ?).
      eexists. apply container_record_some.
      by exists te, pe, ue, links, year, m.
  - apply is_title_spec.
  - apply container_record_lacking.
  - by apply (Hreject _ "Honda Civic 2018"); [|right].
  - by repeat split.
Qed.

Lemma title_rule_witness :
  exists t year,
    listing_title Examples.civic_fields = VStr t
    /\ (3 <= length (title_tokens t))%nat
    /\ py_int (nth 0 (title_tokens t) []) = Some year
    /\ Examples.civic_record !! "Year" = Some (VInt year)
    /\ Examples.civic_record !! "Make"
       = Some (VStr (Py.str (nth 1 (title_tokens t) [])))
    /\ Examples.civic_record !! "Model"
       = Some (VStr (Py.str (nth 2 (title_tokens t) [])))
    /\ Py.str (nth 1 (title_tokens t) []) <> ""
    /\ Py.str (nth 2 (title_tokens t) []) <> "".
Proof.
  apply (proj1 (@title_rule Examples.runtime) Examples.civic_fields
           Examples.civic_record).
  reflexivity.
Defined.

(** C7 as stated fails: the node has a title of three tokens that starts
    with an integer and yields no record, since [float(None)] raises
    [TypeError] and the node is skipped; the first container has such a
    title and yields no record, since it has no price element; the
    second has a price element and a link, and a title of three tokens
    whose first reads as an integer, and yields no record, since that
    token is not made of digits only. *)
Lemma good_title_without_record :
  is_listing Examples.null_amount = true
  /\ listing_title Examples.null_amount = VStr "2018 Honda Civic"
  /\ title_tokens "2018 Honda Civic" = [chr "2018"; chr "Honda"; chr "Civic"]
  /\ py_int (chr "2018") = Some 2018
  /\ @candidate Examples.runtime Examples.null_amount = Raise TypeError
  /\ @search_listings Examples.runtime (VDict Examples.null_amount) [] = []
  /\ List.find is_title (spans Examples.untagged)
     = Some (Examples.span "2018 Honda Civic")
  /\ container_record Examples.untagged = Ok None
  /\ title_tokens "+2018 Honda Civic" = [chr "+2018"; chr "Honda"; chr "Civic"]
  /\ py_int (chr "+2018") = Some 2018
  /\ container_record (Examples.article "+2018 Honda Civic" "$15,995" "78K km")
     = Ok None.
Proof. by repeat split. Qed.

(** The price lines of the structured path when [float] refuses the
    amount with [ValueError]: Price is 0 and the block goes on. *)
Lemma set_price_unparsable `{Runtime} (obj : list (string * value))
    (amount : value) (cars : cars_dict) :
  listed_amount obj = Some amount -> Py.float amount = Raise ValueError ->
  set_price obj cars = Ok (<["Price" := VInt 0]> cars).
Proof.
  unfold set_price, listed_amount, Py.has_key, Py.getitem, Py.py_in, Py.has_key.
  simpl.
  destruct (Py.dict_get "listing_price" obj) as [lp|]; simpl; [|done].
  destruct lp as [| | | | |l|items]; simpl; try done.
  destruct (Py.dict_get "amount" items) as [a|]; simpl; [|done].
  intros [= ->] Hf. by rewrite Hf.
Qed.

(** C6, as amended: the markup path strips every character that is not
    a digit or a point and reads the rest as an integer, 0 when that
    fails; a price text that does not parse never discards the record,
    and every record of the markup path has a Price that is an integer
    and not negative. The structured path does not strip: when the price
    object has an amount, Price is [float(amount)], or 0 when that raises
    [ValueError], and that failure does not end the block. *)
Theorem price_rule `{Runtime} :
  (forall price_text,
     markup_price price_text = default 0 (py_int (keep_digits_and_dots price_text))
     /\ 0 <= markup_price price_text)
  /\ markup_price (chr "$15,995") = 15995
  /\ markup_price (chr "N/A") = 0
  /\ markup_price (chr "$15,995.50") = 0
  /\ (forall container title_elem price_elem url_elem links year m,
        List.find is_title (spans container) = Some title_elem ->
        List.find is_price (spans container) = Some price_elem ->
        Soup.find_all "a" (Soup.has_attr "href") container = url_elem :: links ->
        py_int (nth 0 (title_tokens (Soup.text title_elem)) []) = Some year ->
        markup_mileage (find_mileage_text container) = Ok m ->
        exists cars,
          container_record container = Ok (Some cars)
          /\ cars !! "Price"
             = Some (VInt (markup_price (strip (chr (Soup.text price_elem)))))
          /\ (py_int (keep_digits_and_dots (strip (chr (Soup.text price_elem))))
              = None -> cars !! "Price" = Some (VInt 0)))
  /\ (forall soup cars, In cars (markup_records soup) ->
        exists container price_elem,
          In container (listing_containers soup)
          /\ List.find is_price (spans container) = Some price_elem
          /\ cars !! "Price"
             = Some (VInt (markup_price (strip (chr (Soup.text price_elem)))))
          /\ 0 <= markup_price (strip (chr (Soup.text price_elem))))
  /\ (forall obj cars amount, candidate obj = Ok (Some cars) ->
        listed_amount obj = Some amount ->
        cars !! "Price" = match Py.float amount with
                          | Ok f => Some (VFloat f)
                          | Raise _ => Some (VInt 0)
                          end)
  /\ (forall obj amount cars,
        listed_amount obj = Some amount -> Py.float amount = Raise ValueError ->
        set_price obj cars = Ok (<["Price" := VInt 0]> cars)).
Proof.
  assert (forall price_text,
            markup_price price_text
            = default 0 (py_int (keep_digits_and_dots price_text))) as Hprice.
  { intros price_text. unfold markup_price, Py.int. by destruct (py_int _). }
  split; [|split; [done|split; [done|split; [done|split; [|split; [|split]]]]]].
  - intros price_text. split; [done|apply markup_price_nonneg].
  - intros container te pe ue links year m Ht Hp Hu Hy Hm.
    eexists. split.
    + apply container_record_some. by exists te, pe, ue, links, year, m.
    + split; [done|]. intros Hnone.
      change (Some (VInt (markup_price (strip (chr (Soup.text pe)))))
              = Some (VInt 0)).
      by rewrite Hprice, Hnone.
  - intros soup cars (container & Hin & Hc)%markup_records_origin.
    apply container_record_some in Hc
      as (te & pe & ue & links & year & m & _ & Hp & _ & _ & _ & ->).
    exists container, pe. do 2 (split; [done|]).
    split; [done|apply markup_price_nonneg].
  - intros obj cars amount Hc Ha.
    destruct (candidate_fields obj cars Hc)
      as (? & ? & ? & ? & ? & ? & ? & ? & ? & ? & ? & ? & ? & HP).
    by rewrite HP, Ha.
  - intros obj amount cars. apply set_price_unparsable.
Qed.

Lemma price_rule_witness :
  exists cars,
    container_record (Examples.article "2018 Honda Civic EX" "N/A $" "78K km")
    = Ok (Some cars)
    /\ cars !! "Price"
       = Some (VInt (markup_price (strip (chr (Soup.text (Examples.span "N/A $"))))))
    /\ (py_int (keep_digits_and_dots
                  (strip (chr (Soup.text (Examples.span "N/A $"))))) = None ->
        cars !! "Price" = Some (VInt 0)).
Proof.
  apply (proj1 (proj2 (proj2 (proj2 (proj2 (@price_rule Examples.runtime)))))
           (Examples.article "2018 Honda Civic EX" "N/A $" "78K km")
           (Examples.span "2018 Honda Civic EX") (Examples.span "N/A $")
           (Elem "a" [("href", "/marketplace/item/123")]
              [Examples.span "2018 Honda Civic EX"; Examples.span "N/A $";
               Examples.span "78K km"])
           [] 2018 78000); reflexivity.
Defined.

(** C6 as stated fails: the markup path reads an integer, so a price
    with cents gives 0; the structured path does not strip, so an amount
    written with a dollar sign gives 0, and an amount below zero gives a
    Price below zero; a structured record whose price object has no
    amount has no Price at all. *)
Lemma structured_price_missing_or_negative :
  markup_price (chr "$15,995.50") = 0
  /\ (exists cars,
        @search_listings Examples.runtime (VDict Examples.dollar_amount) [] = [cars]
        /\ cars !! "Price" = Some (VInt 0))
  /\ (exists cars,
        @search_listings Examples.runtime (VDict Examples.negative) [] = [cars]
        /\ cars !! "Price" = Some (VFloat (S754_finite true 8796093022208000 (-44))))
  /\ @search_listings Examples.runtime (VDict Examples.unpriced) []
     = [Examples.unpriced_record]
  /\ Examples.unpriced_record !! "Price" = None.
Proof.
  split; [reflexivity|]. split; [eexists; split; reflexivity|].
  split; [eexists; split; reflexivity|]. split; reflexivity.
Qed.
(** ** How the loops compose *)

Section Composition.
Context `{Runtime}.

Lemma search_elements_concat (items : list value) :
  Forall (fun v => forall acc, search_listings v acc = acc ++ search_listings v []) items ->
  forall acc, search_elements items acc
              = acc ++ concat (map (fun v => search_listings v []) items).
Proof.
  induction 1 as [|v l Hv _ IH]; intros acc; simpl; [by rewrite app_nil_r|].
  unfold search_elements in *. simpl. by rewrite IH, Hv, <- app_assoc.
Qed.

Lemma search_values_concat (items : list (string * value)) :
  Forall (fun kv => forall acc, search_listings (snd kv) acc
                                = acc ++ search_listings (snd kv) []) items ->
  forall acc, search_values items acc
              = acc ++ concat (map (fun kv => search_listings (snd kv) []) items).
Proof.
  induction 1 as [|kv l Hv _ IH]; intros acc; simpl; [by rewrite app_nil_r|].
  unfold search_values in *. simpl. by rewrite IH, Hv, <- app_assoc.
Qed.

Lemma search_listings_acc (data : value) :
  forall vehicles,
    search_listings data vehicles = vehicles ++ search_listings data [].
Proof.
  induction data as [| | | | |items IH|items IH] using value_ind_nested;
    intros vehicles; try (by rewrite app_nil_r).
  - rewrite !search_listings_list.
    by rewrite (search_elements_concat items IH), (search_elements_concat items IH []).
  - rewrite !search_listings_dict.
    pose proof (search_values_concat items IH) as Hfold.
    destruct (is_listing items); [|by rewrite Hfold, (Hfold [])].
    destruct (candidate items) as [[cars|]|e];
      [|by rewrite app_nil_r|by rewrite Hfold, (Hfold [])].
    rewrite Hfold, (Hfold ([] ++ [cars])). simpl. by rewrite <- app_assoc.
Qed.

End Composition.

(** X1: the traversal only appends, and what it appends does not depend
    on the list it is given; a list node yields the records of its
    elements in order, and a candidate node that reaches the append
    yields its own record, then the records found under its values in
    key order. *)
Theorem traversal_composes `{Runtime} (data : value) (vehicles : list cars_dict) :
  search_listings data vehicles = vehicles ++ search_listings data []
  /\ (forall items, data = VList items ->
        search_listings data []
        = concat (map (fun v => search_listings v []) items))
  /\ (forall items cars, data = VDict items -> is_listing items = true ->
        candidate items = Ok (Some cars) ->
        search_listings data []
        = cars :: concat (map (fun kv => search_listings (snd kv) []) items))
  /\ (forall items, data = VDict items ->
        is_listing items = false \/ (exists e, candidate items = Raise e) ->
        search_listings data []
        = concat (map (fun kv => search_listings (snd kv) []) items)).
Proof.
  split; [apply search_listings_acc|].
  assert (forall items : list value,
    Forall (fun v => forall acc, search_listings v acc = acc ++ search_listings v [])
      items) as Hl.
  { intros items. apply Forall_forall. intros v _ acc. apply search_listings_acc. }
  assert (forall items : list (string * value),
    Forall (fun kv => forall acc, search_listings (snd kv) acc
                                  = acc ++ search_listings (snd kv) []) items) as Hd.
  { intros items. apply Forall_forall. intros v _ acc. apply search_listings_acc. }
  split; [|split].
  - intros items ->. by rewrite search_listings_list, (search_elements_concat _ (Hl _)).
  - intros items cars -> Hc Hcars.
    by rewrite search_listings_dict, Hc, Hcars, (search_values_concat _ (Hd _)).
  - intros items -> Hno. rewrite search_listings_dict.
    destruct Hno as [-> | [e ->]]; [|destruct (is_listing items)];
      by rewrite (search_values_concat _ (Hd _)).
Qed.

Lemma traversal_composes_witness :
  @search_listings Examples.runtime
     (VList [Examples.civic; VDict Examples.unpriced]) []
  = concat (map (fun v => @search_listings Examples.runtime v [])
              [Examples.civic; VDict Examples.unpriced]).
Proof.
  apply (proj1 (proj2 (@traversal_composes Examples.runtime
           (VList [Examples.civic; VDict Examples.unpriced]) []))).
  reflexivity.
Defined.

Section LoopsCompose.
Context `{Runtime}.

Lemma script_step_records st script :
  snd (script_step st script) = snd st ++ block_records script.
Proof.
  unfold script_step, block_records.
  destruct (Soup.string_of script) as [text|]; [|by rewrite app_nil_r].
  destruct (nonempty text && mentions_title text); [|by rewrite app_nil_r].
  destruct (json_loads text) as [data|]; simpl; [|by rewrite app_nil_r].
  apply search_listings_acc.
Qed.

Lemma script_fold_records scripts :
  forall st, snd (fold_left script_step scripts st)
             = snd st ++ concat (map block_records scripts).
Proof.
  induction scripts as [|s l IH]; intros st; simpl; [by rewrite app_nil_r|].
  by rewrite IH, script_step_records, <- app_assoc.
Qed.

End LoopsCompose.

(** X2: structured extraction yields the records of the JSON script tags
    of the page, block after block in document order; a tag with no
    text, a text that names no title key and a text that does not decode
    add nothing and do not stop the blocks after them. *)
Theorem structured_records_by_block `{Runtime} (soup : node) :
  structured_records soup = concat (map block_records (script_tags soup))
  /\ (forall script, Soup.string_of script = None -> block_records script = [])
  /\ (forall script text, Soup.string_of script = Some text ->
        mentions_title text = false \/ json_loads text = None ->
        block_records script = [])
  /\ (forall script text data, Soup.string_of script = Some text ->
        text <> "" -> mentions_title text = true -> json_loads text = Some data ->
        block_records script = search_listings data []).
Proof.
  split; [apply (script_fold_records (script_tags soup) (false, []))|].
  unfold block_records.
  split; [by intros script ->|]. split.
  - intros script text -> [-> | ->]; [by rewrite andb_false_r|].
    by destruct (_ && _).
  - intros script text data -> Hne -> ->.
    unfold nonempty. by rewrite (proj2 (String.eqb_neq _ _) Hne).
Qed.

Lemma structured_records_by_block_witness :
  @block_records Examples.runtime (Examples.json_script Examples.civic_text)
  = @search_listings Examples.runtime Examples.civic [].
Proof.
  apply (proj2 (proj2 (proj2 (@structured_records_by_block Examples.runtime
           Examples.both_page)))
           (Examples.json_script Examples.civic_text) Examples.civic_text);
    [reflexivity|discriminate|reflexivity|reflexivity].
Defined.

Lemma container_fold_yield (containers : list node) :
  forall vehicles, fold_left container_step containers vehicles
                   = vehicles ++ omap container_yield containers.
Proof.
  induction containers as [|c l IH]; intros acc; simpl; [by rewrite app_nil_r|].
  rewrite IH. unfold container_step, container_yield.
  destruct (container_record c) as [[cars|]|e]; [|done..].
  by rewrite <- app_assoc.
Qed.

(** X3: markup extraction yields, in document order, the record of every
    container that has one; a container that yields none, or whose block
    raises, is passed over and the containers after it are still read. *)
Theorem markup_records_by_container (soup : node) :
  markup_records soup = omap container_yield (listing_containers soup)
  /\ (forall before after container,
        listing_containers soup = before ++ container :: after ->
        container_yield container = None ->
        markup_records soup
        = omap container_yield before ++ omap container_yield after)
  /\ (length (markup_records soup) <= length (listing_containers soup))%nat.
Proof.
  unfold markup_records. rewrite container_fold_yield. simpl.
  split; [done|]. split.
  - intros before after container -> Hnone.
    by rewrite omap_app; simpl; rewrite Hnone.
  - induction (listing_containers soup) as [|c l IH]; simpl; [done|].
    change (list_omap node cars_dict container_yield l)
      with (omap container_yield l).
    destruct (container_yield c); simpl; lia.
Qed.

Lemma markup_records_by_container_witness :
  markup_records (Examples.document [Examples.untagged;
                    Examples.article "2018 Honda Civic EX" "$15,995" "78K km"])
  = [] ++ [Examples.markup_record].
Proof.
  apply (proj1 (proj2 (markup_records_by_container _))
           [] [Examples.article "2018 Honda Civic EX" "$15,995" "78K km"]
           Examples.untagged); reflexivity.
Defined.
(** ** The fields of a record *)

#[local] Set Warnings "-clear-no-such-hyp".

Lemma dom_markup_cars tokens year price m url :
  dom (markup_cars tokens year price m url)
  = ({["Year"; "Make"; "Model"; "Price"; "Mileage"; "URL"]} : gset string).
Proof.
  unfold markup_cars, base_cars. rewrite !dom_insert_L, dom_empty_L. set_solver.
Qed.

Lemma dom_set_default_image (cars : cars_dict) :
  dom (set_default_image cars) = dom cars ∪ {["ImageURL"]}.
Proof.
  unfold set_default_image. case_bool_decide as Hin.
  - apply elem_of_dom in Hin. set_solver.
  - rewrite dom_insert_L. set_solver.
Qed.

Lemma dom_insert_option (key : string) (o : option value) (cars : cars_dict) :
  dom (match o with Some v => <[key := v]> cars | None => cars end) ∪ {[key]}
  = dom cars ∪ {[key]}.
Proof. destruct o; [rewrite dom_insert_L|]; set_solver. Qed.

Lemma dom_candidate `{Runtime} (obj : list (string * value)) (cars : cars_dict) :
  candidate obj = Ok (Some cars) ->
  dom cars
  = ({["Year"; "Make"; "Model"; "Mileage"; "URL"; "ImageURL"]} : gset string)
    ∪ (match listed_amount obj with Some _ => {["Price"]} | None => ∅ end).
Proof.
  intros (t & year & c1 & m & c2 & c3 & _ & _ & _ & Hp & _ & H2 & H3 & ->)
    %candidate_some.
  apply set_price_spec in Hp. apply set_primary_image_spec in H2.
  apply set_fallback_image_spec in H3.
  rewrite dom_set_default_image.
  assert (dom c3 ∪ {["ImageURL"]} = dom c2 ∪ {["ImageURL"]}) as ->.
  { rewrite H3. destruct (c2 !! "ImageURL"); [done|]. apply dom_insert_option. }
  rewrite H2, dom_insert_option, !dom_insert_L, Hp.
  unfold base_cars.
  destruct (listed_amount obj) as [a|]; [destruct (Py.float a)|];
    rewrite !dom_insert_L, dom_empty_L; set_solver.
Qed.

(** X4: a record of the markup path has the six fields Year, Make,
    Model, Price, Mileage and URL and no other; a record of the
    structured path has Year, Make, Model, Mileage, URL and ImageURL,
    with Price when the price object of its node has an amount, and no
    other. *)
Theorem record_fields `{Runtime} (soup : node) (cars : cars_dict) :
  In cars (extract soup) ->
  dom cars = ({["Year"; "Make"; "Model"; "Price"; "Mileage"; "URL"]} : gset string)
  \/ dom cars
     = ({["Year"; "Make"; "Model"; "Mileage"; "URL"; "ImageURL"]} : gset string)
  \/ dom cars
     = ({["Year"; "Make"; "Model"; "Mileage"; "URL"; "ImageURL"; "Price"]}
        : gset string).
Proof.
  rewrite extract_cases. destruct (json_data_found soup).
  - intros (_ & _ & _ & obj & _ & _ & _ & _ & _ & Hc)%structured_records_origin.
    right. rewrite (dom_candidate obj cars Hc).
    destruct (listed_amount obj); [right|left]; set_solver.
  - intros (c & _ & Hc)%markup_records_origin. left.
    apply container_record_some in Hc as (? & ? & ? & ? & ? & ? & _ & _ & _ & _ & _ & ->).
    apply dom_markup_cars.
Qed.

Lemma record_fields_witness :
  dom Examples.markup_record
  = ({["Year"; "Make"; "Model"; "Price"; "Mileage"; "URL"]} : gset string)
  \/ dom Examples.markup_record
     = ({["Year"; "Make"; "Model"; "Mileage"; "URL"; "ImageURL"]} : gset string)
  \/ dom Examples.markup_record
     = ({["Year"; "Make"; "Model"; "Mileage"; "URL"; "ImageURL"; "Price"]}
        : gset string).
Proof.
  apply (@record_fields Examples.runtime Examples.markup_page Examples.markup_record).
  vm_compute. left. reflexivity.
Defined.

(** ** Mileage *)

Section MileageFacts.

Lemma subtitle_step_nonneg (m m' : Z) (subtitle : value) :
  subtitle_step m subtitle = Ok m' -> 0 <= m -> 0 <= m'.
Proof.
  unfold subtitle_step. intros Hs Hm.
  destruct (Py.py_in "subtitle" subtitle) as [[]|]; cbn [mbind result_bind] in Hs;
    [|by injection Hs as <-|done].
  destruct (Py.getitem subtitle "subtitle") as [text|]; cbn [mbind result_bind] in Hs;
    [|done].
  destruct (Py.lower text) as [low|]; cbn [mbind result_bind] in Hs; [|done].
  destruct (contains _ low); [|by injection Hs as <-].
  destruct text as [| | | |s| |]; try done.
  destruct (search pat_thousands _) as [d|] eqn:E1.
  - rewrite (py_int_digits d) in Hs by by eapply search_thousands_digits.
    destruct (int_of_digits d) as [n|] eqn:Hn; cbn [mbind result_bind] in Hs;
      [|done].
    apply int_of_digits_nonneg in Hn. injection Hs as <-. lia.
  - destruct (search pat_plain _) as [g|] eqn:E2; [|by injection Hs as <-].
    rewrite (py_int_digits (drop_commas g)) in Hs
      by by eapply search_plain_digits.
    by apply int_of_digits_nonneg in Hs.
Qed.

Lemma subtitle_loop_nonneg (subtitles : list value) :
  forall m m', subtitle_loop m subtitles = Ok m' -> 0 <= m -> 0 <= m'.
Proof.
  induction subtitles as [|st l IH]; intros m m'; simpl; [by intros [= <-]|].
  destruct (subtitle_step m st) as [m1|] eqn:E; cbn [mbind result_bind]; [|done].
  intros Hl Hm. apply (IH _ _ Hl). by apply (subtitle_step_nonneg _ _ _ E).
Qed.

Lemma get_mileage_nonneg (obj : list (string * value)) (m : Z) :
  get_mileage obj = Ok m -> 0 <= m.
Proof.
  unfold get_mileage. destruct (Py.has_key _ obj); [|by intros [= <-]].
  destruct (Py.getitem _ _) as [sts|]; cbn [mbind result_bind]; [|done].
  destruct (Py.iter sts) as [l|]; cbn [mbind result_bind]; [|done].
  intros Hl. by apply (subtitle_loop_nonneg _ _ _ Hl).
Qed.

Lemma subtitle_loop_app (l1 l2 : list value) :
  forall m, subtitle_loop m (l1 ++ l2)
            = subtitle_loop m l1 ≫= fun m' => subtitle_loop m' l2.
Proof.
  induction l1 as [|st l IH]; intros m; simpl; [done|].
  destruct (subtitle_step m st); cbn [mbind result_bind]; [apply IH|done].
Qed.

Lemma subtitle_step_text (m : Z) (t : string) :
  subtitle_step m (VDict [("subtitle", VStr t)])
  = match search pat_thousands (chr t), search pat_plain (chr t) with
    | None, None => Ok m
    | _, _ => markup_mileage (chr t)
    end.
Proof.
  unfold subtitle_step, markup_mileage. simpl.
  destruct (contains _ (lower _)) eqn:Hkm.
  - by destruct (search pat_thousands (chr t)), (search pat_plain (chr t)).
  - by destruct (search_needs_km _ Hkm) as [-> ->].
Qed.

End MileageFacts.

(** X5: the Mileage of every record the pipeline returns is an integer
    that is not negative, and a container in which no [span] mentions km
    gets Mileage 0. *)
Theorem mileage_is_never_negative `{Runtime} (soup : node) (cars : cars_dict) :
  In cars (extract soup) ->
  (exists m, cars !! "Mileage" = Some (VInt m) /\ 0 <= m)
  /\ (forall container,
        In container (listing_containers soup) ->
        container_record container = Ok (Some cars) ->
        List.find is_mileage (spans container) = None ->
        cars !! "Mileage" = Some (VInt 0)).
Proof.
  intros Hin. split.
  - revert Hin. rewrite extract_cases. destruct (json_data_found soup).
    + intros (_ & _ & _ & obj & _ & _ & _ & _ & _ & Hc)%structured_records_origin.
      destruct (candidate_fields obj cars Hc)
        as (? & ? & m & _ & _ & _ & Hm & _ & _ & _ & HM & _).
      exists m. split; [done|]. by apply (get_mileage_nonneg obj).
    + intros (c & _ & Hc)%markup_records_origin.
      apply container_record_some in Hc
        as (? & ? & ? & ? & ? & m & _ & _ & _ & _ & Hm & ->).
      exists m. split; [done|]. by apply markup_mileage_nonneg in Hm.
  - intros c _ Hc Hnone.
    apply container_record_some in Hc
      as (? & ? & ? & ? & ? & m & _ & _ & _ & _ & Hm & ->).
    unfold find_mileage_text in Hm. rewrite Hnone in Hm.
    by injection Hm as <-.
Qed.

Lemma mileage_is_never_negative_witness :
  (exists m, Examples.markup_record !! "Mileage" = Some (VInt m) /\ 0 <= m)
  /\ (forall container,
        In container (listing_containers Examples.markup_page) ->
        container_record container = Ok (Some Examples.markup_record) ->
        List.find is_mileage (spans container) = None ->
        Examples.markup_record !! "Mileage" = Some (VInt 0)).
Proof.
  apply (@mileage_is_never_negative Examples.runtime Examples.markup_page).
  vm_compute. left. reflexivity.
Defined.

(** X6: the loop over the subtitles has no [break]: a subtitle whose
    text holds one of the two mileage forms replaces whatever an earlier
    subtitle gave, and a subtitle that holds neither leaves the mileage
    as it was. *)
Theorem last_subtitle_wins (m m' : Z) (earlier : list value) (t : string) :
  subtitle_loop m earlier = Ok m' ->
  ((exists d, thousands_form (chr t) d) \/ (exists g, plain_form (chr t) g) ->
     subtitle_loop m (earlier ++ [VDict [("subtitle", VStr t)]])
     = markup_mileage (chr t))
  /\ ((forall d, ~ thousands_form (chr t) d) -> (forall g, ~ plain_form (chr t) g) ->
     subtitle_loop m (earlier ++ [VDict [("subtitle", VStr t)]]) = Ok m').
Proof.
  intros He. rewrite subtitle_loop_app, He. cbn [mbind result_bind subtitle_loop].
  rewrite subtitle_step_text. split.
  - intros Hform.
    destruct (search pat_thousands (chr t)) as [d|] eqn:E1;
      [by destruct (markup_mileage _)|].
    destruct (search pat_plain (chr t)) as [g|] eqn:E2;
      [by destruct (markup_mileage _)|].
    destruct Hform as [[d Hd%occurs_thousands]|[g Hg%occurs_plain]].
    + by destruct (proj1 (search_none _ _) E1 d).
    + by destruct (proj1 (search_none _ _) E2 g).
  - intros Hno1 Hno2.
    destruct (search pat_thousands (chr t)) as [d|] eqn:E1.
    { apply search_sound, occurs_thousands in E1. by destruct (Hno1 d). }
    destruct (search pat_plain (chr t)) as [g|] eqn:E2; [|done].
    apply search_sound, occurs_plain in E2. by destruct (Hno2 g).
Qed.

Lemma last_subtitle_wins_witness :
  subtitle_loop 0
    ([VDict [("subtitle", VStr "78K km")]] ++ [VDict [("subtitle", VStr "5 km away")]])
  = markup_mileage (chr "5 km away").
Proof.
  apply (proj1 (last_subtitle_wins 0 78000
                  [VDict [("subtitle", VStr "78K km")]] "5 km away" eq_refl)).
  right. exists (chr "5"), [], [" "%char], (chr " away").
  split; [reflexivity|]. split.
  - exists (chr "5"), []. repeat split; [discriminate|by repeat constructor|constructor].
  - by repeat constructor.
Defined.
(** ** Year, make and model *)

Lemma isdigit_int_nonneg (token : chars) (year : Z) :
  isdigit token = true -> py_int token = Some year -> 0 <= year.
Proof.
  intros Hd Hy%py_int_literal. revert Hd Hy.
  unfold isdigit, int_literal. destruct token as [|c t]; [done|].
  cbn [forallb]. intros [Hc _]%andb_prop.
  destruct (Ascii.eqb c "+") eqn:Hplus.
  { apply Ascii.eqb_eq in Hplus as ->. done. }
  destruct (Ascii.eqb c "-") eqn:Hminus.
  { apply Ascii.eqb_eq in Hminus as ->. done. }
  intros Hy. by apply int_digits_nonneg in Hy.
Qed.

(** X7: the Year of a record of the markup path is never negative: the
    title test asks for a first token made of digits, so a sign never
    reaches [int]. *)
Theorem markup_year_is_not_negative (soup : node) (cars : cars_dict) :
  In cars (markup_records soup) ->
  exists year, cars !! "Year" = Some (VInt year) /\ 0 <= year.
Proof.
  intros (c & _ & Hc)%markup_records_origin.
  apply container_record_some in Hc
    as (te & ? & ? & ? & year & ? & Ht & _ & _ & Hy & _ & ->).
  exists year. split; [done|].
  apply find_some in Ht as [_ Htitle]. unfold is_title in Htitle.
  apply andb_prop in Htitle as [_ Hdigit].
  by apply (isdigit_int_nonneg _ _ Hdigit).
Qed.

Lemma markup_year_is_not_negative_witness :
  exists year, Examples.markup_record !! "Year" = Some (VInt year) /\ 0 <= year.
Proof.
  apply (markup_year_is_not_negative Examples.markup_page).
  vm_compute. left. reflexivity.
Defined.

Lemma split_from_no_space (s : chars) :
  forall cur t, Forall (fun c => is_space c = false) cur ->
    In t (split_from cur s) -> Forall (fun c => is_space c = false) t.
Proof.
  induction s as [|c s IH]; intros cur t Hcur; simpl.
  - destruct cur as [|a cur]; [done|]. intros [<-|[]].
    by apply (Forall_rev (l := a :: cur)).
  - destruct (is_space c) eqn:Hc.
    + destruct cur as [|a cur]; [by apply IH|].
      intros [<-|Hin]; [by apply (Forall_rev (l := a :: cur))|]. by apply (IH []).
    + apply IH. by constructor.
Qed.

Lemma token_no_space (s : chars) (i : nat) :
  (i < length (Text.split s))%nat ->
  Forall (fun c => is_space c = false) (chr (Py.str (nth i (Text.split s) []))).
Proof.
  intros Hi. unfold Py.str. rewrite list_ascii_of_string_of_list_ascii.
  apply (split_from_no_space s []); [constructor|]. by apply nth_In.
Qed.

(** X8: in every record the pipeline returns, Make and Model are single
    words: they hold no white space, so a make or model of several words
    is cut at its first word. *)
Theorem make_and_model_are_single_words `{Runtime} (soup : node) (cars : cars_dict) :
  In cars (extract soup) ->
  exists mk md,
    cars !! "Make" = Some (VStr mk) /\ cars !! "Model" = Some (VStr md)
    /\ Forall (fun c => is_space c = false) (chr mk)
    /\ Forall (fun c => is_space c = false) (chr md).
Proof.
  rewrite extract_cases. destruct (json_data_found soup).
  - intros (_ & _ & _ & obj & _ & _ & _ & _ & _ & Hc)%structured_records_origin.
    destruct (candidate_fields obj cars Hc)
      as (t & ? & ? & _ & Hlen & _ & _ & _ & HMk & HMd & _).
    eexists _, _. split; [done|]. split; [done|].
    split; apply token_no_space; lia.
  - intros (c & _ & Hc)%markup_records_origin.
    apply container_record_some in Hc
      as (te & ? & ? & ? & year & ? & Ht & _ & _ & Hy & _ & ->).
    apply find_some in Ht as [_ Htitle]. unfold is_title in Htitle.
    apply andb_prop in Htitle as [[_ Hlen%Nat.leb_le]%andb_prop _].
    eexists _, _. split; [done|]. split; [done|].
    split; apply token_no_space; lia.
Qed.

Lemma make_and_model_are_single_words_witness :
  exists mk md,
    MoreExamples.land_rover_record !! "Make" = Some (VStr mk)
    /\ MoreExamples.land_rover_record !! "Model" = Some (VStr md)
    /\ Forall (fun c => is_space c = false) (chr mk)
    /\ Forall (fun c => is_space c = false) (chr md).
Proof.
  apply (@make_and_model_are_single_words Examples.runtime MoreExamples.land_rover_page).
  vm_compute. left. reflexivity.
Defined.

(** ** Prices with a decimal point *)

Lemma int_digits_stops (s : chars) (c : ascii) :
  In c s -> is_decimal c = false -> Ascii.eqb c "_" = false ->
  forall acc b, int_digits acc b s = None.
Proof.
  intros Hin Hdec Hund. induction s as [|a s IH]; intros acc b; [done|].
  simpl. destruct Hin as [->|Hin].
  - by rewrite Hdec, Hund.
  - destruct (is_decimal a); [by apply IH|].
    destruct (Ascii.eqb a "_"); [|done]. destruct b; [by apply IH|done].
Qed.

Lemma py_int_kept_point (s : chars) :
  In "."%char s -> py_int (keep_digits_and_dots s) = None.
Proof.
  intros Hin.
  assert (In "."%char (keep_digits_and_dots s)) as Hkept.
  { apply list_elem_of_In, list_elem_of_filter. split; [done|by apply list_elem_of_In]. }
  unfold py_int. destruct (_ <? _); [done|].
  unfold int_literal. destruct (keep_digits_and_dots s) as [|c t] eqn:Hk; [done|].
  assert (is_decimal c || Ascii.eqb c "." = true) as Hc.
  { assert (c ∈ keep_digits_and_dots s) as Hin' by (rewrite Hk; left).
    unfold keep_digits_and_dots in Hin'. apply list_elem_of_filter in Hin' as [Hc _].
    by destruct (is_decimal c || Ascii.eqb c "."). }
  destruct (Ascii.eqb c "+") eqn:Hplus.
  { apply Ascii.eqb_eq in Hplus as ->. done. }
  destruct (Ascii.eqb c "-") eqn:Hminus.
  { apply Ascii.eqb_eq in Hminus as ->. done. }
  by apply (int_digits_stops _ "."%char).
Qed.

(** X9: the markup path reads a price with [int], so a price text that
    holds a decimal point anywhere, cents included, gives Price 0. *)
Theorem price_with_a_point_is_zero (price_text : chars) :
  In "."%char price_text -> markup_price price_text = 0.
Proof.
  intros Hin. unfold markup_price, Py.int. by rewrite py_int_kept_point.
Qed.

Lemma price_with_a_point_is_zero_witness :
  markup_price (chr "$15,995.50") = 0.
Proof.
  apply price_with_a_point_is_zero. simpl. tauto.
Defined.

(** ** Links *)

Lemma chr_append (a b : string) : chr (a +:+ b) = chr a ++ chr b.
Proof. induction a as [|c a IH]; [done|]. simpl. by rewrite IH. Qed.

Lemma absolute_url_starts_with_http (url_text : string) :
  starts_with (chr "http") (chr (absolute_url url_text)) = true.
Proof.
  unfold absolute_url. destruct (starts_with _ (chr url_text)) eqn:Hs; [done|].
  by rewrite chr_append.
Qed.

(** X10: the URL of every record of the markup path starts with [http]:
    it is the link itself when that starts with [http], the site origin
    followed by the link otherwise; making it absolute a second time
    changes nothing. *)
Theorem markup_urls_are_absolute (soup : node) (cars : cars_dict) :
  In cars (markup_records soup) ->
  exists container link links,
    In container (listing_containers soup)
    /\ Soup.find_all "a" (Soup.has_attr "href") container = link :: links
    /\ cars !! "URL" = Some (VStr (absolute_url (default "" (Soup.get "href" link))))
    /\ (forall href, starts_with (chr "http") (chr (absolute_url href)) = true)
    /\ (forall href, absolute_url (absolute_url href) = absolute_url href)
    /\ (forall href, starts_with (chr "http") (chr href) = true ->
          absolute_url href = href)
    /\ (forall href, starts_with (chr "http") (chr href) = false ->
          absolute_url href = "https://www.facebook.com" +:+ href).
Proof.
  intros (c & Hin & Hc)%markup_records_origin.
  apply container_record_some in Hc
    as (? & ? & link & links & ? & ? & _ & _ & Hl & _ & _ & ->).
  exists c, link, links. do 3 (split; [done|]).
  split; [apply absolute_url_starts_with_http|]. split; [|split].
  - intros href. pose proof (absolute_url_starts_with_http href) as Hs.
    unfold absolute_url at 1. by rewrite Hs.
  - intros href Hs. unfold absolute_url. by rewrite Hs.
  - intros href Hs. unfold absolute_url. by rewrite Hs.
Qed.

Lemma markup_urls_are_absolute_witness :
  exists container link links,
    In container (listing_containers Examples.markup_page)
    /\ Soup.find_all "a" (Soup.has_attr "href") container = link :: links
    /\ Examples.markup_record !! "URL"
       = Some (VStr (absolute_url (default "" (Soup.get "href" link))))
    /\ (forall href, starts_with (chr "http") (chr (absolute_url href)) = true)
    /\ (forall href, absolute_url (absolute_url href) = absolute_url href)
    /\ (forall href, starts_with (chr "http") (chr href) = true ->
          absolute_url href = href)
    /\ (forall href, starts_with (chr "http") (chr href) = false ->
          absolute_url href = "https://www.facebook.com" +:+ href).
Proof.
  apply (markup_urls_are_absolute Examples.markup_page Examples.markup_record).
  vm_compute. left. reflexivity.
Defined.
(** ** The listing containers *)

(** X11: the containers are [div] elements of the page; when the page
    has a [div] with the role [article] only such elements are read, and
    the elements picked by class are read only when it has none. *)
Theorem containers_by_role_first (soup container : node) :
  In container (listing_containers soup) ->
  In container (Soup.descendants soup)
  /\ exists attrs children,
       container = Elem "div" attrs children
       /\ (Soup.attr_is "role" "article" attrs = true
           \/ (Soup.class_has "x1qjc9v5" attrs = true
               /\ Soup.find_all "div" (Soup.attr_is "role" "article") soup = [])).
Proof.
  unfold listing_containers.
  destruct (Soup.find_all "div" (Soup.attr_is "role" "article") soup)
    as [|c0 l0] eqn:Hrole.
  - unfold Soup.find_all. intros [Hin Htag]%filter_In. split; [done|].
    destruct container as [| |tag attrs children]; [done|done|]. simpl in Htag.
    apply andb_prop in Htag as [->%String.eqb_eq Hclass].
    exists attrs, children. split; [done|]. by right.
  - rewrite <- Hrole. unfold Soup.find_all. intros [Hin Htag]%filter_In.
    split; [done|].
    destruct container as [| |tag attrs children]; [done|done|]. simpl in Htag.
    apply andb_prop in Htag as [->%String.eqb_eq Hr].
    exists attrs, children. split; [done|]. by left.
Qed.

Lemma containers_by_role_first_witness :
  In (Examples.article "2018 Honda Civic EX" "$15,995" "78K km")
     (Soup.descendants Examples.markup_page)
  /\ exists attrs children,
       Examples.article "2018 Honda Civic EX" "$15,995" "78K km"
       = Elem "div" attrs children
       /\ (Soup.attr_is "role" "article" attrs = true
           \/ (Soup.class_has "x1qjc9v5" attrs = true
               /\ Soup.find_all "div" (Soup.attr_is "role" "article")
                    Examples.markup_page = [])).
Proof.
  apply (containers_by_role_first Examples.markup_page).
  vm_compute. left. reflexivity.
Defined.

(** ** The query builder on values *)

(** On integer bounds and text names the untyped builder gives the
    URL of [build_search_url]; [None] stands for an option that is not
    given. *)
Lemma builder_on_values_agrees `{Runtime} (o : FilterOptions) :
  build_search_url_values (location o)
    (int_or_none (min_price o)) (int_or_none (max_price o))
    (int_or_none (days_listed o)) (int_or_none (min_mileage o))
    (int_or_none (max_mileage o)) (int_or_none (min_year o))
    (int_or_none (max_year o)) (str_or_none (transmission o))
    (str_or_none (make o)) (str_or_none (model o))
  = build_search_url o.
Proof.
  destruct o as [loc [a|] [b|] [c|] [d|] [e|] [f|] [g|] [t|] [mk|] [md|]];
    reflexivity.
Qed.

(** X12: [search_marketplace] reads make and model with [''] as default,
    which is not [None]: preferences that name neither give a URL with
    the empty parameter [query=], and preferences that give one of them
    always have a [query] parameter; only make and model both [null]
    leave it out. *)
Theorem missing_make_and_model_give_empty_query `{Runtime}
    (preferences : list (string * value)) :
  (Py.dict_get "make" preferences = None ->
   Py.dict_get "model" preferences = None ->
   exists params, marketplace_params preferences
                  = params ++ ["query="; "exact=false"])
  /\ (Py.dict_get "make" preferences <> Some VNone
      \/ Py.dict_get "model" preferences <> Some VNone ->
      exists params q, marketplace_params preferences
                       = params ++ ["query=" +:+ q; "exact=false"])
  /\ (Py.dict_get "make" preferences = Some VNone ->
      Py.dict_get "model" preferences = Some VNone ->
      Forall (fun p => starts_with (chr "query=") (chr p) = false)
             (marketplace_params preferences)).
Proof.
  unfold marketplace_params, search_params_values, Py.get_default.
  split; [|split].
  - intros -> ->. simpl. eexists. by rewrite <- app_assoc.
  - intros Hgiven.
    destruct (Py.dict_get "make" preferences) as [mk|];
      destruct (Py.dict_get "model" preferences) as [md|];
      try destruct mk; try destruct md; simpl;
      try (by destruct Hgiven);
      eexists _, _; rewrite <- app_assoc; reflexivity.
  - intros -> ->. simpl. unfold append_given.
    repeat match goal with
    | |- context [is_none ?v] => destruct (is_none v)
    end;
    repeat (apply Forall_app; split); repeat constructor.
Qed.

Lemma missing_make_and_model_give_empty_query_witness :
  exists params,
    @marketplace_params Examples.runtime
      [("recommendation", VStr "A compact car"); ("max_price", VInt 15000)]
    = params ++ ["query="; "exact=false"].
Proof.
  apply (proj1 (@missing_make_and_model_give_empty_query Examples.runtime
           [("recommendation", VStr "A compact car"); ("max_price", VInt 15000)]));
    reflexivity.
Defined.

(** X13: [search_marketplace] returns at most five listings, the first
    of the scrape in their order, and all of them when the scrape has
    five or fewer; when no page could be read they are the five sample
    records, none lost; preferences that are no dictionary give the empty
    list. *)
Theorem search_marketplace_returns_the_first_five `{Runtime}
    (items : list (string * value)) (s : session) :
  (length (search_marketplace (VDict items) s) <= 5)%nat
  /\ (exists rest,
        scrape_listings s = search_marketplace (VDict items) s ++ rest)
  /\ ((length (scrape_listings s) <= 5)%nat ->
        search_marketplace (VDict items) s = scrape_listings s)
  /\ ((forall soup, s <> Parsed soup) ->
        search_marketplace (VDict items) s = get_sample_data)
  /\ (forall preferences, (forall items', preferences <> VDict items') ->
        search_marketplace preferences s = []).
Proof.
  simpl. split; [rewrite length_take; lia|].
  split; [exists (drop 5 (scrape_listings s)); by rewrite take_drop|].
  split; [intros Hlen; by apply take_ge|]. split.
  - intros Hs. destruct s as [| |soup]; [done|done|]. by destruct (Hs soup).
  - intros preferences Hno. destruct preferences as [| | | | | |items']; try done.
    by destruct (Hno items').
Qed.

Lemma search_marketplace_returns_the_first_five_witness :
  @search_marketplace Examples.runtime (VDict [("make", VStr "Honda")]) NoBrowser
  = get_sample_data.
Proof.
  apply (proj1 (proj2 (proj2 (proj2 (@search_marketplace_returns_the_first_five
            Examples.runtime [("make", VStr "Honda")] NoBrowser))))).
  discriminate.
Defined.
(** ** The response of the model *)

Lemma star_any_last {R : Type} (k : chars -> option R) (t : chars) :
  forall fuel, (length t <= fuel)%nat ->
    star (rmatch any_char) fuel t k = last_success k t.
Proof.
  induction t as [|c t IH]; intros fuel Hfuel.
  - by destruct fuel.
  - destruct fuel as [|fuel]; [simpl in Hfuel; lia|].
    cbn [star rmatch any_char last_success].
    replace (length t <? length (c :: t))%nat with true
      by (symmetry; apply Nat.ltb_lt; simpl; lia).
    rewrite IH by (simpl in Hfuel; lia). done.
Qed.

Section Braces.
Context {R : Type} (f : chars -> R) (k : chars -> option R).
Hypothesis k_close : forall r, k ("}" :: r)%char = Some (f r).
Hypothesis k_other : forall c r, c <> "}"%char -> k (c :: r) = None.
Hypothesis k_end : k [] = None.

Lemma last_success_none (t : chars) :
  ~ In "}"%char t <-> last_success k t = None.
Proof.
  induction t as [|c t IH]; simpl; [split; [intros _; apply k_end|by intros _ []]|].
  split.
  - intros Hno. rewrite (proj1 IH) by tauto. apply k_other. tauto.
  - destruct (last_success k t) eqn:Ht; [done|]. intros Hk [->|Hin].
    + by rewrite k_close in Hk.
    + by apply (proj2 IH).
Qed.

Lemma last_success_found (u r : chars) :
  ~ In "}"%char r -> last_success k (u ++ ("}" :: r)%char) = Some (f r).
Proof.
  intros Hno. induction u as [|c u IH]; simpl.
  - by rewrite (proj1 (last_success_none r) Hno).
  - by rewrite IH.
Qed.

Lemma last_success_some (t : chars) (x : R) :
  last_success k t = Some x ->
  exists u r, t = u ++ ("}" :: r)%char /\ ~ In "}"%char r /\ x = f r.
Proof.
  induction t as [|c t IH]; simpl; [by rewrite k_end|].
  destruct (last_success k t) as [y|] eqn:Ht.
  - intros [= <-]. destruct (IH eq_refl) as (u & r & -> & ? & ?).
    by exists (c :: u), r.
  - intros Hk. apply last_success_none in Ht.
    destruct (ascii_dec c "}") as [->|Hc]; [|by rewrite k_other in Hk].
    rewrite k_close in Hk. injection Hk as <-. by exists [], t.
Qed.

End Braces.

(** The continuation behind the [.*] of the pattern on the text [s]. *)
Lemma match_here_braces (c : ascii) (t : chars) :
  match_here pat_braces (c :: t)
  = if Ascii.eqb c "{"
    then last_success
           (fun s' => rmatch (RChr "}") s'
              (fun s1 => rmatch nothing s1
                 (fun _ => Some (take (length (c :: t) - length s1) (c :: t))))) t
    else None.
Proof.
  unfold match_here. cbn [pat_braces grp rest rmatch].
  destruct (Ascii.eqb c "{"); [|done]. by apply star_any_last.
Qed.

Lemma match_here_braces_found (body post : chars) :
  ~ In "}"%char post ->
  match_here pat_braces (("{" :: body)%char ++ ("}" :: post)%char)
  = Some (("{" :: body)%char ++ ["}"%char]).
Proof.
  intros Hno. simpl app. rewrite match_here_braces. simpl Ascii.eqb. cbv iota.
  rewrite (last_success_found
    (fun r => take (length (("{" :: body)%char ++ ("}" :: post)%char) - length r)
                   (("{" :: body)%char ++ ("}" :: post)%char))).
  - f_equal. 
    replace (("{" :: body)%char ++ ("}" :: post)%char)
      with ((("{" :: body)%char ++ ["}"%char]) ++ post)
      by (by rewrite <- app_assoc).
    apply take_app_length_sub.
  - intros r. simpl. by destruct r.
  - intros c r Hc. simpl. by rewrite (proj2 (Ascii.eqb_neq _ _) Hc).
  - done.
  - done.
Qed.

Lemma match_here_braces_some (s g : chars) :
  match_here pat_braces s = Some g ->
  exists body post,
    s = ("{" :: body)%char ++ ("}" :: post)%char /\ ~ In "}"%char post
    /\ g = ("{" :: body)%char ++ ["}"%char].
Proof.
  destruct s as [|c t]; [done|]. rewrite match_here_braces.
  destruct (Ascii.eqb c "{") eqn:Hc; [|done]. apply Ascii.eqb_eq in Hc as ->.
  intros Hl. apply (last_success_some
    (fun r => take (length ("{" :: t)%char - length r) ("{" :: t)%char)) in Hl
    as (u & r & -> & Hno & ->).
  - exists u, r. split; [done|]. split; [done|].
    replace (("{" :: u ++ ("}" :: r))%char)
      with ((("{" :: u)%char ++ ["}"%char]) ++ r)
      by (simpl; by rewrite <- app_assoc).
    apply take_app_length_sub.
  - intros r. simpl. by destruct r.
  - intros c r Hc. simpl. by rewrite (proj2 (Ascii.eqb_neq _ _) Hc).
  - done.
Qed.

Lemma search_braces_found (pre body post : chars) :
  ~ In "{"%char pre -> ~ In "}"%char post ->
  search pat_braces (pre ++ ("{" :: body)%char ++ ("}" :: post)%char)
  = Some (("{" :: body)%char ++ ["}"%char]).
Proof.
  intros Hpre Hpost. induction pre as [|c pre IH].
  - simpl app at 1.
    pose proof (match_here_braces_found body post Hpost) as Hm.
    simpl app in *. simpl. by rewrite Hm.
  - change ((c :: pre) ++ ?x) with (c :: (pre ++ x)).
    cbn [search]. rewrite match_here_braces.
    rewrite (proj2 (Ascii.eqb_neq c "{")) by (intros ->; apply Hpre; by left).
    apply IH. intros Hin. apply Hpre. by right.
Qed.

Lemma search_braces_some (s g : chars) :
  search pat_braces s = Some g -> brace_span s g.
Proof.
  induction s as [|c s IH].
  - simpl. by destruct (match_here pat_braces []).
  - cbn [search]. destruct (match_here pat_braces (c :: s)) as [g'|] eqn:Hm.
    + intros [= ->]. apply match_here_braces_some in Hm as (body & post & Hs & ? & ->).
      exists [], body, post. rewrite Hs. split; [done|]. split; [by intros []|done].
    + intros (pre & body & post & -> & Hpre & Hpost & ->)%IH.
      exists (c :: pre), body, post. split; [done|]. split; [|done].
      intros [->|Hin]; [|done].
      pose proof (match_here_braces_found (pre ++ ("{" :: body)%char) post Hpost)
        as Hf.
      replace ((("{" :: pre ++ ("{" :: body))%char) ++ ("}" :: post)%char)
        with (("{" :: pre ++ ("{" :: body) ++ ("}" :: post))%char) in Hf
        by (simpl; by rewrite <- app_assoc).
      congruence.
Qed.

(** X14: from the text of the response [analyze_preferences] decodes the
    span from the first opening brace to the last closing brace, whatever
    surrounds it; when the text has no opening brace with a closing brace
    after it, the whole text is decoded; when decoding fails the result
    is [None]. *)
Theorem response_is_read_between_braces `{Runtime} (response_text : string) :
  (forall g, brace_span (chr response_text) g ->
     parse_response response_text = json_loads (Py.str g))
  /\ ((forall g, ~ brace_span (chr response_text) g) ->
      parse_response response_text = json_loads response_text)
  /\ (forall g g', brace_span (chr response_text) g ->
        brace_span (chr response_text) g' -> g = g').
Proof.
  assert (forall g, brace_span (chr response_text) g ->
            search pat_braces (chr response_text) = Some g) as Hfound.
  { intros g (pre & body & post & -> & ? & ? & ->). by apply search_braces_found. }
  unfold parse_response. split; [|split].
  - intros g Hg. by rewrite (Hfound g Hg).
  - intros Hno. destruct (search pat_braces _) as [g|] eqn:Hs; [|done].
    apply search_braces_some in Hs. by destruct (Hno g).
  - intros g g' Hg Hg'. apply Hfound in Hg, Hg'. congruence.
Qed.

Lemma response_is_read_between_braces_witness :
  @parse_response Examples.runtime
    ("Here you go: " +:+ Examples.category_text +:+ " Enjoy!")
  = Some Examples.category.
Proof.
  rewrite (proj1 (@response_is_read_between_braces Examples.runtime
             ("Here you go: " +:+ Examples.category_text +:+ " Enjoy!"))
             (chr Examples.category_text)).
  - reflexivity.
  - exists (chr "Here you go: "),
      (chr (Examples.quoted "custom_title" +:+ ": " +:+ Examples.quoted "Cars")),
      (chr " Enjoy!").
    split; [reflexivity|]. split; [|split; [|reflexivity]];
      simpl; intros Hin; repeat destruct Hin as [Hin|Hin]; done.
Defined.


(** ** Showing the records *)

Lemma for_each_app {A : Type} (body : A -> result unit) (before after : list A) :
  for_each body (before ++ after)
  = (_ ← for_each body before; for_each body after).
Proof.
  induction before as [|x before IH]; [done|].
  simpl. destruct (body x); [|done]. apply IH.
Qed.

Lemma for_each_returns {A : Type} (body : A -> result unit) (l : list A) :
  (forall x, In x l -> body x = Ok tt) -> for_each body l = Ok tt.
Proof.
  induction l as [|x l IH]; intros Hall; [done|].
  simpl. rewrite (Hall x) by (by left). apply IH. intros y Hy. apply Hall. by right.
Qed.

Lemma for_each_raises {A : Type} (body : A -> result unit) (l : list A) (x : A) :
  In x l -> (exists e, body x = Raise e) -> exists e, for_each body l = Raise e.
Proof.
  intros Hin [e He]. induction l as [|y l IH]; [done|].
  simpl. destruct Hin as [->|Hin].
  - rewrite He. by exists e.
  - destruct (body y); [by apply IH|by eexists].
Qed.

Lemma for_each_stops {A : Type} (body : A -> result unit)
    (before after : list A) (x : A) (e : exn) :
  for_each body before = Ok tt -> body x = Raise e ->
  for_each body (before ++ x :: after) = Raise e.
Proof. intros Hb Hx. rewrite for_each_app, Hb. simpl. by rewrite Hx. Qed.

Lemma for_each_only {A : Type} (body : A -> result unit) (e : exn) (l : list A) :
  (forall x, In x l -> body x = Ok tt \/ body x = Raise e) ->
  for_each body l = Ok tt \/ for_each body l = Raise e.
Proof.
  induction l as [|x l IH]; intros Hall; [by left|].
  simpl. destruct (Hall x) as [->| ->]; [by left| |by right].
  apply IH. intros y Hy. apply Hall. by right.
Qed.

Section ReportFacts.
Context `{Runtime}.

(** The fields of a record of the pipeline, with the kinds of their
    values. *)
Lemma record_values (soup : node) (car : cars_dict) :
  In car (extract soup) ->
  (exists year, car !! "Year" = Some (VInt year))
  /\ (exists mk, car !! "Make" = Some (VStr mk))
  /\ (exists md, car !! "Model" = Some (VStr md))
  /\ (exists m, car !! "Mileage" = Some (VInt m))
  /\ (exists url, car !! "URL" = Some (VStr url))
  /\ (car !! "Price" = None
      \/ (exists f, car !! "Price" = Some (VFloat f))
      \/ (exists p, car !! "Price" = Some (VInt p))).
Proof.
  rewrite extract_cases. destruct (json_data_found soup).
  - intros (_ & _ & _ & obj & _ & _ & _ & _ & _ & Hc)%structured_records_origin.
    destruct (candidate_fields obj car Hc)
      as (t & year & m & _ & _ & _ & _ & HY & HMk & HMd & HM & HU & _ & HP).
    repeat (split; [by eexists|]).
    rewrite HP. destruct (listed_amount obj) as [amount|]; [|by left].
    right. destruct (Py.float amount); [left|right]; by eexists.
  - intros (c & _ & Hc)%markup_records_origin.
    apply container_record_some in Hc
      as (te & ? & ? & ? & year & m & _ & _ & _ & _ & _ & ->).
    repeat (split; [by eexists|]). right. right. by eexists.
Qed.

Lemma card_of_record (soup : node) (car : cars_dict) :
  In car (extract soup) ->
  card car = match car !! "Price" with
             | None => Raise KeyError
             | Some price => formats GroupedFixed price
             end.
Proof.
  intros ([y HY] & [mk HMk] & [md HMd] & [m HM] & [u HU] & HP)%record_values.
  unfold card, subscript. rewrite HY, HMk, HMd, HM, HU.
  destruct (car !! "Price") as [price|]; [|done]. simpl.
  by destruct (formats GroupedFixed price) as [[]|].
Qed.

Lemma sample_listing_of_record (soup : node) (car : cars_dict) :
  In car (extract soup) ->
  sample_listing car = match car !! "Price" with
                       | None => Raise TypeError
                       | Some _ => Ok tt
                       end.
Proof.
  intros (_ & _ & _ & [m HM] & _ & HP)%record_values.
  unfold sample_listing. rewrite HM.
  destruct HP as [->|[[f ->]|[p ->]]]; done.
Qed.

Lemma in_take {A : Type} (n : nat) (l : list A) (x : A) :
  In x (take n l) -> In x l.
Proof.
  intros Hin. rewrite <- (take_drop n l). apply in_or_app. by left.
Qed.

End ReportFacts.

(** X15: [display_listings] needs a price in every record it is given.
    On the listings [search_marketplace] returns for a page, it returns
    when every record has a price that [',.2f'] formats, and raises
    [KeyError] at the first record without one, after the cards before
    it; with any record without a price it raises. *)
Theorem display_needs_every_price `{Runtime}
    (items : list (string * value)) (soup : node) :
  let shown := search_marketplace (VDict items) (Parsed soup) in
  ((forall car, In car shown ->
      exists price, car !! "Price" = Some price
                    /\ formats GroupedFixed price = Ok tt) ->
   display_listings shown = Ok tt)
  /\ (forall before car after,
        shown = before ++ car :: after ->
        for_each card before = Ok tt -> car !! "Price" = None ->
        display_listings shown = Raise KeyError)
  /\ ((exists car, In car shown /\ car !! "Price" = None) ->
      exists e, display_listings shown = Raise e).
Proof.
  simpl.
  assert (forall car, In car (take 5 (extract soup)) ->
            card car = match car !! "Price" with
                       | None => Raise KeyError
                       | Some price => formats GroupedFixed price
                       end) as Hcard.
  { intros car Hin%in_take. by apply (card_of_record soup). }
  assert (forall l, display_listings l = for_each card l) as Hd by (by intros []).
  rewrite Hd. split; [|split].
  - intros Hall. apply for_each_returns. intros car Hin.
    destruct (Hall car Hin) as (price & HP & Hf). by rewrite (Hcard car Hin), HP.
  - intros before car after Hs Hb HP. rewrite Hs.
    apply for_each_stops; [done|].
    rewrite Hcard, HP; [done|]. rewrite Hs. apply in_or_app. right. by left.
  - intros (car & Hin & HP). apply (for_each_raises card _ car Hin).
    exists KeyError. by rewrite (Hcard car Hin), HP.
Qed.

Lemma display_needs_every_price_witness :
  @display_listings MoreExamples.runtime
    (@search_marketplace MoreExamples.runtime (VDict [("make", VStr "Honda")])
       (Parsed MoreExamples.unpriced_page))
  = Raise KeyError.
Proof.
  apply (proj1 (proj2 (@display_needs_every_price MoreExamples.runtime
            [("make", VStr "Honda")] MoreExamples.unpriced_page))
           [] Examples.unpriced_record []); reflexivity.
Defined.

(** X16: a record without a price among the first five stops the command
    line: [print_summary] formats the [None] that [get] gives with [','],
    which raises [TypeError]; [main] does not catch it, so nothing is
    saved. When every one of the first five has a price and the
    statistics return, the summary is printed and the stored records go
    on to be saved. *)
Theorem record_without_price_stops_the_summary `{Runtime}
    (statistics : list cars_dict -> result unit) (soup : node) :
  ((exists car, In car (take 5 (extract soup)) /\ car !! "Price" = None) ->
   (exists e, main_report statistics (Parsed soup) = Crashed e)
   /\ (statistics (extract soup) = Ok tt ->
       main_report statistics (Parsed soup) = Crashed TypeError))
  /\ (extract soup <> [] -> statistics (extract soup) = Ok tt ->
      (forall car, In car (take 5 (extract soup)) -> car !! "Price" <> None) ->
      main_report statistics (Parsed soup) = Summarised (extract soup)).
Proof.
  assert (forall car, In car (take 5 (extract soup)) ->
            sample_listing car = match car !! "Price" with
                                 | None => Raise TypeError
                                 | Some _ => Ok tt
                                 end) as Hline.
  { intros car Hin%in_take. by apply (sample_listing_of_record soup). }
  unfold main_report, print_summary. simpl.
  destruct (extract soup) as [|first others] eqn:He.
  { split; [by intros (car & [] & _)|done]. }
  rewrite <- He in *. split.
  - intros (car & Hin & HP).
    assert (exists e, for_each sample_listing (take 5 (extract soup)) = Raise e)
      as [e Hraise].
    { apply (for_each_raises _ _ car Hin). exists TypeError.
      by rewrite (Hline car Hin), HP. }
    assert (e = TypeError) as ->.
    { destruct (for_each_only sample_listing TypeError (take 5 (extract soup)))
        as [Hok|Hty]; [|congruence..].
      intros c Hc. rewrite (Hline c Hc). destruct (c !! "Price"); [by left|by right]. }
    rewrite He at 1 2. split.
    + destruct (statistics (extract soup)); simpl; [|by eexists].
      rewrite Hraise. by eexists.
    + intros ->. simpl. by rewrite Hraise.
  - intros _ Hst Hall. rewrite Hst. simpl.
    rewrite for_each_returns; [by rewrite He|].
    intros car Hin. rewrite (Hline car Hin).
    destruct (car !! "Price") eqn:HP; [done|]. by destruct (Hall car Hin).
Qed.

Lemma record_without_price_stops_the_summary_witness :
  @main_report MoreExamples.runtime MoreExamples.quiet
    (Parsed MoreExamples.unpriced_page)
  = Crashed TypeError.
Proof.
  apply (proj2 (proj1 (@record_without_price_stops_the_summary
                         MoreExamples.runtime MoreExamples.quiet
                         MoreExamples.unpriced_page)
                  (ex_intro _ Examples.unpriced_record
                     (conj (or_introl eq_refl) eq_refl)))).
  reflexivity.
Defined.

(** ** The scraper object *)

(** X17: [scrape_listings] stores its result in the object only when it
    searches a page; the sample data it returns when no browser can be
    had or a step raises is not stored, so on a new scraper the summary
    and the CSV find nothing although five records were returned. After
    a page is searched what is stored is what was returned. *)
Theorem sample_data_is_not_stored `{Runtime}
    (statistics : list cars_dict -> result unit) (self : scraper) (s : session) :
  fst (scrape_listings_in self s) = scrape_listings s
  /\ ((forall soup, s <> Parsed soup) ->
      length (fst (scrape_listings_in self s)) = 5%nat
      /\ listings (snd (scrape_listings_in self s)) = listings self
      /\ main_report statistics s = NothingStored)
  /\ (forall soup, s = Parsed soup ->
      listings (snd (scrape_listings_in self s)) = fst (scrape_listings_in self s)).
Proof.
  split; [by destruct s|]. split.
  - intros Hs. destruct s as [| |soup]; [done|done|]. by destruct (Hs soup).
  - by intros soup ->.
Qed.

Lemma sample_data_is_not_stored_witness :
  length (fst (@scrape_listings_in Examples.runtime new_scraper NoBrowser)) = 5%nat
  /\ listings (snd (@scrape_listings_in Examples.runtime new_scraper NoBrowser)) = []
  /\ @main_report Examples.runtime MoreExamples.quiet NoBrowser = NothingStored.
Proof.
  apply (proj1 (proj2 (@sample_data_is_not_stored Examples.runtime
                         MoreExamples.quiet new_scraper NoBrowser))).
  discriminate.
Defined.
